(** * obswaveform: the audio-to-spectrum pipeline of [src/source.cpp]

    A shallow embedding of the [WAVSource] class: the configuration step
    ([get_settings]), reconfiguration ([update]), the interpolation index
    table ([init_interp]), the audio capture callback ([capture_audio]),
    the retry logic ([recapture_audio]) and the band-averaging loops of
    [render_bars].

    Conventions.
    - C++ integers are [Z]; every conversion and every unsigned operation
      has its wrap-around written out ([to_size_t], [to_uint], [to_int]).
      [size_t] is 64 bits wide, [int] and [unsigned int] are 32 bits wide.
    - A signed overflow, a division by zero, an out-of-range conversion of
      a floating-point number to an integer and an out-of-bounds access
      have no defined behaviour in C++: functions that can run into one
      return [option], and [None] stands for "no defined result" (also for
      a counting loop that cannot end and for an exception that nothing
      catches), never for an error the program reports.
    - [float] is IEEE-754 binary32 and [double] is binary64, both through
      the executable operations of [SpecFloat].
    - libobs ([circlebuf], [obs_get_audio_info], [blog], ...) and libm are
      outside the repository: a circular buffer is modelled by its FIFO
      contents, the queries by the values they return. *)

From stdpp Require Import base list option strings numbers.
From Stdlib Require Import SpecFloat QArith Qround.
From Stdlib.Strings Require Import Byte.

Open Scope Z_scope.

(** ** C++ integer types *)

Module CInt.

Definition SIZE_MOD : Z := 2 ^ 64.
Definition UINT_MOD : Z := 2 ^ 32.
Definition INT_MIN : Z := - 2 ^ 31.
Definition INT_MAX : Z := 2 ^ 31 - 1.
Definition PTRDIFF_MAX : Z := 2 ^ 63 - 1.

(** [(size_t)z] and arithmetic in [size_t]. *)
Definition to_size_t (z : Z) : Z := z mod SIZE_MOD.

(** [(unsigned int)z]. *)
Definition to_uint (z : Z) : Z := z mod UINT_MOD.

(** [(int)z]: two's complement narrowing. *)
Definition to_int (z : Z) : Z := (z + 2 ^ 31) mod UINT_MOD - 2 ^ 31.

Definition is_size_t (z : Z) : Prop := 0 <= z < SIZE_MOD.
Definition is_uint (z : Z) : Prop := 0 <= z < UINT_MOD.
Definition is_int (z : Z) : Prop := INT_MIN <= z <= INT_MAX.

(** The result of a signed [int] operation: undefined on overflow. *)
Definition int_result (z : Z) : option Z :=
  if bool_decide (INT_MIN <= z <= INT_MAX) then Some z else None.

Definition int_add (a b : Z) : option Z := int_result (a + b).
Definition int_sub (a b : Z) : option Z := int_result (a - b).
Definition int_mul (a b : Z) : option Z := int_result (a * b).

(** Unsigned division; undefined for a zero divisor. *)
Definition uint_div (a b : Z) : option Z :=
  if bool_decide (b = 0) then None else Some (a / b).

(** [x & -16] in [size_t]: the [int] constant [-16] is converted to
    [size_t] first. *)
Definition size_and_m16 (x : Z) : Z := Z.land x (to_size_t (-16)).

End CInt.
Export CInt.

(** ** Floating point *)

Abbreviation float := spec_float.
Abbreviation double := spec_float.

Module F32.
Definition prec : Z := 24.
Definition emax : Z := 128.
Definition of_Z (z : Z) : float := binary_normalize prec emax z 0 false.
Definition add : float -> float -> float := SFadd prec emax.
Definition sub : float -> float -> float := SFsub prec emax.
Definition mul : float -> float -> float := SFmul prec emax.
Definition div : float -> float -> float := SFdiv prec emax.
Definition ltb : float -> float -> bool := SFltb.
Definition zero : float := S754_zero false.
Definition one : float := of_Z 1.
(** [std::numeric_limits<float>::min()], the smallest positive normal
    number, 2^-126. *)
Definition FLT_MIN : float := binary_normalize prec emax 1 (-126) false.
End F32.

Module F64.
Definition prec : Z := 53.
Definition emax : Z := 1024.
Definition of_Z (z : Z) : double := binary_normalize prec emax z 0 false.
Definition div : double -> double -> double := SFdiv prec emax.
End F64.

(** The integer part of a finite number, as a magnitude: [m * 2^e]
    truncated toward zero. *)
Definition trunc_magnitude (m : positive) (e : Z) : Z :=
  if bool_decide (0 <= e) then Z.pos m * 2 ^ e else Z.pos m / 2 ^ (- e).

(** The truncation toward zero of a floating-point number; [None] for
    NaN and the infinities. *)
Definition SFtrunc (x : spec_float) : option Z :=
  match x with
  | S754_zero _ => Some 0
  | S754_finite s m e =>
      Some (if s then - trunc_magnitude m e else trunc_magnitude m e)
  | S754_infinity _ | S754_nan => None
  end.

(** [size_t(x)]: defined when the truncated value is representable. *)
Definition float_to_size_t (x : spec_float) : option Z :=
  t ← SFtrunc x;
  if bool_decide (0 <= t < SIZE_MOD) then Some t else None.

(** [(int)x]. *)
Definition float_to_int (x : spec_float) : option Z :=
  t ← SFtrunc x; int_result t.

(** The value of a finite number as a rational. *)
Definition SF2Q (x : spec_float) : option Q :=
  match x with
  | S754_zero _ => Some 0%Q
  | S754_finite s m e =>
      let v := if bool_decide (0 <= e)
               then inject_Z (Z.pos m * 2 ^ e)
               else Qmake (Z.pos m) (Z.to_pos (2 ^ (- e))) in
      Some (if s then Qopp v else v)
  | S754_infinity _ | S754_nan => None
  end.

(** ** Arrays of two elements

    [m_capturebufs], [m_decibels] and [m_tsmooth_buf] are C arrays of
    length 2; an index outside of them is an out-of-bounds access. *)
Record array2 (A : Type) := Array2 { elem0 : A; elem1 : A }.
Arguments Array2 {A} elem0 elem1.
Arguments elem0 {A} a.
Arguments elem1 {A} a.

Definition get2 {A : Type} (a : array2 A) (i : nat) : option A :=
  match i with
  | 0%nat => Some (elem0 a)
  | 1%nat => Some (elem1 a)
  | _ => None
  end.

Definition store2 {A : Type} (i : nat) (x : A) (a : array2 A)
  : option (array2 A) :=
  match i with
  | 0%nat => Some (Array2 x (elem1 a))
  | 1%nat => Some (Array2 (elem0 a) x)
  | _ => None
  end.

(** [for(auto& i : a) i = f(i);] *)
Definition map2 {A B : Type} (f : A -> B) (a : array2 A) : array2 B :=
  Array2 (f (elem0 a)) (f (elem1 a)).

(** ** libobs types *)

(** A [circlebuf] through its contents, oldest byte first; [size] is the
    length of the contents. *)
Definition circlebuf : Type := list byte.

Definition circlebuf_size (cb : circlebuf) : Z := Z.of_nat (length cb).

(** [circlebuf_push_back(cb, data, size)]: copies [size] bytes from
    [data]; reading past the end of [data] is undefined. *)
Definition circlebuf_push_back (cb : circlebuf) (data : list byte) (size : Z)
  : option circlebuf :=
  if bool_decide (size <= Z.of_nat (length data))
  then Some (cb ++ take (Z.to_nat size) data)
  else None.

(** [circlebuf_push_back_zero(cb, size)]. *)
Definition circlebuf_push_back_zero (cb : circlebuf) (size : Z) : circlebuf :=
  cb ++ replicate (Z.to_nat size) x00.

(** [circlebuf_pop_front(cb, nullptr, size)]: discards the oldest [size]
    bytes. *)
Definition circlebuf_pop_front (cb : circlebuf) (size : Z) : circlebuf :=
  drop (Z.to_nat size) cb.

(** [struct audio_data]: the frame count and one plane of samples per
    channel. *)
Record audio_data := {
  frames : Z;
  data : list (list byte)
}.

Inductive speaker_layout :=
| SPEAKERS_UNKNOWN
| SPEAKERS_MONO
| SPEAKERS_STEREO
| SPEAKERS_2POINT1
| SPEAKERS_4POINT0
| SPEAKERS_4POINT1
| SPEAKERS_5POINT1
| SPEAKERS_7POINT1.

(** libobs' [get_audio_channels]. *)
Definition get_audio_channels (s : speaker_layout) : Z :=
  match s with
  | SPEAKERS_UNKNOWN => 0
  | SPEAKERS_MONO => 1
  | SPEAKERS_STEREO => 2
  | SPEAKERS_2POINT1 => 3
  | SPEAKERS_4POINT0 => 4
  | SPEAKERS_4POINT1 => 5
  | SPEAKERS_5POINT1 => 6
  | SPEAKERS_7POINT1 => 8
  end.

Record obs_audio_info := {
  samples_per_sec : Z;
  speakers : speaker_layout
}.

Record obs_video_info := {
  fps_num : Z;
  fps_den : Z
}.

(** A source of the host, and the weak reference the instance keeps. *)
Inductive obs_source := Source (id : Z).
Inductive obs_weak_source := WeakSource (id : Z).

Definition obs_source_get_weak_source (s : obs_source) : obs_weak_source :=
  match s with Source id => WeakSource id end.

(** What [blog(LOG_WARNING, ...)] is called with. *)
Inductive log_entry :=
| WarnNoChannelCount
| WarnSourceNotFound (name : string).

(** ** The instance *)

Inductive DisplayMode := CURVE | BAR | STEPPED_BAR.
Inductive InterpMode := POINT | LANCZOS.
Inductive TSmoothingMode := TS_NONE | EXPONENTIAL.

(** The fields of [WAVSource] that the modelled methods read or write,
    with the types that their uses in [source.cpp] require (the class is
    declared in [source.hpp], which is not among the sources).
    The colours, the window and slope tables, the Gaussian kernel, the
    FFT plan and its scratch buffers, the render mode and the retry timer
    are left out: no modelled branch depends on them. An owning array
    pointer is [None] when null. *)
Record WAVSource := {
  m_audio_source : option obs_weak_source;
  m_audio_source_name : string;
  m_width : Z;
  m_height : Z;
  m_log_scale : bool;
  m_stereo : bool;
  m_fft_size : Z;
  m_auto_fft_size : bool;
  m_cutoff_low : Z;
  m_cutoff_high : Z;
  m_floor : Z;
  m_ceiling : Z;
  m_bar_width : Z;
  m_bar_gap : Z;
  m_step_width : Z;
  m_step_gap : Z;
  m_interp_mode : InterpMode;
  m_tsmoothing : TSmoothingMode;
  m_display_mode : DisplayMode;
  m_audio_info : obs_audio_info;
  m_capture_channels : Z;
  m_output_channels : Z;
  m_fps : double;
  m_decibels : array2 (option (list float));
  m_tsmooth_buf : array2 (option (list float));
  m_last_silent : bool;
  m_show : bool;
  m_retries : Z;
  m_capturebufs : array2 circlebuf;
  m_num_bars : Z;
  m_interp_indices : list float;
  m_interp_bufs : array2 (list float)
}.

Definition set_capturebufs (bufs : array2 circlebuf) (s : WAVSource) : WAVSource :=
  {| m_audio_source := m_audio_source s;
     m_audio_source_name := m_audio_source_name s;
     m_width := m_width s; m_height := m_height s;
     m_log_scale := m_log_scale s; m_stereo := m_stereo s;
     m_fft_size := m_fft_size s; m_auto_fft_size := m_auto_fft_size s;
     m_cutoff_low := m_cutoff_low s; m_cutoff_high := m_cutoff_high s;
     m_floor := m_floor s; m_ceiling := m_ceiling s;
     m_bar_width := m_bar_width s; m_bar_gap := m_bar_gap s;
     m_step_width := m_step_width s; m_step_gap := m_step_gap s;
     m_interp_mode := m_interp_mode s; m_tsmoothing := m_tsmoothing s;
     m_display_mode := m_display_mode s;
     m_audio_info := m_audio_info s;
     m_capture_channels := m_capture_channels s;
     m_output_channels := m_output_channels s;
     m_fps := m_fps s;
     m_decibels := m_decibels s; m_tsmooth_buf := m_tsmooth_buf s;
     m_last_silent := m_last_silent s; m_show := m_show s;
     m_retries := m_retries s;
     m_capturebufs := bufs;
     m_num_bars := m_num_bars s;
     m_interp_indices := m_interp_indices s;
     m_interp_bufs := m_interp_bufs s |}.

(** [for(auto i = first; i < first + n; ++i) body], threading the state
    the body updates. *)
Fixpoint index_loop {A : Type} (body : nat -> A -> option A) (n i : nat)
    (a : A) : option A :=
  match n with
  | O => Some a
  | S n' => a' ← body i a; index_loop body n' (S i) a'
  end.

(** ** [WAVSource::capture_audio] *)

(** [m_fft_size * sizeof(float) * 2], in [size_t]. *)
Definition capture_max (fft_size : Z) : Z :=
  to_size_t (to_size_t (fft_size * 4) * 2).

(** The body of the loop over the capture channels, for channel [i]. *)
Definition capture_channel (fft_size : Z) (audio : audio_data) (muted : bool)
    (sz : Z) (i : nat) (bufs : array2 circlebuf) : option (array2 circlebuf) :=
  cb ← get2 bufs i;
  pushed ← (if muted then Some (circlebuf_push_back_zero cb sz)
            else plane ← data audio !! i; circlebuf_push_back cb plane sz);
  let total := circlebuf_size pushed in
  let max := capture_max fft_size in
  store2 i (if bool_decide (total > max)
            then circlebuf_pop_front pushed (total - max)
            else pushed) bufs.

(** [lock_acquired] is the outcome of [m_mtx.try_lock_for(10ms)]. *)
Definition capture_audio (lock_acquired : bool) (audio : audio_data)
    (muted : bool) (s : WAVSource) : option WAVSource :=
  if negb lock_acquired then Some s
  else match m_audio_source s with
       | None => Some s
       | Some _ =>
           let sz := to_size_t (frames audio * 4) in
           bufs ← index_loop (capture_channel (m_fft_size s) audio muted sz)
                    (Z.to_nat (m_capture_channels s)) 0 (m_capturebufs s);
           Some (set_capturebufs bufs s)
       end.

(** ** What the absent headers and libm provide

    [settings.hpp] defines the strings a setting is compared with,
    [math_funcs.hpp] the interpolation routines, [source.hpp] the type of
    the retry counter (an unsigned counter of [RETRIES_MOD] values);
    [std::log10] comes from libm. They are parameters of the model. *)
Class Externals := {
  P_STEREO : string;
  P_LANCZOS : string;
  P_EXPAVG : string;
  P_BARS : string;
  P_STEP_BARS : string;
  log10f : float -> float;
  log_interp : float -> float -> float -> float;
  lerp : float -> float -> float -> float;
  lanczos_interp : float -> float -> Z -> list float -> float;
  RETRIES_MOD : Z
}.

(** [p_equ(a, b)]: the two strings are equal. *)
Definition p_equ (a b : string) : bool := bool_decide (a = b).

(** The values [obs_data_get_int], [obs_data_get_bool] and
    [obs_data_get_string] return for the keys that [get_settings] reads
    into a modelled field; an integer is a [long long]. *)
Record obs_data := {
  P_AUDIO_SRC : option string;
  P_WIDTH : Z;
  P_HEIGHT : Z;
  P_LOG_SCALE : bool;
  P_CHANNEL_MODE : string;
  P_FFT_SIZE : Z;
  P_AUTO_FFT_SIZE : bool;
  P_TSMOOTHING : string;
  P_INTERP_MODE : string;
  P_CUTOFF_LOW : Z;
  P_CUTOFF_HIGH : Z;
  P_FLOOR : Z;
  P_CEILING : Z;
  P_DISPLAY_MODE : string;
  P_BAR_WIDTH : Z;
  P_BAR_GAP : Z;
  P_STEP_WIDTH : Z;
  P_STEP_GAP : Z
}.

(** What the host answers while [update] runs. *)
Record host := {
  obs_get_audio_info : option obs_audio_info;
  obs_get_video_info : option obs_video_info;
  obs_get_source_by_name : string -> option obs_source
}.

(** ** [WAVSource::DB_MIN] *)

Definition DB_MIN `{Externals} : float :=
  F32.mul (F32.of_Z 20) (log10f F32.FLT_MIN).

Definition is_finite (x : spec_float) : bool :=
  match x with
  | S754_zero _ | S754_finite _ _ _ => true
  | S754_infinity _ | S754_nan => false
  end.

(** ** [WAVSource::get_settings] *)

(** Lines 326-329: the minimum and the alignment of the FFT size. *)
Definition align_fft_size (n : Z) : Z :=
  if bool_decide (n < 128) then 128
  else if bool_decide (Z.land n 15 ≠ 0) then size_and_m16 n
  else n.

(** Lines 331-335 and 337-341: a range narrower than 1 is replaced by
    the pair [(dlo, dhi)]. *)
Definition fix_range (lo hi dlo dhi : Z) : option (Z * Z) :=
  d ← int_sub hi lo;
  Some (if bool_decide (d < 1) then (dlo, dhi) else (lo, hi)).

Definition get_settings `{Externals} (settings : obs_data) (s : WAVSource)
  : option WAVSource :=
  let src_name := P_AUDIO_SRC settings in
  let interp := P_INTERP_MODE settings in
  let tsmoothing := P_TSMOOTHING settings in
  let display := P_DISPLAY_MODE settings in
  '(cutoff_low, cutoff_high) ←
     fix_range (to_int (P_CUTOFF_LOW settings))
               (to_int (P_CUTOFF_HIGH settings)) 120 17500;
  '(floor, ceiling) ←
     fix_range (to_int (P_FLOOR settings))
               (to_int (P_CEILING settings)) (-120) 0;
  Some
  {| m_audio_source := m_audio_source s;
     m_audio_source_name := default EmptyString src_name;
     m_width := to_uint (P_WIDTH settings);
     m_height := to_uint (P_HEIGHT settings);
     m_log_scale := P_LOG_SCALE settings;
     m_stereo := p_equ (P_CHANNEL_MODE settings) P_STEREO;
     m_fft_size := align_fft_size (to_size_t (P_FFT_SIZE settings));
     m_auto_fft_size := P_AUTO_FFT_SIZE settings;
     m_cutoff_low := cutoff_low;
     m_cutoff_high := cutoff_high;
     m_floor := floor;
     m_ceiling := ceiling;
     m_bar_width := to_int (P_BAR_WIDTH settings);
     m_bar_gap := to_int (P_BAR_GAP settings);
     m_step_width := to_int (P_STEP_WIDTH settings);
     m_step_gap := to_int (P_STEP_GAP settings);
     m_interp_mode := if p_equ interp P_LANCZOS then LANCZOS else POINT;
     m_tsmoothing := if p_equ tsmoothing P_EXPAVG then EXPONENTIAL else TS_NONE;
     m_display_mode :=
       if p_equ display P_BARS then BAR
       else if p_equ display P_STEP_BARS then STEPPED_BAR
       else CURVE;
     m_audio_info := m_audio_info s;
     m_capture_channels := m_capture_channels s;
     m_output_channels := m_output_channels s;
     m_fps := m_fps s;
     m_decibels := m_decibels s;
     m_tsmooth_buf := m_tsmooth_buf s;
     m_last_silent := m_last_silent s;
     m_show := m_show s;
     m_retries := m_retries s;
     m_capturebufs := m_capturebufs s;
     m_num_bars := m_num_bars s;
     m_interp_indices := m_interp_indices s;
     m_interp_bufs := m_interp_bufs s |}.

(** ** [WAVSource::release_audio_capture] and [WAVSource::free_fft] *)

Definition release_audio_capture (s : WAVSource) : WAVSource :=
  {| m_audio_source := None;
     m_audio_source_name := m_audio_source_name s;
     m_width := m_width s; m_height := m_height s;
     m_log_scale := m_log_scale s; m_stereo := m_stereo s;
     m_fft_size := m_fft_size s; m_auto_fft_size := m_auto_fft_size s;
     m_cutoff_low := m_cutoff_low s; m_cutoff_high := m_cutoff_high s;
     m_floor := m_floor s; m_ceiling := m_ceiling s;
     m_bar_width := m_bar_width s; m_bar_gap := m_bar_gap s;
     m_step_width := m_step_width s; m_step_gap := m_step_gap s;
     m_interp_mode := m_interp_mode s; m_tsmoothing := m_tsmoothing s;
     m_display_mode := m_display_mode s;
     m_audio_info := m_audio_info s;
     m_capture_channels := m_capture_channels s;
     m_output_channels := m_output_channels s;
     m_fps := m_fps s;
     m_decibels := m_decibels s; m_tsmooth_buf := m_tsmooth_buf s;
     m_last_silent := m_last_silent s; m_show := m_show s;
     m_retries := m_retries s;
     m_capturebufs := map2 (λ _, []) (m_capturebufs s);
     m_num_bars := m_num_bars s;
     m_interp_indices := m_interp_indices s;
     m_interp_bufs := m_interp_bufs s |}.

Definition free_fft (s : WAVSource) : WAVSource :=
  {| m_audio_source := m_audio_source s;
     m_audio_source_name := m_audio_source_name s;
     m_width := m_width s; m_height := m_height s;
     m_log_scale := m_log_scale s; m_stereo := m_stereo s;
     m_fft_size := 0; m_auto_fft_size := m_auto_fft_size s;
     m_cutoff_low := m_cutoff_low s; m_cutoff_high := m_cutoff_high s;
     m_floor := m_floor s; m_ceiling := m_ceiling s;
     m_bar_width := m_bar_width s; m_bar_gap := m_bar_gap s;
     m_step_width := m_step_width s; m_step_gap := m_step_gap s;
     m_interp_mode := m_interp_mode s; m_tsmoothing := m_tsmoothing s;
     m_display_mode := m_display_mode s;
     m_audio_info := m_audio_info s;
     m_capture_channels := m_capture_channels s;
     m_output_channels := m_output_channels s;
     m_fps := m_fps s;
     m_decibels := map2 (λ _, None) (m_decibels s);
     m_tsmooth_buf := map2 (λ _, None) (m_tsmooth_buf s);
     m_last_silent := m_last_silent s; m_show := m_show s;
     m_retries := m_retries s;
     m_capturebufs := m_capturebufs s;
     m_num_bars := m_num_bars s;
     m_interp_indices := m_interp_indices s;
     m_interp_bufs := m_interp_bufs s |}.

(** ** [WAVSource::recapture_audio] *)

Definition set_capture (src : option obs_weak_source) (retries : Z)
    (s : WAVSource) : WAVSource :=
  {| m_audio_source := src;
     m_audio_source_name := m_audio_source_name s;
     m_width := m_width s; m_height := m_height s;
     m_log_scale := m_log_scale s; m_stereo := m_stereo s;
     m_fft_size := m_fft_size s; m_auto_fft_size := m_auto_fft_size s;
     m_cutoff_low := m_cutoff_low s; m_cutoff_high := m_cutoff_high s;
     m_floor := m_floor s; m_ceiling := m_ceiling s;
     m_bar_width := m_bar_width s; m_bar_gap := m_bar_gap s;
     m_step_width := m_step_width s; m_step_gap := m_step_gap s;
     m_interp_mode := m_interp_mode s; m_tsmoothing := m_tsmoothing s;
     m_display_mode := m_display_mode s;
     m_audio_info := m_audio_info s;
     m_capture_channels := m_capture_channels s;
     m_output_channels := m_output_channels s;
     m_fps := m_fps s;
     m_decibels := m_decibels s; m_tsmooth_buf := m_tsmooth_buf s;
     m_last_silent := m_last_silent s; m_show := m_show s;
     m_retries := retries;
     m_capturebufs := m_capturebufs s;
     m_num_bars := m_num_bars s;
     m_interp_indices := m_interp_indices s;
     m_interp_bufs := m_interp_bufs s |}.

(** [lookup] is the answer of [obs_get_source_by_name]. The result is the
    new state and what was logged. *)
Definition recapture_audio `{Externals} (lookup : string -> option obs_source)
    (s : WAVSource) : WAVSource * list log_entry :=
  let s := release_audio_capture s in
  let src_name := m_audio_source_name s in
  match lookup src_name with
  | Some asrc =>
      (set_capture (Some (obs_source_get_weak_source asrc)) (m_retries s) s, [])
  | None =>
      if negb (p_equ src_name "none")
      then (set_capture None ((m_retries s + 1) mod RETRIES_MOD) s,
            if bool_decide (m_retries s = 0)
            then [WarnSourceNotFound src_name] else [])
      else (s, [])
  end.

(** ** [WAVSource::init_interp] *)

(** [std::clamp(v, lo, hi)]. *)
Definition clampf (v lo hi : float) : float :=
  if F32.ltb v lo then lo else if F32.ltb hi v then hi else v.

(** [clamp((float)cutoff * m_fft_size / sr, 1.0f, (float)maxbin)]. *)
Definition cutoff_bin (s : WAVSource) (cutoff : Z) : float :=
  let maxbin := to_size_t (m_fft_size s / 2 - 1) in
  let sr := F32.of_Z (samples_per_sec (m_audio_info s)) in
  clampf (F32.div (F32.mul (F32.of_Z cutoff) (F32.of_Z (m_fft_size s))) sr)
         F32.one (F32.of_Z maxbin).

(** The contents of [m_interp_indices] after [init_interp(sz)]; [sz] is
    an [unsigned int]. *)
Definition init_interp `{Externals} (sz : Z) (s : WAVSource) : list float :=
  let lowbin := cutoff_bin s (m_cutoff_low s) in
  let highbin := cutoff_bin s (m_cutoff_high s) in
  let interp := if m_log_scale s then log_interp else lerp in
  (λ i, interp lowbin highbin
          (F32.div (F32.of_Z i) (F32.of_Z (to_uint (sz - 1))))) <$> seqZ 0 sz.

(** ** [WAVSource::update] *)

(** [update_audio_info]. *)
Definition update_audio_info (h : host) : obs_audio_info :=
  default {| samples_per_sec := 44100; speakers := SPEAKERS_UNKNOWN |}
          (obs_get_audio_info h).

(** Lines 520-524. *)
Definition video_fps (h : host) : double :=
  match obs_get_video_info h with
  | Some vinfo => F64.div (F64.of_Z (fps_num vinfo)) (F64.of_Z (fps_den vinfo))
  | None => F64.of_Z 60
  end.

(** Lines 528-530: [size_t(samples_per_sec / m_fps) & -16], at least 128. *)
Definition auto_fft_size (sps : Z) (fps : double) : option Z :=
  n ← float_to_size_t (F64.div (F64.of_Z sps) fps);
  let n16 := size_and_m16 n in
  Some (if bool_decide (n16 < 128) then 128 else n16).

(** Lines 537-546, for output channel [i]. The index [j] of the filling
    loop is an [unsigned int] compared with a [size_t]: the loop ends
    only when [count] is below 2^32. *)
Definition alloc_channel `{Externals} (ts : TSmoothingMode) (count : Z)
    (i : nat)
    (bufs : array2 (option (list float)) * array2 (option (list float)))
  : option (array2 (option (list float)) * array2 (option (list float))) :=
  if bool_decide (count < UINT_MOD)
  then decibels ← store2 i (Some (replicate (Z.to_nat count) DB_MIN)) bufs.1;
       tsmooth_buf ← match ts with
                     | TS_NONE => Some bufs.2
                     | EXPONENTIAL =>
                         store2 i (Some (replicate (Z.to_nat count) F32.zero))
                                bufs.2
                     end;
       Some (decibels, tsmooth_buf)
  else None.

(** Lines 592-597, for one capture buffer. *)
Definition pad_capturebuf (fft_size : Z) (cb : circlebuf) : circlebuf :=
  let bufsz := to_size_t (fft_size * 4) in
  if bool_decide (circlebuf_size cb < bufsz)
  then circlebuf_push_back_zero cb (bufsz - circlebuf_size cb)
  else cb.

(** Lines 608-611: the number of bars. *)
Definition count_bars (width bar_width bar_gap : Z) : option Z :=
  bar_stride ← int_add bar_width bar_gap;
  q ← uint_div width (to_uint bar_stride);
  let num_bars := to_int q in
  covered ← int_mul num_bars bar_stride;
  rest ← int_sub (to_int width) covered;
  if bool_decide (rest >= bar_width) then int_add num_bars 1
  else Some num_bars.

(** [v.resize(n)] for a [std::vector<float>]; [n] is converted to
    [size_t], and a count above [max_size()], which never exceeds
    [PTRDIFF_MAX], throws [std::length_error]. *)
Definition vector_resize (n : Z) (v : list float) : option (list float) :=
  let n := to_size_t n in
  if bool_decide (n <= PTRDIFF_MAX)
  then Some (take (Z.to_nat n) v
             ++ replicate (Z.to_nat n - length v) F32.zero)
  else None.

(** [for(auto& i : m_interp_bufs) i.resize(n);] *)
Definition resize_interp_bufs (n : Z) (bufs : array2 (list float))
  : option (array2 (list float)) :=
  b0 ← vector_resize n (elem0 bufs);
  b1 ← vector_resize n (elem1 bufs);
  Some (Array2 b0 b1).

(** Lines 600-615: [m_num_bars], [m_interp_indices] and [m_interp_bufs]. *)
Definition update_display `{Externals} (s : WAVSource)
  : option (Z * list float * array2 (list float)) :=
  match m_display_mode s with
  | CURVE =>
      interp_bufs ← resize_interp_bufs (m_width s) (m_interp_bufs s);
      Some (m_num_bars s, init_interp (m_width s) s, interp_bufs)
  | BAR | STEPPED_BAR =>
      num_bars ← count_bars (m_width s) (m_bar_width s) (m_bar_gap s);
      sz ← int_add num_bars 1;
      let interp_indices := init_interp (to_uint sz) s in
      interp_bufs ← resize_interp_bufs num_bars (m_interp_bufs s);
      Some (num_bars, interp_indices, interp_bufs)
  end.

Definition update `{Externals} (h : host) (settings : obs_data) (s : WAVSource)
  : option (WAVSource * list log_entry) :=
  let s := release_audio_capture s in
  let s := free_fft s in
  s ← get_settings settings s;
  let info := update_audio_info h in
  let capture_channels := Z.min (get_audio_channels (speakers info)) 2 in
  let log1 := if bool_decide (capture_channels = 0)
              then [WarnNoChannelCount] else [] in
  let fps := video_fps h in
  fft_size ← (if m_auto_fft_size s
              then auto_fft_size (samples_per_sec info) fps
              else Some (m_fft_size s));
  let output_channels :=
    if bool_decide (capture_channels > 1) || m_stereo s then 2 else 1 in
  '(decibels, tsmooth_buf) ←
     index_loop (alloc_channel (m_tsmoothing s) (fft_size / 2))
       (Z.to_nat output_channels) 0 (m_decibels s, m_tsmooth_buf s);
  let s :=
    {| m_audio_source := m_audio_source s;
       m_audio_source_name := m_audio_source_name s;
       m_width := m_width s; m_height := m_height s;
       m_log_scale := m_log_scale s; m_stereo := m_stereo s;
       m_fft_size := fft_size; m_auto_fft_size := m_auto_fft_size s;
       m_cutoff_low := m_cutoff_low s; m_cutoff_high := m_cutoff_high s;
       m_floor := m_floor s; m_ceiling := m_ceiling s;
       m_bar_width := m_bar_width s; m_bar_gap := m_bar_gap s;
       m_step_width := m_step_width s; m_step_gap := m_step_gap s;
       m_interp_mode := m_interp_mode s; m_tsmoothing := m_tsmoothing s;
       m_display_mode := m_display_mode s;
       m_audio_info := info;
       m_capture_channels := capture_channels;
       m_output_channels := output_channels;
       m_fps := fps;
       m_decibels := decibels; m_tsmooth_buf := tsmooth_buf;
       m_last_silent := false; m_show := true;
       m_retries := 0;
       m_capturebufs := m_capturebufs s;
       m_num_bars := m_num_bars s;
       m_interp_indices := m_interp_indices s;
       m_interp_bufs := m_interp_bufs s |} in
  let '(s, log2) := recapture_audio (obs_get_source_by_name h) s in
  let s := set_capturebufs (map2 (pad_capturebuf (m_fft_size s)) (m_capturebufs s)) s in
  '(num_bars, interp_indices, interp_bufs) ← update_display s;
  Some
    ({| m_audio_source := m_audio_source s;
        m_audio_source_name := m_audio_source_name s;
        m_width := m_width s; m_height := m_height s;
        m_log_scale := m_log_scale s; m_stereo := m_stereo s;
        m_fft_size := m_fft_size s; m_auto_fft_size := m_auto_fft_size s;
        m_cutoff_low := m_cutoff_low s; m_cutoff_high := m_cutoff_high s;
        m_floor := m_floor s; m_ceiling := m_ceiling s;
        m_bar_width := m_bar_width s; m_bar_gap := m_bar_gap s;
        m_step_width := m_step_width s; m_step_gap := m_step_gap s;
        m_interp_mode := m_interp_mode s; m_tsmoothing := m_tsmoothing s;
        m_display_mode := m_display_mode s;
        m_audio_info := m_audio_info s;
        m_capture_channels := m_capture_channels s;
        m_output_channels := m_output_channels s;
        m_fps := m_fps s;
        m_decibels := m_decibels s; m_tsmooth_buf := m_tsmooth_buf s;
        m_last_silent := m_last_silent s; m_show := m_show s;
        m_retries := m_retries s;
        m_capturebufs := m_capturebufs s;
        m_num_bars := num_bars;
        m_interp_indices := interp_indices;
        m_interp_bufs := interp_bufs |},
     log1 ++ log2).

(** The instance as the constructor leaves it before it calls [update]:
    the member initialisers of [source.hpp] are absent, the fields are
    those of an empty instance; [update] overwrites every one of them
    but [m_num_bars]. *)
Definition new_instance : WAVSource :=
  {| m_audio_source := None;
     m_audio_source_name := EmptyString;
     m_width := 0; m_height := 0;
     m_log_scale := false; m_stereo := false;
     m_fft_size := 0; m_auto_fft_size := false;
     m_cutoff_low := 0; m_cutoff_high := 0;
     m_floor := 0; m_ceiling := 0;
     m_bar_width := 0; m_bar_gap := 0;
     m_step_width := 0; m_step_gap := 0;
     m_interp_mode := POINT; m_tsmoothing := TS_NONE;
     m_display_mode := CURVE;
     m_audio_info := {| samples_per_sec := 0; speakers := SPEAKERS_UNKNOWN |};
     m_capture_channels := 0;
     m_output_channels := 0;
     m_fps := S754_zero false;
     m_decibels := Array2 None None; m_tsmooth_buf := Array2 None None;
     m_last_silent := false; m_show := false;
     m_retries := 0;
     m_capturebufs := Array2 [] [];
     m_num_bars := 0;
     m_interp_indices := [];
     m_interp_bufs := Array2 [] [] |}.

(** ** [WAVSource::render_bars], lines 810-845 *)

(** The outcome of running a loop for at most [fuel] iterations:
    it has ended in state [a], it has run into undefined behaviour, or it
    is still iterating and has reached state [a]. *)
Inductive outcome (A : Type) :=
| Finished (a : A)
| Undefined
| Running (a : A).
Arguments Finished {A} a.
Arguments Undefined {A}.
Arguments Running {A} a.

(** [do { body } while(cond);] *)
Fixpoint do_while {S : Type} (body : S -> option S) (cond : S -> bool)
    (fuel : nat) (s : S) : outcome S :=
  match fuel with
  | O => Running s
  | S fuel' =>
      match body s with
      | None => Undefined
      | Some s' => if cond s' then do_while body cond fuel' s' else Finished s'
      end
  end.

(** The variables of an averaging loop; [pos] is an [int] in point mode
    and a [float] in Lanczos mode. *)
Record bar_acc (P : Type) := {
  pos : P;
  sum : float;
  count : Z
}.
Arguments pos {P} b.
Arguments sum {P} b.
Arguments count {P} b.

(** [sum / (float)count]. *)
Definition average {P : Type} (a : bar_acc P) : float :=
  F32.div (sum a) (F32.of_Z (count a)).

(** Lines 839-841. *)
Definition point_body (d : list float) (a : bar_acc Z) : option (bar_acc Z) :=
  v ← (if bool_decide (0 <= pos a) then d !! Z.to_nat (pos a) else None);
  count' ← int_add (count a) 1;
  pos' ← int_add (pos a) 1;
  Some {| pos := pos'; sum := F32.add (sum a) v; count := count' |}.

(** Lines 822-824. *)
Definition lanczos_body `{Externals} (fft_size : Z) (d : list float)
    (a : bar_acc float) : option (bar_acc float) :=
  count' ← int_add (count a) 1;
  Some {| pos := F32.add (pos a) F32.one;
          sum := F32.add (sum a)
                   (lanczos_interp (pos a) (F32.of_Z 3)
                      (to_size_t (fft_size / 2)) d);
          count := count' |}.

(** [m_interp_indices[i]]. *)
Definition index_at (indices : list float) (i : Z) : option float :=
  if bool_decide (0 <= i) then indices !! Z.to_nat i else None.

(** Lines 833-842: the loop of bar [i] in point mode. *)
Definition bar_point (fuel : nat) (d indices : list float) (i : Z)
  : outcome (bar_acc Z) :=
  match (p ← index_at indices i ≫= float_to_int;
         j ← int_add i 1;
         stop ← index_at indices j ≫= float_to_int;
         Some (p, stop)) with
  | None => Undefined
  | Some (p, stop) =>
      do_while (point_body d) (λ a, bool_decide (pos a < stop)) fuel
        {| pos := p; sum := F32.zero; count := 0 |}
  end.

(** Lines 816-825: the loop of bar [i] in Lanczos mode. *)
Definition bar_lanczos `{Externals} (fuel : nat) (fft_size : Z)
    (d indices : list float) (i : Z) : outcome (bar_acc float) :=
  match (p ← index_at indices i;
         j ← int_add i 1;
         stop ← index_at indices j;
         Some (p, stop)) with
  | None => Undefined
  | Some (p, stop) =>
      do_while (lanczos_body fft_size d) (λ a, F32.ltb (pos a) stop) fuel
        {| pos := p; sum := F32.zero; count := 0 |}
  end.

(** [for(auto i = 0; i < m_num_bars; ++i)]: the averages stored so far
    are [done]; [n] bars are left, from bar [i] on. *)
Fixpoint bars_loop {P : Type} (bar : Z -> outcome (bar_acc P)) (n : nat)
    (i : Z) (done : list float) : outcome (list float) :=
  match n with
  | O => Finished done
  | S n' =>
      match bar i with
      | Finished a => bars_loop bar n' (i + 1) (done ++ [average a])
      | Undefined => Undefined
      | Running _ => Running done
      end
  end.

(** The averages that the interpolation step stores in
    [m_interp_bufs[channel]]. *)
Definition render_bars_channel `{Externals} (fuel : nat) (s : WAVSource)
    (channel : nat) : outcome (list float) :=
  match get2 (m_decibels s) channel with
  | Some (Some d) =>
      let n := Z.to_nat (m_num_bars s) in
      match m_interp_mode s with
      | LANCZOS =>
          bars_loop (bar_lanczos fuel (m_fft_size s) d (m_interp_indices s)) n 0 []
      | POINT =>
          bars_loop (bar_point fuel d (m_interp_indices s)) n 0 []
      end
  | _ => Undefined
  end.

(** ** Retrying *)

(** [n] attempts in a row to bind the audio source, each one a call of
    [recapture_audio] (the caller that retries while no source is bound,
    [tick], is not part of [source.cpp]); the instance after the last
    attempt and everything that was logged, in order. *)
Fixpoint retry_attempts `{Externals} (lookup : string -> option obs_source)
    (n : nat) (s : WAVSource) : WAVSource * list log_entry :=
  match n with
  | O => (s, [])
  | S n' =>
      let '(s1, log1) := recapture_audio lookup s in
      let '(s2, log2) := retry_attempts lookup n' s1 in
      (s2, log1 ++ log2)
  end.

(** ** Binary32 comparison and rounding *)


(** A number that is not negative and is stored the way rounding leaves
    it: +0, +infinity, or a positive number whose mantissa has 24 digits
    (or fewer, with the least exponent). *)
Definition nonneg_canonical (x : float) : Prop :=
  match x with
  | S754_zero s | S754_infinity s => s = false
  | S754_nan => False
  | S754_finite s m e => s = false ∧ canonical_mantissa 24 128 m e = true
  end.

Definition pos_canonical (x : float) : Prop :=
  match x with
  | S754_finite false m e => canonical_mantissa 24 128 m e = true
  | _ => False
  end.











(** ** Predicates of the statements *)



(** When [update] has a defined result: no signed overflow in the two
    range checks, an FFT size that can be computed and whose spectrum
    arrays the filling loop can traverse, and in the bar modes a bar
    count that can be computed and is not negative. *)
Definition update_ok `{Externals} (h : host) (settings : obs_data) : Prop :=
  is_int (to_int (P_CUTOFF_HIGH settings) - to_int (P_CUTOFF_LOW settings)) ∧
  is_int (to_int (P_CEILING settings) - to_int (P_FLOOR settings)) ∧
  (∃ n, (if P_AUTO_FFT_SIZE settings
         then auto_fft_size (samples_per_sec (update_audio_info h))
                            (video_fps h)
         else Some (align_fft_size (to_size_t (P_FFT_SIZE settings))))
        = Some n ∧ n / 2 < UINT_MOD) ∧
  (p_equ (P_DISPLAY_MODE settings) P_BARS
   || p_equ (P_DISPLAY_MODE settings) P_STEP_BARS = true →
   ∃ nb, count_bars (to_uint (P_WIDTH settings))
                    (to_int (P_BAR_WIDTH settings))
                    (to_int (P_BAR_GAP settings)) = Some nb ∧
         is_int (nb + 1) ∧ 0 <= nb).

(** libm's [log10f] at [FLT_MIN]: within 64 units in the last place of
    the logarithm of 2^-126, -37.92977945..., whose nearest binary32
    number is -9943064 * 2^-18. *)
Definition log10f_accurate `{Externals} : Prop :=
  ∃ m : positive,
    log10f F32.FLT_MIN = S754_finite true m (-18) ∧
    9943064 - 64 <= Z.pos m <= 9943064 + 64.


(** ** Inputs to run the model on *)

(** Stand-ins for what the absent headers and libm provide: linear
    interpolation for both interpolation routines, the nearest sample for
    the Lanczos kernel, the correctly rounded logarithm of [FLT_MIN] and a
    32-bit retry counter. *)
Definition demo_externals : Externals :=
  {| P_STEREO := "stereo";
     P_LANCZOS := "lanczos";
     P_EXPAVG := "expavg";
     P_BARS := "bars";
     P_STEP_BARS := "stepped_bars";
     log10f := λ _, S754_finite true 9943064 (-18);
     log_interp := λ a b t, F32.add a (F32.mul (F32.sub b a) t);
     lerp := λ a b t, F32.add a (F32.mul (F32.sub b a) t);
     lanczos_interp := λ x _ _ d,
       default F32.zero (i ← SFtrunc x; d !! Z.to_nat i);
     RETRIES_MOD := 2 ^ 32 |}.

(** A bar display 60 pixels wide, with a requested FFT size of 130. *)
Definition demo_settings (src : string) : obs_data :=
  {| P_AUDIO_SRC := Some src;
     P_WIDTH := 60;
     P_HEIGHT := 225;
     P_LOG_SCALE := false;
     P_CHANNEL_MODE := "mono";
     P_FFT_SIZE := 130;
     P_AUTO_FFT_SIZE := false;
     P_TSMOOTHING := "expavg";
     P_INTERP_MODE := "point";
     P_CUTOFF_LOW := 30;
     P_CUTOFF_HIGH := 17500;
     P_FLOOR := -65;
     P_CEILING := 0;
     P_DISPLAY_MODE := "bars";
     P_BAR_WIDTH := 24;
     P_BAR_GAP := 6;
     P_STEP_WIDTH := 8;
     P_STEP_GAP := 4 |}.

(** The same display with degenerate cutoff and decibel ranges and an
    FFT size derived from the frame rate. *)
Definition degenerate_settings : obs_data :=
  {| P_AUDIO_SRC := Some "mic";
     P_WIDTH := 60;
     P_HEIGHT := 225;
     P_LOG_SCALE := false;
     P_CHANNEL_MODE := "mono";
     P_FFT_SIZE := 130;
     P_AUTO_FFT_SIZE := true;
     P_TSMOOTHING := "expavg";
     P_INTERP_MODE := "point";
     P_CUTOFF_LOW := 500;
     P_CUTOFF_HIGH := 500;
     P_FLOOR := -10;
     P_CEILING := -10;
     P_DISPLAY_MODE := "bars";
     P_BAR_WIDTH := 24;
     P_BAR_GAP := 6;
     P_STEP_WIDTH := 8;
     P_STEP_GAP := 4 |}.



(** A host with stereo audio at 48 kHz, video at 30000/1001 frames per
    second and one audio source, "mic". *)
Definition demo_host : host :=
  {| obs_get_audio_info :=
       Some {| samples_per_sec := 48000; speakers := SPEAKERS_STEREO |};
     obs_get_video_info := Some {| fps_num := 30000; fps_den := 1001 |};
     obs_get_source_by_name :=
       λ name, if bool_decide (name = "mic") then Some (Source 1) else None |}.

(** The instance that [update] leaves with the source "mic" bound. *)
Definition demo_instance : WAVSource :=
  default new_instance
    (fst <$> @update demo_externals demo_host (demo_settings "mic")
               new_instance).

(** 200 frames of two channels. *)
Definition demo_audio : audio_data :=
  {| frames := 200;
     data := [replicate 800 x01; replicate 800 x02] |}.

(** A spectrum of 8 bins and an index table for two bars, the first with
    equal truncated indices. *)
Definition demo_spectrum : list float := replicate 8 (F32.of_Z (-60)).
Definition demo_indices : list float := [F32.of_Z 2; F32.of_Z 2; F32.of_Z 5].

(** ** [callbacks::get_properties] *)

(** The integer properties with the bounds that lines 144-147, 164-165,
    178, 233-234 and 237-238 give them: the setting that the property
    edits, its minimum and its maximum. *)
Definition int_properties : list ((obs_data -> Z) * Z * Z) :=
  [ (P_BAR_WIDTH, 1, 256);
    (P_BAR_GAP, 0, 256);
    (P_STEP_WIDTH, 1, 256);
    (P_STEP_GAP, 0, 256);
    (P_WIDTH, 32, 3840);
    (P_HEIGHT, 32, 2160);
    (P_FFT_SIZE, 128, 4096);
    (P_CUTOFF_LOW, 0, 24000);
    (P_CUTOFF_HIGH, 0, 24000);
    (P_FLOOR, -120, 0);
    (P_CEILING, -120, 0) ].

(** Every integer setting lies within the bounds of its property. *)
Definition in_property_ranges (settings : obs_data) : bool :=
  forallb (λ '(get, lo, hi), bool_decide (lo <= get settings <= hi))
          int_properties.

(** ** Colours, lines 323-324 *)

(** [(uint8_t)z]. *)
Definition to_uint8 (z : Z) : Z := z mod 2 ^ 8.

(** libobs' [struct vec4]. *)
Record vec4 := {
  vec4_x : float;
  vec4_y : float;
  vec4_z : float;
  vec4_w : float
}.

(** [(uint8_t)(color >> shift) / 255.0f]; [color] is a [long long], the
    byte is promoted to [int] and converted to [float]. *)
Definition color_component (color shift : Z) : float :=
  F32.div (F32.of_Z (to_uint8 (Z.shiftr color shift))) (F32.of_Z 255).

(** The value stored in [m_color_base] and [m_color_crest]. *)
Definition decode_color (color : Z) : vec4 :=
  {| vec4_x := color_component color 0;
     vec4_y := color_component color 8;
     vec4_z := color_component color 16;
     vec4_w := color_component color 24 |}.

(** ** [WAVSource::render_bars], lines 784-798: the index buffer *)

(** [(uint16_t)z]. *)
Definition to_uint16 (z : Z) : Z := z mod 2 ^ 16.

(** [a[i] = v] for an array of [length a] elements; a store outside the
    array is undefined. *)
Definition array_store {A : Type} (i : Z) (v : A) (a : list A)
  : option (list A) :=
  if bool_decide (0 <= i < Z.of_nat (length a))
  then Some (<[Z.to_nat i := v]> a)
  else None.

(** [for(; cond; ) { body }], run for at most [fuel] iterations. *)
Fixpoint for_loop {S : Type} (cond : S -> bool) (body : S -> option S)
    (fuel : nat) (s : S) : outcome S :=
  if cond s
  then match fuel with
       | O => Running s
       | S fuel' =>
           match body s with
           | None => Undefined
           | Some s' => for_loop cond body fuel' s'
           end
       end
  else Finished s.

(** Lines 784-786; [max_steps] is a [size_t]. *)
Definition num_idx (s : WAVSource) (max_steps : Z) : option Z :=
  n ← int_mul (m_num_bars s) 6;
  match m_display_mode s with
  | STEPPED_BAR => int_mul n (to_int max_steps)
  | CURVE | BAR => Some n
  end.

(** Lines 791-797 and the increment of line 789, on the variables [i],
    [vert] and [idata]. An element of [idata] is [None] until it is
    written; [vert + k] is computed in [int] and narrowed to [uint16_t]
    by the store. An index [i + k] that does not fit [int] lies outside
    the array as well. *)
Definition index_quad (st : Z * Z * list (option Z))
  : option (Z * Z * list (option Z)) :=
  let '(i, vert, idata) := st in
  idata ← array_store i (Some vert) idata;
  idata ← array_store (i + 1) (Some (to_uint16 (vert + 1))) idata;
  idata ← array_store (i + 2) (Some (to_uint16 (vert + 2))) idata;
  idata ← array_store (i + 3) (Some (to_uint16 (vert + 2))) idata;
  idata ← array_store (i + 4) (Some (to_uint16 (vert + 1))) idata;
  idata ← array_store (i + 5) (Some (to_uint16 (vert + 3))) idata;
  i' ← int_add i 6;
  Some (i', to_uint16 (vert + 4), idata).

(** The contents of [idata] after the loop of lines 789-798, for an
    array of [num_idx] elements ([num_idx] is not negative). *)
Definition index_buffer (fuel : nat) (num_idx : Z)
  : outcome (list (option Z)) :=
  match for_loop (λ '(i, _, _), bool_decide (i < num_idx)) index_quad fuel
          (0, 0, replicate (Z.to_nat num_idx) None) with
  | Finished (_, _, idata) => Finished idata
  | Undefined => Undefined
  | Running (_, _, idata) => Running idata
  end.

(** ** The vertex buffers of [render_curve] and [render_bars] *)

(** [m_render_mode], lines 374-379. It is not among the fields above:
    the renderers take it as an argument. *)
Inductive RenderMode :=
| LINE
| SOLID
| GRADIENT.

(** libobs' [struct vec3], built by [vec3_set(dst, x, y, z)]. *)
Record vec3 := vec3_set {
  vec3_x : float;
  vec3_y : float;
  vec3_z : float
}.

(** [0.5f]. *)
Definition f32_half : float :=
  binary_normalize F32.prec F32.emax 1 (-1) false.

(** Lines 657-661 and 761-764. *)
Definition center (s : WAVSource) : float :=
  F32.add (F32.div (F32.of_Z (m_height s)) (F32.of_Z 2)) f32_half.

Definition right (s : WAVSource) : float :=
  F32.add (F32.of_Z (m_width s)) f32_half.

Definition bottom (s : WAVSource) : float :=
  F32.add (F32.of_Z (m_height s)) f32_half.

Definition cpos (s : WAVSource) : float :=
  if m_stereo s then center s else bottom s.

(** [vec3_set(&vbdata->points[vertpos++], x, y, 0)]; [vertpos] is an
    [unsigned int] and an element of [points] is [None] until it is
    written. *)
Definition put_vertex (x y : float) (st : list (option vec3) * Z)
  : option (list (option vec3) * Z) :=
  let '(points, vertpos) := st in
  points ← array_store vertpos (Some (vec3_set x y F32.zero)) points;
  Some (points, to_uint (vertpos + 1)).

(** *** [render_curve], lines 704-739 *)

(** Line 642: [m_width + 2] is computed in [unsigned int]. *)
Definition curve_num_verts (render_mode : RenderMode) (s : WAVSource) : Z :=
  to_size_t (match render_mode with
             | LINE => m_width s
             | SOLID | GRADIENT => to_uint (m_width s + 2)
             end).

(** Lines 714-724: the vertex of column [i]. *)
Definition curve_vertex (render_mode : RenderMode) (s : WAVSource)
    (channel : nat) (i : nat) (st : list (option vec3) * Z)
  : option (list (option vec3) * Z) :=
  let x := F32.add (F32.of_Z (Z.of_nat i)) f32_half in
  if match render_mode with LINE => false | SOLID | GRADIENT => true end
     && bool_decide (Z.land (Z.of_nat i) 1 ≠ 0)
  then put_vertex x (cpos s) st
  else
    vals ← get2 (m_interp_bufs s) channel;
    val ← vals !! i;
    put_vertex x (match channel with
                  | O => val
                  | S _ => F32.sub (bottom s) val
                  end) st.

(** Lines 706-728 for one channel: the vertex array and [vertpos] after
    the channel's vertices have been written into [points]. *)
Definition render_curve_vertices (render_mode : RenderMode) (s : WAVSource)
    (channel : nat) (points : list (option vec3))
  : option (list (option vec3) * Z) :=
  st ← match render_mode with
       | LINE => Some (points, 0)
       | SOLID | GRADIENT =>
           put_vertex (SFopp f32_half) (cpos s) (points, 0)
       end;
  st ← index_loop (curve_vertex render_mode s channel)
         (Z.to_nat (m_width s)) 0 st;
  match render_mode with
  | LINE => Some st
  | SOLID | GRADIENT => put_vertex (right s) (cpos s) st
  end.

(** *** [render_bars], lines 759-773 and 869-928 *)

Definition bar_stride (s : WAVSource) : option Z :=
  int_add (m_bar_width s) (m_bar_gap s).

Definition step_stride (s : WAVSource) : option Z :=
  int_add (m_step_width s) (m_step_gap s).

(** Lines 766-768: the subtraction and the comparison are done in
    [size_t]. *)
Definition max_steps (s : WAVSource) : option Z :=
  stride ← step_stride s;
  n ← float_to_size_t (F32.div (cpos s) (F32.of_Z stride));
  c ← float_to_int (cpos s);
  Some (if bool_decide
             (to_size_t (to_size_t c - to_size_t (n * to_size_t stride))
              >= to_size_t (m_step_width s))
        then to_size_t (n + 1)
        else n).

(** Lines 771-773. *)
Definition bars_num_verts (s : WAVSource) (max_steps : Z) : option Z :=
  n ← int_mul (m_num_bars s) 4;
  Some (match m_display_mode s with
        | STEPPED_BAR => to_size_t (to_size_t n * max_steps)
        | CURVE | BAR => to_size_t n
        end).

(** Lines 883-903: the steps of one bar, from step [j] on, with [n]
    steps left before [j] reaches [max_steps]. *)
Fixpoint steps_loop (s : WAVSource) (stride : Z) (channel : nat)
    (x1 x2 val : float) (n : nat) (j : Z) (st : list (option vec3) * Z)
  : option (list (option vec3) * Z) :=
  match n with
  | O => Some st
  | S n' =>
      yj ← int_mul j stride;
      let y1 := F32.of_Z yj in
      let y2 := F32.add y1 (F32.of_Z (m_step_width s)) in
      if F32.ltb (F32.sub (cpos s) val) y2 then Some st
      else
        let y1 := match channel with
                  | O => F32.sub (cpos s) y1
                  | S _ => F32.add (cpos s) y1
                  end in
        let y2 := match channel with
                  | O => F32.sub (cpos s) y2
                  | S _ => F32.add (cpos s) y2
                  end in
        st ← put_vertex x1 y1 st;
        st ← put_vertex x2 y1 st;
        st ← put_vertex x1 y2 st;
        st ← put_vertex x2 y2 st;
        j' ← int_add j 1;
        steps_loop s stride channel x1 x2 val n' j' st
  end.

(** Lines 877-913: the vertices of bar [i]. *)
Definition bar_vertices (s : WAVSource) (max_steps bar_stride step_stride : Z)
    (channel : nat) (i : nat) (st : list (option vec3) * Z)
  : option (list (option vec3) * Z) :=
  xi ← int_mul (Z.of_nat i) bar_stride;
  let x1 := F32.add (F32.of_Z xi) f32_half in
  let x2 := F32.add x1 (F32.of_Z (m_bar_width s)) in
  vals ← get2 (m_interp_bufs s) channel;
  val ← vals !! i;
  match m_display_mode s with
  | STEPPED_BAR =>
      steps_loop s step_stride channel x1 x2 val (Z.to_nat max_steps) 0 st
  | CURVE | BAR =>
      let val := match channel with
                 | O => val
                 | S _ => F32.sub (bottom s) val
                 end in
      st ← put_vertex x1 val st;
      st ← put_vertex x2 val st;
      st ← put_vertex x1 (cpos s) st;
      put_vertex x2 (cpos s) st
  end.

(** Lines 759-768 and 871-914 for one channel. *)
Definition render_bars_vertices (s : WAVSource) (channel : nat)
    (points : list (option vec3)) : option (list (option vec3) * Z) :=
  bar_stride ← bar_stride s;
  step_stride ← step_stride s;
  max_steps ← max_steps s;
  index_loop (bar_vertices s max_steps bar_stride step_stride channel)
    (Z.to_nat (m_num_bars s)) 0 (points, 0).

(** Line 925: [(uint32_t)(vertpos / 4u) * 6u]. *)
Definition total_verts (vertpos : Z) : Z :=
  to_uint (to_uint (vertpos / 4) * 6).

(** The first [n] elements of a vertex array have been written. *)
Definition vertices_written (n : nat) (points : list (option vec3)) : Prop :=
  ∀ j, (j < n)%nat → ∃ v, points !! j = Some (Some v).

(** The state of a vertex loop that has written the first [n] elements
    of an array of [total] elements: [vertpos] is [n]. *)
Definition vertices_filled (total n : nat) (st : list (option vec3) * Z)
  : Prop :=
  st.2 = Z.of_nat n ∧ length st.1 = total ∧ vertices_written n st.1.

(** The most quads the vertex loop writes for one bar: one in bar mode,
    one per step in stepped mode. *)
Definition quads_per_bar (s : WAVSource) (max_steps : Z) : nat :=
  match m_display_mode s with
  | STEPPED_BAR => Z.to_nat max_steps
  | CURVE | BAR => 1%nat
  end.

(** ** Further inputs to run the model on *)

(** A host that reports neither audio nor video information and knows
    no source. *)
Definition silent_host : host :=
  {| obs_get_audio_info := None;
     obs_get_video_info := None;
     obs_get_source_by_name := λ _, None |}.

(** A stereo curve display, 60 pixels wide. *)
Definition demo_curve_settings : obs_data :=
  {| P_AUDIO_SRC := Some "mic";
     P_WIDTH := 60;
     P_HEIGHT := 225;
     P_LOG_SCALE := false;
     P_CHANNEL_MODE := "stereo";
     P_FFT_SIZE := 2048;
     P_AUTO_FFT_SIZE := false;
     P_TSMOOTHING := "none";
     P_INTERP_MODE := "point";
     P_CUTOFF_LOW := 30;
     P_CUTOFF_HIGH := 17500;
     P_FLOOR := -65;
     P_CEILING := 0;
     P_DISPLAY_MODE := "curve";
     P_BAR_WIDTH := 24;
     P_BAR_GAP := 6;
     P_STEP_WIDTH := 8;
     P_STEP_GAP := 4 |}.

(** The instance that [update] leaves for the curve display. *)
Definition demo_curve_instance : WAVSource :=
  default new_instance
    (fst <$> @update demo_externals demo_host demo_curve_settings
               new_instance).


(** ** Inputs for the interpolation index table *)







(** * Properties *)

(** ** Arrays of two elements *)

Lemma get2_store2 {A : Type} (i j : nat) (x : A) (a a' : array2 A) :
  store2 i x a = Some a' →
  get2 a' j = if bool_decide (j = i) then Some x else get2 a j.
Proof.
  destruct i as [|[|i]]; simpl; intros [= <-]; destruct j as [|[|j]]; reflexivity.
Qed.

Lemma store2_is_Some {A : Type} (i : nat) (x : A) (a : array2 A) :
  is_Some (get2 a i) → is_Some (store2 i x a).
Proof. destruct i as [|[|i]]; simpl; intros [? [=]]; eauto. Qed.

(** ** The capture buffers *)

Lemma capture_max_bound (n : Z) : 0 <= n → 0 <= capture_max n <= 2 * (n * 4).
Proof.
  intros Hn. unfold capture_max, to_size_t, SIZE_MOD.
  assert (0 <= (n * 4) mod 2 ^ 64 <= n * 4).
  { split; [apply Z.mod_pos_bound; lia | apply Z.mod_le; lia]. }
  split; [apply Z.mod_pos_bound; lia |].
  etrans; [apply Z.mod_le; lia | lia].
Qed.

(** What one pass of the loop body does to channel [i], and that it
    leaves the other channel alone. *)
Lemma capture_channel_spec (n : Z) (audio : audio_data) (muted : bool)
    (sz : Z) (i : nat) (bufs bufs' : array2 circlebuf) :
  0 <= sz →
  capture_channel n audio muted sz i bufs = Some bufs' →
  ∃ cb pushed : list byte,
    get2 bufs i = Some cb ∧
    (if muted then pushed = replicate (Z.to_nat sz) x00
     else ∃ plane, data audio !! i = Some plane ∧
                   sz <= Z.of_nat (length plane) ∧
                   pushed = take (Z.to_nat sz) plane) ∧
    length pushed = Z.to_nat sz ∧
    get2 bufs' i =
      Some (drop (Z.to_nat (circlebuf_size (cb ++ pushed) - capture_max n))
                 (cb ++ pushed)) ∧
    ∀ j, j ≠ i → get2 bufs' j = get2 bufs j.
Proof.
  intros Hsz. unfold capture_channel.
  destruct (get2 bufs i) as [cb|] eqn:Hcb; simpl; [|done].
  set (new := if muted then _ else _).
  destruct new as [pushed|] eqn:Hnew; simpl; [|done].
  assert (∃ p, pushed = cb ++ p ∧ length p = Z.to_nat sz ∧
               if muted then p = replicate (Z.to_nat sz) x00
               else ∃ plane, data audio !! i = Some plane ∧
                             sz <= Z.of_nat (length plane) ∧
                             p = take (Z.to_nat sz) plane) as (p & -> & Hlen & Hp).
  { subst new. destruct muted.
    - injection Hnew as <-. eexists; split; [reflexivity|].
      split; [apply length_replicate | reflexivity].
    - destruct (data audio !! i) as [plane|] eqn:Hpl; simpl in Hnew; [|done].
      unfold circlebuf_push_back in Hnew. case_bool_decide; [|done].
      injection Hnew as <-. eexists; split; [reflexivity|].
      split; [rewrite length_take; lia | eauto]. }
  intros Hst. exists cb, p. split; [done|]. split; [done|]. split; [done|].
  split.
  - rewrite (get2_store2 _ i _ _ _ Hst), bool_decide_true by done.
    f_equal. case_bool_decide; [reflexivity|].
    unfold circlebuf_pop_front.
    replace (Z.to_nat _) with 0%nat by lia. reflexivity.
  - intros j Hj. rewrite (get2_store2 _ j _ _ _ Hst), bool_decide_false; done.
Qed.

(** The loop over the channels treats every channel below the channel
    count exactly once. *)
Lemma capture_loop_spec (n : Z) (audio : audio_data) (muted : bool) (sz : Z)
    (k i : nat) (bufs bufs' : array2 circlebuf) :
  0 <= sz →
  index_loop (capture_channel n audio muted sz) k 0 bufs = Some bufs' →
  (i < k)%nat →
  ∃ cb pushed : list byte,
    get2 bufs i = Some cb ∧
    (if muted then pushed = replicate (Z.to_nat sz) x00
     else ∃ plane, data audio !! i = Some plane ∧
                   sz <= Z.of_nat (length plane) ∧
                   pushed = take (Z.to_nat sz) plane) ∧
    length pushed = Z.to_nat sz ∧
    get2 bufs' i =
      Some (drop (Z.to_nat (circlebuf_size (cb ++ pushed) - capture_max n))
                 (cb ++ pushed)).
Proof.
  intros Hsz Hloop Hi.
  destruct k as [|[|[|k]]]; simpl in Hloop.
  - lia.
  - destruct (capture_channel _ _ _ _ 0 bufs) as [b1|] eqn:H0; [|done].
    simpl in Hloop. injection Hloop as <-.
    assert (i = 0)%nat as -> by lia.
    destruct (capture_channel_spec _ _ _ _ _ _ _ Hsz H0)
      as (cb & p & ? & ? & ? & ? & _). eauto 10.
  - destruct (capture_channel _ _ _ _ 0 bufs) as [b1|] eqn:H0; [|done].
    simpl in Hloop.
    destruct (capture_channel _ _ _ _ 1 b1) as [b2|] eqn:H1; [|done].
    simpl in Hloop. injection Hloop as <-.
    destruct (capture_channel_spec _ _ _ _ _ _ _ Hsz H0)
      as (cb0 & p0 & Hg0 & Hp0 & Hl0 & Hr0 & Hf0).
    destruct (capture_channel_spec _ _ _ _ _ _ _ Hsz H1)
      as (cb1 & p1 & Hg1 & Hp1 & Hl1 & Hr1 & Hf1).
    destruct i as [|[|i]]; [| |lia].
    + exists cb0, p0. rewrite Hf1 by done. eauto.
    + exists cb1, p1. rewrite <- Hf0 by done. eauto.
  - destruct (capture_channel _ _ _ _ 0 bufs) as [b1|]; [|done].
    simpl in Hloop.
    destruct (capture_channel _ _ _ _ 1 b1) as [b2|]; [|done].
    simpl in Hloop. done.
Qed.

Lemma capture_channel_defined (n : Z) (audio : audio_data) (muted : bool)
    (sz : Z) (i : nat) (bufs : array2 circlebuf) :
  (i < 2)%nat →
  (muted = false →
   ∃ plane, data audio !! i = Some plane ∧ sz <= Z.of_nat (length plane)) →
  is_Some (capture_channel n audio muted sz i bufs).
Proof.
  intros Hi Hpl. unfold capture_channel.
  assert (is_Some (get2 bufs i)) as [cb Hcb].
  { destruct i as [|[|i]]; simpl; eauto. lia. }
  rewrite Hcb. simpl.
  destruct muted; simpl.
  - apply store2_is_Some; eauto.
  - destruct Hpl as (plane & -> & Hle); [done|]. simpl.
    unfold circlebuf_push_back. rewrite bool_decide_true by done. simpl.
    apply store2_is_Some; eauto.
Qed.

Lemma capture_loop_defined (n : Z) (audio : audio_data) (muted : bool)
    (sz : Z) (k : nat) (bufs : array2 circlebuf) :
  (k <= 2)%nat →
  (muted = false → ∀ i, (i < k)%nat →
   ∃ plane, data audio !! i = Some plane ∧ sz <= Z.of_nat (length plane)) →
  is_Some (index_loop (capture_channel n audio muted sz) k 0 bufs).
Proof.
  intros Hk Hpl.
  destruct k as [|[|[|k]]]; simpl; [eauto | | | lia].
  - destruct (capture_channel_defined n audio muted sz 0 bufs) as [b1 ->];
      [lia | intros; apply Hpl; [done|lia] |]. simpl. eauto.
  - destruct (capture_channel_defined n audio muted sz 0 bufs) as [b1 ->];
      [lia | intros; apply Hpl; [done|lia] |]. simpl.
    destruct (capture_channel_defined n audio muted sz 1 b1) as [b2 ->];
      [lia | intros; apply Hpl; [done|lia] |]. simpl. eauto.
Qed.

Lemma drop_suffix_of {A : Type} (k : nat) (l : list A) : drop k l `suffix_of` l.
Proof. exists (take k l). symmetry. apply take_drop. Qed.

(** C1. A call of [capture_audio] that delivers [frames audio] frames
    while a source is bound appends, on every capture channel, exactly
    [frames audio * 4] bytes to that channel's FIFO (zero bytes when
    [muted], the channel's sample bytes otherwise) and then discards bytes
    from the front only: what is left is a suffix of the old contents
    followed by the new bytes, its size is the smaller of the untrimmed
    size and [capture_max], and so never exceeds twice the analysis window
    in bytes. The call has a defined result whenever the instance has at
    most two capture channels and every plane holds the announced number
    of bytes. *)
Theorem capture_audio_appends_then_trims (audio : audio_data) (muted : bool)
    (s : WAVSource) :
  is_uint (frames audio) →
  is_size_t (m_fft_size s) →
  is_Some (m_audio_source s) →
  let nbytes := Z.to_nat (frames audio * 4) in
  let channels := Z.to_nat (m_capture_channels s) in
  ((channels <= 2)%nat →
   (muted = false → ∀ i, (i < channels)%nat →
      ∃ plane, data audio !! i = Some plane ∧ (nbytes <= length plane)%nat) →
   is_Some (capture_audio true audio muted s)) ∧
  ∀ s', capture_audio true audio muted s = Some s' →
    ∀ i, (i < channels)%nat →
    ∃ cb pushed cb' : list byte,
      get2 (m_capturebufs s) i = Some cb ∧
      get2 (m_capturebufs s') i = Some cb' ∧
      length pushed = nbytes ∧
      (if muted then pushed = replicate nbytes x00
       else ∃ plane, data audio !! i = Some plane ∧ pushed = take nbytes plane) ∧
      cb' = drop (length (cb ++ pushed) - length cb') (cb ++ pushed) ∧
      cb' `suffix_of` (cb ++ pushed) ∧
      circlebuf_size cb' =
        Z.min (circlebuf_size cb + frames audio * 4)
              (capture_max (m_fft_size s)) ∧
      circlebuf_size cb' <= 2 * (m_fft_size s * 4).
Proof.
  intros Hfr Hfft [src Hsrc] nbytes channels.
  assert (to_size_t (frames audio * 4) = frames audio * 4) as Hsz.
  { unfold to_size_t, SIZE_MOD. unfold is_uint, UINT_MOD in Hfr.
    apply Z.mod_small. lia. }
  assert (0 <= frames audio * 4) as Hpos by (unfold is_uint in Hfr; lia).
  unfold capture_audio. simpl. rewrite Hsrc, Hsz. split.
  - intros Hch Hpl.
    destruct (capture_loop_defined (m_fft_size s) audio muted
                (frames audio * 4) channels (m_capturebufs s) Hch) as [b Hb].
    { intros Hm i Hi. destruct (Hpl Hm i Hi) as (plane & ? & ?).
      exists plane. split; [done|]. subst nbytes. lia. }
    fold channels. rewrite Hb. simpl. eauto.
  - intros s' Hs' i Hi. fold channels in Hs'.
    destruct (index_loop _ channels 0%nat (m_capturebufs s)) as [b|] eqn:Hb;
      [|done].
    simpl in Hs'. injection Hs' as <-. simpl.
    destruct (capture_loop_spec _ _ _ _ _ i _ _ Hpos Hb Hi)
      as (cb & p & Hcb & Hp & Hlen & Hres).
    pose proof (capture_max_bound (m_fft_size s) (proj1 Hfft)) as Hmax.
    set (mx := capture_max (m_fft_size s)) in *.
    set (k := Z.to_nat (circlebuf_size (cb ++ p) - mx)) in *.
    assert (length (cb ++ p) = (length cb + nbytes)%nat) as Happ
      by (rewrite length_app, Hlen; done).
    exists cb, p, (drop k (cb ++ p)).
    split; [done|]. split; [done|]. split; [done|]. split.
    { destruct muted; [done|]. destruct Hp as (plane & ? & ? & ?). eauto. }
    assert (length (drop k (cb ++ p)) = (length (cb ++ p) - k)%nat) as Hdrop
      by apply length_drop.
    split.
    { f_equal. rewrite Hdrop. subst k. unfold circlebuf_size. lia. }
    split; [apply drop_suffix_of|].
    unfold circlebuf_size in *. rewrite Hdrop, Happ. subst k.
    rewrite Happ. subst nbytes. lia.
Qed.

(** C10. When no audio source is bound ([m_audio_source] is null),
    [capture_audio] returns the instance as it was, whatever the frame,
    the mute flag and the outcome of taking the lock: every capture buffer
    and every other field is unchanged. *)
Theorem capture_audio_without_source (lock_acquired : bool)
    (audio : audio_data) (muted : bool) (s : WAVSource) :
  m_audio_source s = None →
  capture_audio lock_acquired audio muted s = Some s.
Proof.
  intros Hnull. unfold capture_audio.
  destruct lock_acquired; simpl; [|done]. by rewrite Hnull.
Qed.

(** ** Integer conversions *)

Lemma to_size_t_range (z : Z) : is_size_t (to_size_t z).
Proof. unfold is_size_t, to_size_t, SIZE_MOD. apply Z.mod_pos_bound. lia. Qed.

Lemma land_15 (n : Z) : Z.land n 15 = n mod 16.
Proof. change 15 with (Z.ones 4). rewrite Z.land_ones by lia. reflexivity. Qed.

Lemma size_and_m16_spec (n : Z) : is_size_t n → size_and_m16 n = 16 * (n / 16).
Proof.
  intros Hn. unfold size_and_m16.
  change (to_size_t (-16)) with (Z.land (Z.ones 64) (Z.lnot (Z.ones 4))).
  rewrite Z.land_assoc, Z.land_ones by lia.
  unfold is_size_t, SIZE_MOD in Hn. rewrite Z.mod_small by lia.
  change (Z.land n (Z.lnot (Z.ones 4))) with (Z.ldiff n (Z.ones 4)).
  rewrite Z.ldiff_ones_r by lia.
  rewrite Z.shiftl_mul_pow2, Z.shiftr_div_pow2 by lia.
  change (2 ^ 4) with 16. lia.
Qed.

Lemma align_fft_size_spec (n : Z) :
  is_size_t n →
  (n < 128 → align_fft_size n = 128) ∧
  (128 <= n → align_fft_size n = 16 * (n / 16)).
Proof.
  intros Hn. unfold align_fft_size. split; intros H.
  - by rewrite bool_decide_true.
  - rewrite bool_decide_false by lia. rewrite land_15.
    case_bool_decide as Hm.
    + by apply size_and_m16_spec.
    + pose proof (Z.div_mod n 16). lia.
Qed.

(** ** Floating-point truncation *)


(** ** The configuration step *)

Section Settings.
Context `{Externals}.

(** The fields that [get_settings] writes, and those it leaves alone. *)
Lemma get_settings_inv (settings : obs_data) (s s0 : WAVSource) :
  get_settings settings s = Some s0 →
  fix_range (to_int (P_CUTOFF_LOW settings))
            (to_int (P_CUTOFF_HIGH settings)) 120 17500
    = Some (m_cutoff_low s0, m_cutoff_high s0) ∧
  fix_range (to_int (P_FLOOR settings))
            (to_int (P_CEILING settings)) (-120) 0
    = Some (m_floor s0, m_ceiling s0) ∧
  m_fft_size s0 = align_fft_size (to_size_t (P_FFT_SIZE settings)) ∧
  m_auto_fft_size s0 = P_AUTO_FFT_SIZE settings ∧
  m_width s0 = to_uint (P_WIDTH settings) ∧
  m_bar_width s0 = to_int (P_BAR_WIDTH settings) ∧
  m_bar_gap s0 = to_int (P_BAR_GAP settings) ∧
  m_display_mode s0 =
    (if p_equ (P_DISPLAY_MODE settings) P_BARS then BAR
     else if p_equ (P_DISPLAY_MODE settings) P_STEP_BARS then STEPPED_BAR
     else CURVE) ∧
  m_audio_source_name s0 = default EmptyString (P_AUDIO_SRC settings) ∧
  m_audio_source s0 = m_audio_source s ∧
  m_capturebufs s0 = m_capturebufs s ∧
  m_decibels s0 = m_decibels s ∧
  m_tsmooth_buf s0 = m_tsmooth_buf s ∧
  m_retries s0 = m_retries s ∧
  m_num_bars s0 = m_num_bars s.
Proof.
  unfold get_settings. intros Hget.
  destruct (fix_range _ _ 120 _) as [[lo hi]|]; simpl in Hget; [|done].
  destruct (fix_range _ _ (-120) _) as [[fl ce]|]; simpl in Hget; [|done].
  injection Hget as <-. simpl. repeat split; reflexivity.
Qed.

End Settings.

(** ** Reconfiguration *)

Lemma int_result_Some (z : Z) : is_int z → int_result z = Some z.
Proof. intros Hz. unfold int_result. by rewrite bool_decide_true. Qed.

Lemma int_result_inv (z r : Z) : int_result z = Some r → r = z ∧ is_int z.
Proof. unfold int_result. case_bool_decide; [|done]. by intros [= <-]. Qed.

Lemma fix_range_Some (lo hi dlo dhi : Z) :
  is_int (hi - lo) →
  fix_range lo hi dlo dhi =
    Some (if bool_decide (hi - lo < 1) then (dlo, dhi) else (lo, hi)).
Proof.
  intros Hd. unfold fix_range, int_sub. by rewrite int_result_Some.
Qed.

Lemma fix_range_inv (lo hi dlo dhi : Z) (r : Z * Z) :
  fix_range lo hi dlo dhi = Some r →
  is_int (hi - lo) ∧
  r = if bool_decide (hi - lo < 1) then (dlo, dhi) else (lo, hi).
Proof.
  unfold fix_range, int_sub. intros Hr.
  destruct (int_result (hi - lo)) as [d|] eqn:Hd; simpl in Hr; [|done].
  apply int_result_inv in Hd as [-> ?]. by injection Hr as <-.
Qed.

(** A vector can be resized to an [int] count exactly when the count is
    not negative. *)
Lemma vector_resize_int (n : Z) (v : list float) :
  is_int n → is_Some (vector_resize n v) ↔ 0 <= n.
Proof.
  unfold is_int, INT_MIN, INT_MAX, vector_resize, to_size_t, SIZE_MOD, PTRDIFF_MAX.
  intros Hn. destruct (decide (0 <= n)) as [Hpos|Hneg].
  - rewrite Z.mod_small by lia. rewrite bool_decide_true by lia.
    split; eauto.
  - replace (n mod 2 ^ 64) with (n + 2 ^ 64).
    + rewrite bool_decide_false by lia. split; [intros [? [=]] | lia].
    + apply Z.mod_unique with (-1); lia.
Qed.

Lemma vector_resize_uint (n : Z) (v : list float) :
  is_uint n → is_Some (vector_resize n v).
Proof.
  unfold is_uint, UINT_MOD, vector_resize, to_size_t, SIZE_MOD, PTRDIFF_MAX.
  intros Hn. rewrite Z.mod_small by lia. rewrite bool_decide_true by lia. eauto.
Qed.

Lemma resize_interp_bufs_is_Some (n : Z) (bufs : array2 (list float)) :
  is_Some (resize_interp_bufs n bufs) ↔ is_Some (vector_resize n []).
Proof.
  unfold resize_interp_bufs, vector_resize.
  case_bool_decide; simpl; split; eauto; intros [? [=]].
Qed.

Lemma to_uint_range (z : Z) : is_uint (to_uint z).
Proof. unfold is_uint, to_uint, UINT_MOD. apply Z.mod_pos_bound. lia. Qed.

Lemma to_int_range (z : Z) : is_int (to_int z).
Proof.
  unfold is_int, to_int, INT_MIN, INT_MAX, UINT_MOD.
  pose proof (Z.mod_pos_bound (z + 2 ^ 31) (2 ^ 32)). lia.
Qed.

Lemma count_bars_int (w b g n : Z) : count_bars w b g = Some n → is_int n.
Proof.
  unfold count_bars, int_add, int_mul, int_sub, uint_div. intros Hc.
  destruct (int_result (b + g)) as [stride|]; simpl in Hc; [|done].
  case_bool_decide; simpl in Hc; [done|].
  destruct (int_result (_ * _)) as [covered|]; simpl in Hc; [|done].
  destruct (int_result (_ - _)) as [rest|]; simpl in Hc; [|done].
  case_bool_decide.
  - by apply int_result_inv in Hc as [-> ?].
  - injection Hc as <-. apply to_int_range.
Qed.

Section Update.
Context `{Externals}.

Lemma update_display_inv (st : WAVSource) (nb : Z) (idx : list float)
    (bufs : array2 (list float)) :
  update_display st = Some (nb, idx, bufs) →
  match m_display_mode st with
  | CURVE => nb = m_num_bars st ∧ idx = init_interp (m_width st) st
  | BAR | STEPPED_BAR =>
      count_bars (m_width st) (m_bar_width st) (m_bar_gap st) = Some nb ∧
      is_int (nb + 1) ∧ 0 <= nb ∧
      idx = init_interp (to_uint (nb + 1)) st
  end.
Proof.
  unfold update_display. intros Hd.
  destruct (m_display_mode st).
  - destruct (resize_interp_bufs _ _); simpl in Hd; [|done].
    by injection Hd as <- <- <-.
  - destruct (count_bars _ _ _) as [n|] eqn:Hc; simpl in Hd; [|done].
    unfold int_add in Hd.
    destruct (int_result (n + 1)) as [sz|] eqn:Hsz; simpl in Hd; [|done].
    apply int_result_inv in Hsz as [-> Hsz].
    destruct (resize_interp_bufs n _) as [b|] eqn:Hb; simpl in Hd; [|done].
    injection Hd as <- <- <-.
    assert (is_Some (vector_resize n [])) as Hr
      by (eapply resize_interp_bufs_is_Some; eauto).
    apply vector_resize_int in Hr; [done | by eapply count_bars_int].
  - destruct (count_bars _ _ _) as [n|] eqn:Hc; simpl in Hd; [|done].
    unfold int_add in Hd.
    destruct (int_result (n + 1)) as [sz|] eqn:Hsz; simpl in Hd; [|done].
    apply int_result_inv in Hsz as [-> Hsz].
    destruct (resize_interp_bufs n _) as [b|] eqn:Hb; simpl in Hd; [|done].
    injection Hd as <- <- <-.
    assert (is_Some (vector_resize n [])) as Hr
      by (eapply resize_interp_bufs_is_Some; eauto).
    apply vector_resize_int in Hr; [done | by eapply count_bars_int].
Qed.

Lemma update_display_Some (st : WAVSource) :
  is_uint (m_width st) →
  (m_display_mode st ≠ CURVE →
   ∃ nb, count_bars (m_width st) (m_bar_width st) (m_bar_gap st) = Some nb ∧
         is_int (nb + 1) ∧ 0 <= nb) →
  is_Some (update_display st).
Proof.
  intros Hw Hbars. unfold update_display.
  destruct (m_display_mode st).
  - destruct (proj2 (resize_interp_bufs_is_Some (m_width st)
                       (m_interp_bufs st))) as [b ->];
      [by apply vector_resize_uint | simpl; eauto].
  - destruct Hbars as (nb & Hc & Hnb & Hpos); [done|]. rewrite Hc. simpl.
    unfold int_add. rewrite (int_result_Some _ Hnb). simpl.
    destruct (proj2 (resize_interp_bufs_is_Some nb (m_interp_bufs st)))
      as [b ->]; [|simpl; eauto].
    apply vector_resize_int; [by eapply count_bars_int | done].
  - destruct Hbars as (nb & Hc & Hnb & Hpos); [done|]. rewrite Hc. simpl.
    unfold int_add. rewrite (int_result_Some _ Hnb). simpl.
    destruct (proj2 (resize_interp_bufs_is_Some nb (m_interp_bufs st)))
      as [b ->]; [|simpl; eauto].
    apply vector_resize_int; [by eapply count_bars_int | done].
Qed.

(** The instance after [update], field by field, in terms of the
    instance [s0] that [get_settings] produced. *)
Lemma update_inv (h : host) (settings : obs_data) (s s' : WAVSource)
    (logs : list log_entry) :
  update h settings s = Some (s', logs) →
  ∃ s0 log2,
    get_settings settings (free_fft (release_audio_capture s)) = Some s0 ∧
    (if m_auto_fft_size s0
     then auto_fft_size (samples_per_sec (update_audio_info h)) (video_fps h)
     else Some (m_fft_size s0)) = Some (m_fft_size s') ∧
    index_loop (alloc_channel (m_tsmoothing s0) (m_fft_size s' / 2))
      (Z.to_nat (m_output_channels s')) 0
      (Array2 None None, Array2 None None)
      = Some (m_decibels s', m_tsmooth_buf s') ∧
    m_capture_channels s' =
      Z.min (get_audio_channels (speakers (update_audio_info h))) 2 ∧
    m_output_channels s' =
      (if bool_decide (m_capture_channels s' > 1) || m_stereo s0
       then 2 else 1) ∧
    m_audio_info s' = update_audio_info h ∧
    m_fps s' = video_fps h ∧
    m_capturebufs s' =
      Array2 (pad_capturebuf (m_fft_size s') [])
             (pad_capturebuf (m_fft_size s') []) ∧
    match m_display_mode s0 with
    | CURVE =>
        m_num_bars s' = m_num_bars s ∧
        m_interp_indices s' = init_interp (m_width s0) s'
    | BAR | STEPPED_BAR =>
        count_bars (m_width s0) (m_bar_width s0) (m_bar_gap s0)
          = Some (m_num_bars s') ∧
        is_int (m_num_bars s' + 1) ∧ 0 <= m_num_bars s' ∧
        m_interp_indices s' = init_interp (to_uint (m_num_bars s' + 1)) s'
    end ∧
    (m_width s' = m_width s0 ∧ m_bar_width s' = m_bar_width s0 ∧
     m_bar_gap s' = m_bar_gap s0 ∧ m_display_mode s' = m_display_mode s0 ∧
     m_cutoff_low s' = m_cutoff_low s0 ∧ m_cutoff_high s' = m_cutoff_high s0 ∧
     m_floor s' = m_floor s0 ∧ m_ceiling s' = m_ceiling s0 ∧
     m_audio_source_name s' = m_audio_source_name s0 ∧
     m_tsmoothing s' = m_tsmoothing s0 ∧ m_stereo s' = m_stereo s0 ∧
     m_interp_mode s' = m_interp_mode s0 ∧ m_log_scale s' = m_log_scale s0) ∧
    logs = (if bool_decide (m_capture_channels s' = 0)
            then [WarnNoChannelCount] else []) ++ log2 ∧
    match obs_get_source_by_name h (m_audio_source_name s0) with
    | Some asrc =>
        m_audio_source s' = Some (obs_source_get_weak_source asrc) ∧
        m_retries s' = 0 ∧ log2 = []
    | None =>
        m_audio_source s' = None ∧
        if p_equ (m_audio_source_name s0) "none"
        then m_retries s' = 0 ∧ log2 = []
        else m_retries s' = 1 mod RETRIES_MOD ∧
             log2 = [WarnSourceNotFound (m_audio_source_name s0)]
    end.
Proof.
  unfold update. intros Hup.
  destruct (get_settings _ _) as [s0|] eqn:Hget; simpl in Hup; [|done].
  destruct (get_settings_inv _ _ _ Hget)
    as (_ & _ & _ & _ & _ & _ & _ & _ & _ & _ & Hbufs & Hdec & Htsb & _ & Hnb).
  simpl in Hbufs, Hdec, Htsb, Hnb. unfold map2 in Hbufs, Hdec, Htsb.
  simpl in Hbufs, Hdec, Htsb. rewrite Hdec, Htsb in Hup.
  destruct (if m_auto_fft_size s0 then _ else _) as [n|] eqn:Hfft;
    simpl in Hup; [|done].
  destruct (index_loop _ _ _ _) as [[dec tsb]|] eqn:Halloc;
    simpl in Hup; [|done].
  unfold recapture_audio in Hup. simpl in Hup.
  destruct (obs_get_source_by_name h (m_audio_source_name s0)) as [asrc|]
    eqn:Hlook; [|destruct (p_equ (m_audio_source_name s0) "none") eqn:Hnone];
    simpl in Hup;
    (destruct (update_display _) as [[[nb idx] ibufs]|] eqn:Hdisp;
     simpl in Hup; [|done]);
    injection Hup as <- <-; eexists s0, _; simpl; rewrite ?Hlook, ?Hnone;
    rewrite Hbufs; unfold map2; simpl;
    (split; [done|]); (split; [done|]); (split; [exact Halloc|]);
    repeat (split; [done|]);
    (split; [|done]);
    apply update_display_inv in Hdisp; simpl in Hdisp;
    unfold init_interp, cutoff_bin in Hdisp |- *; simpl in Hdisp |- *;
    rewrite <- Hnb; exact Hdisp.
Qed.

Lemma alloc_loop_Some (ts : TSmoothingMode) (count : Z) (k : nat)
    (bufs : array2 (option (list float)) * array2 (option (list float))) :
  (k <= 2)%nat → count < UINT_MOD →
  is_Some (index_loop (alloc_channel ts count) k 0 bufs).
Proof.
  intros Hk Hc.
  assert (∀ i b, (i < 2)%nat → is_Some (alloc_channel ts count i b)) as Hbody.
  { intros i b Hi. unfold alloc_channel. rewrite bool_decide_true by done.
    destruct i as [|[|i]]; [| |lia]; destruct ts; simpl; eauto. }
  destruct k as [|[|[|k]]]; simpl; [eauto| | |lia].
  - destruct (Hbody 0%nat bufs) as [b1 ->]; [lia|]. simpl. eauto.
  - destruct (Hbody 0%nat bufs) as [b1 ->]; [lia|]. simpl.
    destruct (Hbody 1%nat b1) as [b2 ->]; [lia|]. simpl. eauto.
Qed.

Lemma update_defined (h : host) (settings : obs_data) (s : WAVSource) :
  update_ok h settings → is_Some (update h settings s).
Proof.
  intros (Hcut & Hfl & (n & Hn & Hcount) & Hbars).
  unfold update, get_settings.
  rewrite (fix_range_Some _ _ _ _ Hcut), (fix_range_Some _ _ _ _ Hfl).
  simpl.
  set (c := if bool_decide (_ - _ < 1) then _ else _). destruct c as [lo hi].
  set (c := if bool_decide (_ - _ < 1) then _ else _). destruct c as [fl ce].
  simpl. rewrite Hn. simpl.
  match goal with
  | |- context [index_loop (alloc_channel ?ts ?c) ?k 0%nat ?b] =>
      destruct (alloc_loop_Some ts c k b) as [[dec tsb] Halloc];
      [match goal with
       | |- (Z.to_nat (if ?b then _ else _) <= _)%nat => destruct b
       end; lia
      |done|]
  end.
  rewrite Halloc. simpl.
  unfold recapture_audio. simpl.
  destruct (obs_get_source_by_name h _); [|destruct (negb _)]; simpl;
    match goal with
    | |- context [update_display ?st] =>
        destruct (update_display_Some st) as [[[nb idx] ibufs] ->];
        [simpl; apply to_uint_range
        |simpl; intros Hmode; apply Hbars;
         destruct (p_equ (P_DISPLAY_MODE settings) P_BARS); [done|];
         destruct (p_equ (P_DISPLAY_MODE settings) P_STEP_BARS); done
        |simpl; eauto]
    end.
Qed.

End Update.

(** ** The sign of a rounded result *)








Section Pipeline.
Context `{Externals}.

Lemma get_settings_defined (settings : obs_data) (s : WAVSource) :
  is_int (to_int (P_CUTOFF_HIGH settings) - to_int (P_CUTOFF_LOW settings)) →
  is_int (to_int (P_CEILING settings) - to_int (P_FLOOR settings)) →
  is_Some (get_settings settings s).
Proof.
  intros Hcut Hfl. unfold get_settings.
  rewrite (fix_range_Some _ _ _ _ Hcut), (fix_range_Some _ _ _ _ Hfl).
  simpl. do 2 destruct (bool_decide _); simpl; eauto.
Qed.


(** C4. [get_settings] replaces a cutoff pair with [high - low < 1] by
    exactly (120, 17500) and leaves every other pair as it was read; the
    result is a function of the settings. The two premises say that the
    subtractions of the range checks do not overflow [int]. *)
Theorem cutoff_range_defaults (settings : obs_data) (s : WAVSource) :
  let low := to_int (P_CUTOFF_LOW settings) in
  let high := to_int (P_CUTOFF_HIGH settings) in
  is_int (high - low) →
  is_int (to_int (P_CEILING settings) - to_int (P_FLOOR settings)) →
  ∃ s', get_settings settings s = Some s' ∧
    (high - low < 1 →
     m_cutoff_low s' = 120 ∧ m_cutoff_high s' = 17500) ∧
    (1 <= high - low →
     m_cutoff_low s' = low ∧ m_cutoff_high s' = high).
Proof.
  intros low high Hcut Hfl.
  destruct (get_settings_defined settings s Hcut Hfl) as [s' Hget].
  exists s'. split; [done|].
  destruct (get_settings_inv _ _ _ Hget) as (Hr & _).
  rewrite (fix_range_Some _ _ _ _ Hcut) in Hr. fold low high in Hr.
  case_bool_decide; injection Hr as <- <-; split; intros; (done || lia).
Qed.

(** C8. [get_settings] has a defined result for every floor/ceiling
    pair whose difference fits [int], nothing is reported, and a pair with
    [ceiling - floor < 1] is replaced by ceiling 0 and floor -120 while
    every other pair is left as it was read. *)
Theorem decibel_range_defaults (settings : obs_data) (s : WAVSource) :
  let floor := to_int (P_FLOOR settings) in
  let ceiling := to_int (P_CEILING settings) in
  is_int (ceiling - floor) →
  is_int (to_int (P_CUTOFF_HIGH settings) - to_int (P_CUTOFF_LOW settings)) →
  ∃ s', get_settings settings s = Some s' ∧
    (ceiling - floor < 1 → m_ceiling s' = 0 ∧ m_floor s' = -120) ∧
    (1 <= ceiling - floor → m_ceiling s' = ceiling ∧ m_floor s' = floor).
Proof.
  intros floor ceiling Hfl Hcut.
  destruct (get_settings_defined settings s Hcut Hfl) as [s' Hget].
  exists s'. split; [done|].
  destruct (get_settings_inv _ _ _ Hget) as (_ & Hr & _).
  rewrite (fix_range_Some _ _ _ _ Hfl) in Hr. fold floor ceiling in Hr.
  case_bool_decide; injection Hr as <- <-; split; intros; (done || lia).
Qed.

(** *** The number of bars *)

Lemma to_int_small (z : Z) : 0 <= z <= INT_MAX → to_int z = z.
Proof.
  unfold to_int, INT_MAX, UINT_MOD. intros Hz.
  rewrite Z.mod_small by lia. lia.
Qed.

Lemma to_int_large (z : Z) : INT_MAX < z < UINT_MOD → to_int z = z - 2 ^ 32.
Proof.
  unfold to_int, INT_MAX, UINT_MOD. intros Hz.
  replace ((z + 2 ^ 31) mod 2 ^ 32) with (z - 2 ^ 31); [lia|].
  apply Z.mod_unique with 1; lia.
Qed.

(** Whenever the bar count is defined and can size the output buffers,
    it is the quotient of the width by the stride, plus one when the
    remainder holds a whole bar. *)
Lemma count_bars_spec (w b g nb : Z) :
  is_uint w → 1 <= b → 0 <= g →
  count_bars w b g = Some nb → 0 <= nb →
  nb = w / (b + g)
       + (if bool_decide (w - w / (b + g) * (b + g) >= b) then 1 else 0).
Proof.
  unfold is_uint, UINT_MOD. intros Hw Hb Hg Hc Hnb.
  unfold count_bars, int_add, int_mul, int_sub, uint_div in Hc.
  destruct (int_result (b + g)) as [stride|] eqn:Hs; simpl in Hc; [|done].
  apply int_result_inv in Hs as [-> Hs].
  unfold is_int, INT_MIN, INT_MAX in Hs.
  assert (to_uint (b + g) = b + g) as Hu
    by (unfold to_uint, UINT_MOD; apply Z.mod_small; lia).
  rewrite Hu in Hc. rewrite bool_decide_false in Hc by lia. simpl in Hc.
  set (q := w / (b + g)) in *.
  assert (0 <= q <= w) as Hq.
  { subst q. split; [apply Z.div_pos; lia|].
    apply Z.div_le_upper_bound; nia. }
  pose proof (Z.div_mod w (b + g) ltac:(lia)) as Hdm.
  pose proof (Z.mod_pos_bound w (b + g) ltac:(lia)) as Hm.
  fold q in Hdm.
  destruct (int_result (to_int q * (b + g))) as [covered|] eqn:Hcov;
    simpl in Hc; [|done].
  apply int_result_inv in Hcov as [-> Hcov].
  destruct (int_result (to_int w - _)) as [rest|] eqn:Hrest;
    simpl in Hc; [|done].
  apply int_result_inv in Hrest as [-> Hrest].
  unfold is_int, INT_MIN, INT_MAX in Hcov, Hrest.
  destruct (decide (w <= INT_MAX)) as [Hsmall|Hbig]; unfold INT_MAX in *.
  - rewrite (to_int_small q), (to_int_small w) in *
      by (unfold INT_MAX; lia).
    destruct (decide (w - q * (b + g) >= b)).
    + rewrite bool_decide_true in Hc |- * by done.
      apply int_result_inv in Hc as [-> _]. done.
    + rewrite bool_decide_false in Hc |- * by done.
      injection Hc as <-. lia.
  - exfalso.
    rewrite (to_int_large w) in * by (unfold INT_MAX, UINT_MOD; lia).
    destruct (decide (q <= 2 ^ 31 - 1)) as [Hqs|Hqb].
    + rewrite (to_int_small q) in * by (unfold INT_MAX; lia). nia.
    + rewrite (to_int_large q) in * by (unfold INT_MAX, UINT_MOD; lia).
      case_bool_decide as Hinc.
      * apply int_result_inv in Hc as [-> _]. nia.
      * injection Hc as <-. lia.
Qed.

Lemma init_interp_length (sz : Z) (st : WAVSource) :
  length (init_interp sz st) = Z.to_nat sz.
Proof. unfold init_interp. by rewrite length_fmap, length_seqZ. Qed.

(** C6. In the bar modes, with a bar width of at least 1 and a bar gap
    of at least 0, whenever [update] has a defined result the number of
    bars is the quotient of the width by the stride [B + G], plus one when
    the remainder [W - (W / (B + G)) * (B + G)] is at least [B], and the
    interpolation index table has one entry more than there are bars. *)
Theorem bar_count_and_index_table (h : host) (settings : obs_data)
    (s : WAVSource) :
  let W := to_uint (P_WIDTH settings) in
  let B := to_int (P_BAR_WIDTH settings) in
  let G := to_int (P_BAR_GAP settings) in
  update_ok h settings →
  p_equ (P_DISPLAY_MODE settings) P_BARS
  || p_equ (P_DISPLAY_MODE settings) P_STEP_BARS = true →
  1 <= B → 0 <= G →
  ∃ s' logs,
    update h settings s = Some (s', logs) ∧
    m_num_bars s' =
      W / (B + G)
      + (if bool_decide (W - W / (B + G) * (B + G) >= B) then 1 else 0) ∧
    length (m_interp_indices s') = Z.to_nat (m_num_bars s' + 1).
Proof.
  intros W B G Hok Hmode HB HG.
  destruct (update_defined h settings s Hok) as [[s' logs] Hup].
  exists s', logs. split; [done|].
  destruct (update_inv _ _ _ _ _ Hup)
    as (s0 & log2 & Hget & _ & _ & _ & _ & _ & _ & _ & Hdisp & _).
  destruct (get_settings_inv _ _ _ Hget)
    as (_ & _ & _ & _ & Hw & Hbw & Hbg & Hdm & _).
  rewrite Hdm, Hw, Hbw, Hbg in Hdisp. fold W B G in Hdisp.
  assert (count_bars W B G = Some (m_num_bars s') ∧
          is_int (m_num_bars s' + 1) ∧ 0 <= m_num_bars s' ∧
          m_interp_indices s' = init_interp (to_uint (m_num_bars s' + 1)) s')
    as (Hc & Hint & Hpos & Hidx).
  { destruct (p_equ (P_DISPLAY_MODE settings) P_BARS); [done|].
    destruct (p_equ (P_DISPLAY_MODE settings) P_STEP_BARS); done. }
  split.
  - apply count_bars_spec; try done. apply to_uint_range.
  - rewrite Hidx, init_interp_length. f_equal.
    unfold to_uint, UINT_MOD. apply Z.mod_small.
    unfold is_int, INT_MIN, INT_MAX in Hint. lia.
Qed.

(** *** The spectrum arrays *)

Lemma alloc_channel_spec (ts : TSmoothingMode) (count : Z) (i : nat)
    (dec tsb dec' tsb' : array2 (option (list float))) :
  alloc_channel ts count i (dec, tsb) = Some (dec', tsb') →
  ∀ j, get2 dec' j =
       if bool_decide (j = i)
       then Some (Some (replicate (Z.to_nat count) DB_MIN))
       else get2 dec j.
Proof.
  unfold alloc_channel. case_bool_decide; [|done]. simpl.
  destruct (store2 i _ dec) as [d|] eqn:Hd; simpl; [|done].
  destruct (match ts with TS_NONE => _ | EXPONENTIAL => _ end) as [t|];
    simpl; [|done].
  intros [= <- <-] j. by apply get2_store2.
Qed.

Lemma alloc_loop_spec (ts : TSmoothingMode) (count : Z) (k : nat)
    (bufs bufs' : array2 (option (list float)) * array2 (option (list float))) :
  index_loop (alloc_channel ts count) k 0 bufs = Some bufs' →
  ∀ i, (i < k)%nat →
       get2 bufs'.1 i = Some (Some (replicate (Z.to_nat count) DB_MIN)).
Proof.
  destruct bufs as [dec tsb], bufs' as [dec' tsb']. intros Hloop i Hi.
  destruct k as [|[|[|k]]]; simpl in Hloop; [lia| | |].
  - destruct (alloc_channel _ _ 0 _) as [[d1 t1]|] eqn:H0; [|done].
    simpl in Hloop. injection Hloop as <- <-.
    assert (i = 0)%nat as -> by lia.
    by rewrite (alloc_channel_spec _ _ _ _ _ _ _ H0), bool_decide_true.
  - destruct (alloc_channel _ _ 0 _) as [[d1 t1]|] eqn:H0; [|done].
    simpl in Hloop.
    destruct (alloc_channel _ _ 1 _) as [[d2 t2]|] eqn:H1; [|done].
    simpl in Hloop. injection Hloop as <- <-. simpl.
    rewrite (alloc_channel_spec _ _ _ _ _ _ _ H1).
    destruct i as [|[|i]]; [|by rewrite bool_decide_true|lia].
    rewrite bool_decide_false by done.
    by rewrite (alloc_channel_spec _ _ _ _ _ _ _ H0), bool_decide_true.
  - destruct (alloc_channel _ _ 0 _) as [[d1 t1]|] eqn:H0; [|done].
    simpl in Hloop.
    destruct (alloc_channel _ _ 1 _) as [[d2 t2]|] eqn:H1; [|done].
    simpl in Hloop. unfold alloc_channel in Hloop.
    destruct (bool_decide (count < UINT_MOD)); simpl in Hloop; done.
Qed.

Lemma DB_MIN_finite : log10f_accurate → is_finite DB_MIN = true.
Proof.
  intros (m & Hm & Hlo & Hhi). unfold DB_MIN. rewrite Hm.
  set (f := λ z : Z, is_finite (F32.mul (F32.of_Z 20)
                                  (S754_finite true (Z.to_pos z) (-18)))).
  assert (forallb f (seqZ (9943064 - 64) 129) = true) as Hall
    by (vm_compute; reflexivity).
  rewrite forallb_forall in Hall.
  specialize (Hall (Z.pos m)). unfold f in Hall.
  rewrite Pos2Z.id in Hall. apply Hall.
  apply list_elem_of_In, elem_of_seqZ. lia.
Qed.

(** C5. After [update], for every output channel and every bin below
    half the FFT size, the decibel spectrum holds [DB_MIN]; [DB_MIN] is
    20 times the binary32 logarithm of the smallest positive normal
    number, 2^-126, and it is finite provided libm's [log10f] is accurate
    there. *)
Theorem decibels_start_at_DB_MIN (h : host) (settings : obs_data)
    (s : WAVSource) :
  log10f_accurate →
  update_ok h settings →
  ∃ s' logs,
    update h settings s = Some (s', logs) ∧
    (∀ i : nat, Z.of_nat i < m_output_channels s' →
       ∃ d : list float,
         get2 (m_decibels s') i = Some (Some d) ∧
         length d = Z.to_nat (m_fft_size s' / 2) ∧
         ∀ j : nat, (j < Z.to_nat (m_fft_size s' / 2))%nat →
                    d !! j = Some DB_MIN) ∧
    DB_MIN = F32.mul (F32.of_Z 20) (log10f F32.FLT_MIN) ∧
    (∃ v : Q, SF2Q F32.FLT_MIN = Some v ∧ (v == 1 # 2 ^ 126)%Q) ∧
    is_finite DB_MIN = true.
Proof.
  intros Hlog Hok.
  destruct (update_defined h settings s Hok) as [[s' logs] Hup].
  exists s', logs. split; [done|].
  destruct (update_inv _ _ _ _ _ Hup)
    as (s0 & log2 & _ & _ & Halloc & _).
  split; [|split; [done|split; [|by apply DB_MIN_finite]]];
    [|eexists; split; [reflexivity|vm_compute; reflexivity]].
  intros i Hi.
  pose proof (alloc_loop_spec _ _ _ _ _ Halloc i ltac:(lia)) as Hd.
  simpl in Hd. eexists. split; [exact Hd|].
  split; [apply length_replicate|].
  intros j Hj. by apply lookup_replicate_2.
Qed.

(** *** The retry counter *)

Lemma recapture_audio_failed (lookup : string → option obs_source)
    (st : WAVSource) :
  lookup (m_audio_source_name st) = None →
  recapture_audio lookup st =
    if p_equ (m_audio_source_name st) "none"
    then (release_audio_capture st, [])
    else (set_capture None ((m_retries st + 1) mod RETRIES_MOD)
            (release_audio_capture st),
          if bool_decide (m_retries st = 0)
          then [WarnSourceNotFound (m_audio_source_name st)] else []).
Proof.
  intros Hl. unfold recapture_audio. simpl. rewrite Hl.
  by destruct (p_equ _ _).
Qed.

(** Attempts that start from a counter that is not 0 and do not wrap it
    around log nothing. *)
Lemma retry_attempts_silent (lookup : string → option obs_source) (n : nat) :
  ∀ st : WAVSource,
    lookup (m_audio_source_name st) = None →
    m_audio_source_name st ≠ "none" →
    1 <= m_retries st < RETRIES_MOD →
    m_retries st + Z.of_nat n <= RETRIES_MOD →
    (retry_attempts lookup n st).2 = [] ∧
    m_audio_source_name (retry_attempts lookup n st).1
      = m_audio_source_name st ∧
    m_retries (retry_attempts lookup n st).1
      = (m_retries st + Z.of_nat n) mod RETRIES_MOD ∧
    (m_audio_source st = None →
     m_audio_source (retry_attempts lookup n st).1 = None).
Proof.
  induction n as [|n IH]; intros st Hl Hname Hr Hn.
  - simpl. rewrite Z.add_0_r, Z.mod_small by lia. done.
  - simpl. rewrite (recapture_audio_failed _ _ Hl).
    unfold p_equ. rewrite bool_decide_false by done.
    rewrite bool_decide_false by lia.
    set (st1 := set_capture None _ _).
    destruct n as [|n'].
    + simpl. split; [done|]. split; [done|]. split; [|done].
      f_equal; lia.
    + assert (m_retries st1 = m_retries st + 1) as Hr1
        by (simpl; apply Z.mod_small; lia).
      destruct (IH st1) as (Hlog & Hnm & Hcnt & Hsrc);
        [done | done | lia | lia |].
      destruct (retry_attempts lookup (S n') st1) as [s2 log2].
      simpl in *. subst log2. split; [done|]. split; [done|].
      split; [|by intros; apply Hsrc].
      rewrite Hcnt, Hr1. f_equal; lia.
Qed.

(** C9. An attempt to bind a source that cannot be found logs the
    warning exactly when the retry counter is 0 (and the name is not
    "none"), advances the counter by one, and always returns an instance,
    with no source bound. [update] resets the counter and makes the first
    attempt of a streak, which logs the warning once; the following
    attempts of the streak, as long as the counter does not wrap around,
    log nothing and only advance the counter. *)
Theorem missing_source_warned_once (h : host) (settings : obs_data)
    (s : WAVSource) (n : nat) :
  let name := default EmptyString (P_AUDIO_SRC settings) in
  let lookup := obs_get_source_by_name h in
  1 < RETRIES_MOD →
  update_ok h settings →
  lookup name = None →
  (∀ st : WAVSource,
     lookup (m_audio_source_name st) = None →
     (recapture_audio lookup st).2 =
       (if bool_decide (m_retries st = 0 ∧ m_audio_source_name st ≠ "none")
        then [WarnSourceNotFound (m_audio_source_name st)] else []) ∧
     m_retries (recapture_audio lookup st).1 =
       (if p_equ (m_audio_source_name st) "none" then m_retries st
        else (m_retries st + 1) mod RETRIES_MOD) ∧
     m_audio_source (recapture_audio lookup st).1 = None) ∧
  ∃ s' logs,
    update h settings s = Some (s', logs) ∧
    m_audio_source s' = None ∧
    (name ≠ "none" →
     Z.of_nat n < RETRIES_MOD →
     logs = (if bool_decide (m_capture_channels s' = 0)
             then [WarnNoChannelCount] else [])
            ++ [WarnSourceNotFound name] ∧
     m_retries s' = 1 ∧
     (retry_attempts lookup n s').2 = [] ∧
     m_retries (retry_attempts lookup n s').1
       = (1 + Z.of_nat n) mod RETRIES_MOD ∧
     m_audio_source (retry_attempts lookup n s').1 = None).
Proof.
  intros name lookup HM Hok Hlook. split.
  - intros st Hl. rewrite (recapture_audio_failed _ _ Hl).
    unfold p_equ.
    destruct (decide (m_audio_source_name st = "none")) as [Hn|Hn].
    + rewrite bool_decide_true by done. simpl.
      rewrite bool_decide_false; [done|]. by intros [_ ?].
    + rewrite bool_decide_false by done. simpl. split; [|done].
      destruct (decide (m_retries st = 0)).
      * by rewrite !bool_decide_true.
      * rewrite !bool_decide_false; [done| |done]. by intros [? _].
  - destruct (update_defined h settings s Hok) as [[s' logs] Hup].
    exists s', logs. split; [done|].
    destruct (update_inv _ _ _ _ _ Hup)
      as (s0 & log2 & Hget & _ & _ & _ & _ & _ & _ & _ & _ & Hsame & Hlogs
          & Hcap).
    destruct (get_settings_inv _ _ _ Hget)
      as (_ & _ & _ & _ & _ & _ & _ & _ & Hname & _).
    destruct Hsame as (_ & _ & _ & _ & _ & _ & _ & _ & Hname' & _).
    rewrite Hname in Hcap, Hname'. fold name in Hcap, Hname'.
    fold lookup in Hcap. rewrite Hlook in Hcap.
    destruct Hcap as [Hsrc Hcap]. split; [done|].
    intros Hnone Hn. unfold p_equ in Hcap.
    rewrite bool_decide_false in Hcap by done.
    destruct Hcap as [Hr ->]. rewrite Z.mod_small in Hr by lia.
    split; [done|]. split; [done|].
    destruct (retry_attempts_silent lookup n s') as (Hl & _ & Hc & Hs);
      rewrite ?Hname', ?Hr; try done; try lia.
    split; [done|]. rewrite Hr in Hc. split; [done|]. by apply Hs.
Qed.

(** *** The averaging loops *)

(** A loop whose body counts its iterations has counted at least one
    when it ends, and as many as it has run while it is running. *)
Lemma do_while_counts {S : Type} (body : S → option S) (cond : S → bool)
    (cnt : S → Z) :
  (∀ a a', body a = Some a' → cnt a' = cnt a + 1) →
  ∀ (fuel : nat) (a : S),
    match do_while body cond fuel a with
    | Finished a' => cnt a + 1 <= cnt a' <= cnt a + Z.of_nat fuel
    | Running a' => cnt a' = cnt a + Z.of_nat fuel
    | Undefined => True
    end.
Proof.
  intros Hbody. induction fuel as [|fuel IH]; intros a; simpl; [lia|].
  destruct (body a) as [a1|] eqn:Ha; [|done].
  apply Hbody in Ha. destruct (cond a1).
  - specialize (IH a1). destruct (do_while body cond fuel a1); lia.
  - lia.
Qed.

Lemma point_body_count (d : list float) (a a' : bar_acc Z) :
  point_body d a = Some a' → count a' = count a + 1.
Proof.
  unfold point_body, int_add. intros Hb.
  destruct (if bool_decide (0 <= pos a) then _ else _); simpl in Hb; [|done].
  destruct (int_result (count a + 1)) as [c|] eqn:Hc; simpl in Hb; [|done].
  destruct (int_result (pos a + 1)); simpl in Hb; [|done].
  injection Hb as <-. simpl. by apply int_result_inv in Hc as [-> _].
Qed.

Lemma lanczos_body_count (fft_size : Z) (d : list float)
    (a a' : bar_acc float) :
  lanczos_body fft_size d a = Some a' → count a' = count a + 1.
Proof.
  unfold lanczos_body, int_add. intros Hb.
  destruct (int_result (count a + 1)) as [c|] eqn:Hc; simpl in Hb; [|done].
  injection Hb as <-. simpl. by apply int_result_inv in Hc as [-> _].
Qed.

Lemma point_body_Some (d : list float) (p : Z) (sm : float) (c : Z)
    (v : float) :
  0 <= p → d !! Z.to_nat p = Some v → is_int (c + 1) → is_int (p + 1) →
  point_body d {| pos := p; sum := sm; count := c |}
    = Some {| pos := p + 1; sum := F32.add sm v; count := c + 1 |}.
Proof.
  intros Hp Hv Hc Hp1. unfold point_body, int_add. cbn [pos sum count].
  rewrite bool_decide_true, Hv by done. cbn [mbind option_bind].
  by rewrite !int_result_Some.
Qed.

(** In point mode the loop runs [m] times, to the first position that
    is not below [stop], when its reads stay inside the spectrum. *)
Lemma point_loop_finishes (d : list float) (stop : Z) (m : nat) :
  ∀ (fuel : nat) (p : Z) (sm : float) (c : Z),
    (1 <= m <= fuel)%nat →
    0 <= p → p + Z.of_nat m <= Z.of_nat (length d) →
    p + Z.of_nat m <= INT_MAX →
    0 <= c → c + Z.of_nat m <= INT_MAX →
    stop <= p + Z.of_nat m →
    (∀ k, 1 <= k < Z.of_nat m → p + k < stop) →
    ∃ sm', do_while (point_body d) (λ a, bool_decide (pos a < stop)) fuel
             {| pos := p; sum := sm; count := c |}
           = Finished {| pos := p + Z.of_nat m; sum := sm';
                         count := c + Z.of_nat m |}.
Proof.
  induction m as [|m IH]; intros fuel p sm c Hm Hp Hlen Hpmax Hc Hcmax Hstop Hlt;
    [lia|].
  destruct fuel as [|fuel]; [lia|].
  destruct (lookup_lt_is_Some_2 d (Z.to_nat p)) as [v Hv]; [lia|].
  cbn [do_while].
  rewrite (point_body_Some d p sm c v) by
    (try done; unfold is_int, INT_MIN, INT_MAX in *; lia).
  cbn [pos]. destruct m as [|m'].
  - rewrite bool_decide_false by lia. eauto.
  - rewrite bool_decide_true by (apply (Hlt 1); lia).
    destruct (IH fuel (p + 1) (F32.add sm v) (c + 1)) as [sm' Hrun];
      try lia.
    { intros k Hk. replace (p + 1 + k) with (p + (k + 1)) by lia.
      apply Hlt. lia. }
    exists sm'. rewrite Hrun. f_equal. f_equal; lia.
Qed.

Lemma float_to_int_range (x : float) (z : Z) :
  float_to_int x = Some z → is_int z.
Proof.
  unfold float_to_int. destruct (SFtrunc x); simpl; [|done].
  intros Hz. by apply int_result_inv in Hz as [-> ?].
Qed.

Lemma bar_point_counts (fuel : nat) (d indices : list float) (i : Z) :
  match bar_point fuel d indices i with
  | Finished a => 1 <= count a
  | Running a => count a = Z.of_nat fuel
  | Undefined => True
  end.
Proof.
  unfold bar_point. destruct (_ ≫= _) as [[p stop]|]; [|done].
  pose proof (do_while_counts (point_body d)
                (λ a, bool_decide (pos a < stop)) count
                (point_body_count d) fuel
                {| pos := p; sum := F32.zero; count := 0 |}) as Hcnt.
  destruct (do_while _ _ _ _); cbn [count] in Hcnt; [lia|done|lia].
Qed.

Lemma bar_lanczos_counts (fuel : nat) (fft_size : Z) (d indices : list float)
    (i : Z) :
  match bar_lanczos fuel fft_size d indices i with
  | Finished a => 1 <= count a
  | Running a => count a = Z.of_nat fuel
  | Undefined => True
  end.
Proof.
  unfold bar_lanczos. destruct (_ ≫= _) as [[x y]|]; [|done].
  pose proof (do_while_counts (lanczos_body fft_size d)
                (λ a, F32.ltb (pos a) y) count
                (lanczos_body_count fft_size d) fuel
                {| pos := x; sum := F32.zero; count := 0 |}) as Hcnt.
  destruct (do_while _ _ _ _); cbn [count] in Hcnt; [lia|done|lia].
Qed.

(** Every value that the loop over the bars stores is the average of a
    loop that has counted at least one sample. *)
Lemma bars_loop_values {P : Type} (bar : Z → outcome (bar_acc P)) (n : nat) :
  (∀ i a, bar i = Finished a → 1 <= count a) →
  ∀ (i : Z) (done vs : list float),
    bars_loop bar n i done = Finished vs →
    ∃ accs : list (bar_acc P),
      length accs = n ∧ vs = done ++ (average <$> accs) ∧
      Forall (λ a, 1 <= count a) accs.
Proof.
  intros Hbar. induction n as [|n IH]; intros i done vs Hrun; simpl in Hrun.
  - injection Hrun as <-. exists []. by rewrite app_nil_r.
  - destruct (bar i) as [a| |a] eqn:Ha; [|done|done].
    destruct (IH _ _ _ Hrun) as (accs & Hlen & -> & Hall).
    exists (a :: accs). split; [by rewrite <- Hlen|]. split.
    + by rewrite <- app_assoc.
    + constructor; eauto.
Qed.

(** C7. In both bar modes the averaging loop of a bar runs its body
    before it tests its condition: whenever it ends its sample count is
    at least 1, and while it runs the count is the number of iterations
    made. In point mode, with reads inside the spectrum, it ends with the
    count [max 1 (stop - p)], which is 1 when the two truncated indices
    are equal; in Lanczos mode it ends after one iteration when the
    position passed the stop at once. Every average that
    [render_bars_channel] stores is a sum divided by a count of at least
    1. *)
Theorem bar_average_has_a_sample (fft_size : Z) (d indices : list float)
    (i : Z) :
  (∀ fuel : nat,
     match bar_point fuel d indices i with
     | Finished a => 1 <= count a
     | Running a => count a = Z.of_nat fuel
     | Undefined => True
     end) ∧
  (∀ fuel : nat,
     match bar_lanczos fuel fft_size d indices i with
     | Finished a => 1 <= count a
     | Running a => count a = Z.of_nat fuel
     | Undefined => True
     end) ∧
  (∀ p stop : Z,
     index_at indices i ≫= float_to_int = Some p →
     is_int (i + 1) →
     index_at indices (i + 1) ≫= float_to_int = Some stop →
     0 <= p < INT_MAX →
     Z.max (p + 1) stop <= Z.of_nat (length d) →
     ∀ fuel : nat,
       (Z.to_nat (Z.max 1 (stop - p)) <= fuel)%nat →
       ∃ a, bar_point fuel d indices i = Finished a ∧
            count a = Z.max 1 (stop - p)) ∧
  (∀ x y : float,
     index_at indices i = Some x →
     is_int (i + 1) →
     index_at indices (i + 1) = Some y →
     F32.ltb (F32.add x F32.one) y = false →
     ∀ fuel : nat,
       ∃ a, bar_lanczos (S fuel) fft_size d indices i = Finished a ∧
            count a = 1) ∧
  (∀ (fuel : nat) (s : WAVSource) (channel : nat) (vs : list float),
     render_bars_channel fuel s channel = Finished vs →
     ∃ bars : list (float * Z),
       length bars = Z.to_nat (m_num_bars s) ∧
       vs = (λ b, F32.div b.1 (F32.of_Z b.2)) <$> bars ∧
       Forall (λ b, 1 <= b.2) bars).
Proof.
  split; [intros fuel; apply bar_point_counts|].
  split; [intros fuel; apply bar_lanczos_counts|].
  split; [|split].
  - intros p stop Hp Hi Hstop Hpr Hlen fuel Hfuel.
    assert (is_int stop) as Hsi.
    { destruct (index_at indices (i + 1)) as [y|]; simpl in Hstop; [|done].
      by eapply float_to_int_range. }
    unfold is_int, INT_MIN, INT_MAX in Hsi.
    unfold bar_point. rewrite Hp. cbn [mbind option_bind].
    unfold int_add. rewrite (int_result_Some _ Hi). cbn [mbind option_bind].
    rewrite Hstop. cbn [mbind option_bind].
    destruct (point_loop_finishes d stop (Z.to_nat (Z.max 1 (stop - p)))
                fuel p F32.zero 0) as [sm' Hrun];
      unfold INT_MAX in *; try lia.
    rewrite Hrun. eexists. split; [done|]. cbn [count]. lia.
  - intros x y Hx Hi Hy Hexit fuel.
    unfold bar_lanczos. rewrite Hx. cbn [mbind option_bind].
    unfold int_add. rewrite (int_result_Some _ Hi). cbn [mbind option_bind].
    rewrite Hy. cbn [mbind option_bind do_while].
    unfold lanczos_body, int_add. cbn [count pos sum].
    rewrite int_result_Some by (unfold is_int, INT_MIN, INT_MAX; lia).
    cbn [mbind option_bind pos]. rewrite Hexit. eauto.
  - intros fuel s channel vs. unfold render_bars_channel.
    destruct (get2 (m_decibels s) channel) as [[dc|]|]; [|done|done].
    destruct (m_interp_mode s); intros Hrun;
      apply bars_loop_values in Hrun as (accs & Hlen & -> & Hall).
    + exists ((λ a, (sum a, count a)) <$> accs). rewrite length_fmap.
      split; [done|]. split; [by rewrite <- list_fmap_compose|].
      by apply Forall_fmap.
    + intros j a Ha. pose proof (bar_point_counts fuel dc (m_interp_indices s) j).
      by rewrite Ha in H0.
    + exists ((λ a, (sum a, count a)) <$> accs). rewrite length_fmap.
      split; [done|]. split; [by rewrite <- list_fmap_compose|].
      by apply Forall_fmap.
    + intros j a Ha.
      pose proof (bar_lanczos_counts fuel (m_fft_size s) dc
                    (m_interp_indices s) j).
      by rewrite Ha in H0.
Qed.

End Pipeline.

Section UpdateExact.
Context `{Externals}.

Lemma alloc_loop_inv (ts : TSmoothingMode) (count : Z) (k : nat)
    (bufs bufs' : array2 (option (list float)) * array2 (option (list float))) :
  (1 <= k)%nat →
  index_loop (alloc_channel ts count) k 0 bufs = Some bufs' →
  count < UINT_MOD.
Proof.
  intros Hk Hloop. destruct k as [|k]; [lia|]. simpl in Hloop.
  destruct (alloc_channel ts count 0 bufs) as [b1|] eqn:H0; [|done].
  unfold alloc_channel in H0.
  destruct (decide (count < UINT_MOD)) as [|Hge]; [done|].
  by rewrite bool_decide_false in H0.
Qed.

(** [update_ok] is exactly the condition under which [update] has a
    defined result. *)
Lemma update_ok_iff (h : host) (settings : obs_data) (s : WAVSource) :
  is_Some (update h settings s) ↔ update_ok h settings.
Proof.
  split; [|apply update_defined].
  intros [[s' logs] Hup].
  destruct (update_inv _ _ _ _ _ Hup)
    as (s0 & log2 & Hget & Hfft & Halloc & _ & Hout & _ & _ & _ & Hdisp & _).
  destruct (get_settings_inv _ _ _ Hget)
    as (Hcut & Hfl & Hn & Hauto & Hw & Hbw & Hbg & Hdm & _).
  apply fix_range_inv in Hcut as [Hcut _].
  apply fix_range_inv in Hfl as [Hfl _].
  split; [done|]. split; [done|]. split.
  - exists (m_fft_size s'). rewrite <- Hauto, <- Hn. split; [done|].
    eapply alloc_loop_inv; [|exact Halloc].
    rewrite Hout. destruct (_ || _); lia.
  - intros Hmode. rewrite Hdm, Hw, Hbw, Hbg in Hdisp.
    exists (m_num_bars s').
    destruct (p_equ (P_DISPLAY_MODE settings) P_BARS);
      [|destruct (p_equ (P_DISPLAY_MODE settings) P_STEP_BARS); [|done]];
      destruct Hdisp as (? & ? & ? & _); done.
Qed.

End UpdateExact.

(** ** The statements at concrete inputs *)

Lemma demo_update_ok (src : string) :
  @update_ok demo_externals demo_host (demo_settings src).
Proof.
  split; [vm_compute; split; discriminate|].
  split; [vm_compute; split; discriminate|].
  split.
  - exists 128. split; [reflexivity | vm_compute; reflexivity].
  - intros _. exists 2. split; [reflexivity|].
    split; [vm_compute; split; discriminate | lia].
Defined.




Lemma capture_audio_appends_then_trims_witness :
  is_uint (frames demo_audio) ∧
  is_size_t (m_fft_size demo_instance) ∧
  is_Some (m_audio_source demo_instance) ∧
  ∃ s' cb',
    capture_audio true demo_audio false demo_instance = Some s' ∧
    get2 (m_capturebufs s') 1 = Some cb' ∧
    circlebuf_size cb' = 1024 ∧
    drop 224 cb' = replicate 800 x02.
Proof.
  assert (is_uint (frames demo_audio)) as H1
    by (vm_compute; split; [discriminate | reflexivity]).
  assert (is_size_t (m_fft_size demo_instance)) as H2
    by (vm_compute; split; [discriminate | reflexivity]).
  assert (is_Some (m_audio_source demo_instance)) as H3
    by (vm_compute; eauto).
  split; [exact H1|]. split; [exact H2|]. split; [exact H3|].
  destruct (capture_audio_appends_then_trims demo_audio false demo_instance
              H1 H2 H3) as [Hdef Hspec].
  destruct Hdef as [s' Hs'].
  { vm_compute. lia. }
  { intros _ i Hi.
    assert (i = 0 ∨ i = 1)%nat as [-> | ->] by (vm_compute in Hi; lia);
      eexists; (split; [reflexivity | vm_compute; lia]). }
  destruct (Hspec s' Hs' 1%nat) as (cb & pushed & cb' & Hcb & Hcb' & Hlen & Hp
                                    & Hdrop & _ & Hsize & _).
  { vm_compute. lia. }
  exists s', cb'. split; [exact Hs'|]. split; [exact Hcb'|].
  destruct Hp as (plane & Hplane & ->).
  injection Hplane as <-. injection Hcb as <-.
  assert (circlebuf_size cb' = 1024) as Hsz by (rewrite Hsize; reflexivity).
  split; [exact Hsz|].
  rewrite Hdrop. unfold circlebuf_size in Hsz.
  replace (length cb') with 1024%nat by lia.
  vm_compute. reflexivity.
Defined.

Lemma capture_audio_without_source_witness :
  m_audio_source new_instance = None ∧
  capture_audio true demo_audio false new_instance = Some new_instance.
Proof.
  split; [reflexivity|].
  apply (capture_audio_without_source true demo_audio false new_instance).
  reflexivity.
Defined.



Lemma cutoff_range_defaults_witness :
  is_int (to_int (P_CUTOFF_HIGH degenerate_settings)
          - to_int (P_CUTOFF_LOW degenerate_settings)) ∧
  is_int (to_int (P_CEILING degenerate_settings)
          - to_int (P_FLOOR degenerate_settings)) ∧
  ∃ s', @get_settings demo_externals degenerate_settings new_instance = Some s' ∧
        m_cutoff_low s' = 120 ∧ m_cutoff_high s' = 17500.
Proof.
  assert (is_int (to_int (P_CUTOFF_HIGH degenerate_settings)
                  - to_int (P_CUTOFF_LOW degenerate_settings))) as H1
    by (vm_compute; split; discriminate).
  assert (is_int (to_int (P_CEILING degenerate_settings)
                  - to_int (P_FLOOR degenerate_settings))) as H2
    by (vm_compute; split; discriminate).
  split; [exact H1|]. split; [exact H2|].
  destruct (@cutoff_range_defaults demo_externals degenerate_settings
              new_instance H1 H2) as (s' & Hget & Hdeg & _).
  exists s'. split; [exact Hget|]. apply Hdeg. vm_compute. reflexivity.
Defined.

Lemma decibel_range_defaults_witness :
  is_int (to_int (P_CEILING degenerate_settings)
          - to_int (P_FLOOR degenerate_settings)) ∧
  is_int (to_int (P_CUTOFF_HIGH degenerate_settings)
          - to_int (P_CUTOFF_LOW degenerate_settings)) ∧
  ∃ s', @get_settings demo_externals degenerate_settings new_instance = Some s' ∧
        m_ceiling s' = 0 ∧ m_floor s' = -120.
Proof.
  assert (is_int (to_int (P_CEILING degenerate_settings)
                  - to_int (P_FLOOR degenerate_settings))) as H1
    by (vm_compute; split; discriminate).
  assert (is_int (to_int (P_CUTOFF_HIGH degenerate_settings)
                  - to_int (P_CUTOFF_LOW degenerate_settings))) as H2
    by (vm_compute; split; discriminate).
  split; [exact H1|]. split; [exact H2|].
  destruct (@decibel_range_defaults demo_externals degenerate_settings
              new_instance H1 H2) as (s' & Hget & Hdeg & _).
  exists s'. split; [exact Hget|]. apply Hdeg. vm_compute. reflexivity.
Defined.

Lemma demo_log10f_accurate : @log10f_accurate demo_externals.
Proof.
  exists 9943064%positive. split; [reflexivity|]. split; vm_compute; discriminate.
Defined.

Lemma decibels_start_at_DB_MIN_witness :
  @log10f_accurate demo_externals ∧
  @update_ok demo_externals demo_host (demo_settings "mic") ∧
  ∃ s' logs d,
    @update demo_externals demo_host (demo_settings "mic") new_instance
      = Some (s', logs) ∧
    get2 (m_decibels s') 1 = Some (Some d) ∧
    d !! 63%nat = Some (S754_finite true 12428830 (-14)).
Proof.
  split; [exact demo_log10f_accurate|].
  split; [exact (demo_update_ok "mic")|].
  destruct (@decibels_start_at_DB_MIN demo_externals demo_host
              (demo_settings "mic") new_instance demo_log10f_accurate
              (demo_update_ok "mic"))
    as (s' & logs & Hup & Hbins & _).
  assert (m_output_channels s' = 2 ∧ m_fft_size s' = 128) as [Hch Hn].
  { assert (@update demo_externals demo_host (demo_settings "mic") new_instance
            = Some (s', logs)) as Hup' by exact Hup.
    vm_compute in Hup'. injection Hup' as <- _. split; reflexivity. }
  destruct (Hbins 1%nat) as (d & Hd & _ & Hall); [rewrite Hch; lia|].
  exists s', logs, d. split; [exact Hup|]. split; [exact Hd|].
  rewrite Hall; [reflexivity | rewrite Hn; vm_compute; lia].
Defined.

Lemma bar_count_and_index_table_witness :
  @update_ok demo_externals demo_host (demo_settings "mic") ∧
  1 <= to_int (P_BAR_WIDTH (demo_settings "mic")) ∧
  0 <= to_int (P_BAR_GAP (demo_settings "mic")) ∧
  ∃ s' logs,
    @update demo_externals demo_host (demo_settings "mic") new_instance
      = Some (s', logs) ∧
    m_num_bars s' = 2 ∧ length (m_interp_indices s') = 3%nat.
Proof.
  split; [exact (demo_update_ok "mic")|].
  split; [vm_compute; discriminate|]. split; [vm_compute; discriminate|].
  destruct (@bar_count_and_index_table demo_externals demo_host
              (demo_settings "mic") new_instance (demo_update_ok "mic"))
    as (s' & logs & Hup & Hbars & Hlen);
    [reflexivity | vm_compute; discriminate | vm_compute; discriminate |].
  exists s', logs. split; [exact Hup|].
  assert (m_num_bars s' = 2) as Hnb by (rewrite Hbars; reflexivity).
  split; [exact Hnb|]. rewrite Hlen, Hnb. reflexivity.
Defined.

Lemma missing_source_warned_once_witness :
  1 < @RETRIES_MOD demo_externals ∧
  @update_ok demo_externals demo_host (demo_settings "gone") ∧
  obs_get_source_by_name demo_host "gone" = None ∧
  ∃ s' logs,
    @update demo_externals demo_host (demo_settings "gone") new_instance
      = Some (s', logs) ∧
    logs = [WarnSourceNotFound "gone"] ∧
    (@retry_attempts demo_externals (obs_get_source_by_name demo_host) 5 s').2
      = [].
Proof.
  assert (1 < @RETRIES_MOD demo_externals) as HM by reflexivity.
  split; [exact HM|]. split; [exact (demo_update_ok "gone")|].
  split; [reflexivity|].
  destruct (@missing_source_warned_once demo_externals demo_host
              (demo_settings "gone") new_instance 5 HM (demo_update_ok "gone")
              eq_refl)
    as (_ & s' & logs & Hup & _ & Hstreak).
  exists s', logs. split; [exact Hup|].
  destruct Hstreak as (Hlogs & _ & Hsilent & _);
    [discriminate | vm_compute; reflexivity |].
  split; [|exact Hsilent].
  assert (m_capture_channels s' = 2) as Hch.
  { assert (@update demo_externals demo_host (demo_settings "gone") new_instance
            = Some (s', logs)) as Hup' by exact Hup.
    vm_compute in Hup'. injection Hup' as <- _. reflexivity. }
  rewrite Hlogs, Hch. reflexivity.
Defined.

Lemma bar_average_has_a_sample_witness :
  (∃ a, bar_point 1 demo_spectrum demo_indices 0 = Finished a ∧ count a = 1) ∧
  (∃ a, bar_point 3 demo_spectrum demo_indices 1 = Finished a ∧ count a = 3) ∧
  (∃ a, @bar_lanczos demo_externals 1 16 demo_spectrum demo_indices 0
        = Finished a ∧ count a = 1).
Proof.
  destruct (@bar_average_has_a_sample demo_externals 16 demo_spectrum
              demo_indices 0) as (_ & _ & Hp0 & Hl0 & _).
  destruct (@bar_average_has_a_sample demo_externals 16 demo_spectrum
              demo_indices 1) as (_ & _ & Hp1 & _).
  assert (is_int (0 + 1) ∧ is_int (1 + 1)) as [Hi0 Hi1]
    by (vm_compute; repeat split; discriminate).
  assert (0 <= 2 < INT_MAX) as Hr by (vm_compute; split; [discriminate | reflexivity]).
  split; [|split].
  - destruct (Hp0 2 2 eq_refl Hi0 eq_refl Hr ltac:(vm_compute; discriminate)
                1%nat ltac:(vm_compute; lia)) as (a & Ha & Hc).
    exists a. split; [exact Ha | rewrite Hc; reflexivity].
  - destruct (Hp1 2 5 eq_refl Hi1 eq_refl Hr ltac:(vm_compute; discriminate)
                3%nat ltac:(vm_compute; lia)) as (a & Ha & Hc).
    exists a. split; [exact Ha | rewrite Hc; reflexivity].
  - destruct (Hl0 (F32.of_Z 2) (F32.of_Z 2) eq_refl Hi0 eq_refl eq_refl 0%nat)
      as (a & Ha & Hc).
    exists a. split; [exact Ha | exact Hc].
Defined.

(** A stored FFT size of -1 is read as the [size_t] 2^64 - 1, which is
    not below 128, and is rounded down like every other size. *)
Example fft_size_of_negative_setting :
  align_fft_size (to_size_t (-1)) = 2 ^ 64 - 16.
Proof. reflexivity. Qed.

(** * Further properties of the pipeline *)

(** ** What [update] establishes *)

Section AfterUpdate.
Context `{Externals}.

Lemma get_settings_keeps_interp_bufs (settings : obs_data) (s s0 : WAVSource) :
  get_settings settings s = Some s0 →
  m_interp_bufs s0 = m_interp_bufs s ∧ m_height s0 = to_uint (P_HEIGHT settings) ∧
  m_step_width s0 = to_int (P_STEP_WIDTH settings) ∧
  m_step_gap s0 = to_int (P_STEP_GAP settings) ∧
  m_stereo s0 = p_equ (P_CHANNEL_MODE settings) P_STEREO ∧
  m_tsmoothing s0 =
    (if p_equ (P_TSMOOTHING settings) P_EXPAVG then EXPONENTIAL else TS_NONE).
Proof.
  unfold get_settings. intros Hget.
  destruct (fix_range _ _ 120 _) as [[lo hi]|]; simpl in Hget; [|done].
  destruct (fix_range _ _ (-120) _) as [[fl ce]|]; simpl in Hget; [|done].
  injection Hget as <-. simpl. repeat split; reflexivity.
Qed.

(** The output buffers after [update]: those of the instance before,
    resized to the width in curve mode and to the bar count otherwise. *)
Lemma update_inv_interp_bufs (h : host) (settings : obs_data)
    (s s' : WAVSource) (logs : list log_entry) :
  update h settings s = Some (s', logs) →
  resize_interp_bufs
    (match m_display_mode s' with
     | CURVE => m_width s'
     | BAR | STEPPED_BAR => m_num_bars s'
     end) (m_interp_bufs s) = Some (m_interp_bufs s') ∧
  m_show s' = true ∧ m_last_silent s' = false ∧
  m_height s' = to_uint (P_HEIGHT settings) ∧
  m_step_width s' = to_int (P_STEP_WIDTH settings) ∧
  m_step_gap s' = to_int (P_STEP_GAP settings).
Proof.
  unfold update. intros Hup.
  destruct (get_settings _ _) as [s0|] eqn:Hget; simpl in Hup; [|done].
  destruct (get_settings_keeps_interp_bufs _ _ _ Hget)
    as (Hib & Hh & Hsw & Hsg & _).
  simpl in Hib.
  destruct (if m_auto_fft_size s0 then _ else _) as [n|] eqn:Hfft;
    simpl in Hup; [|done].
  destruct (index_loop _ _ _ _) as [[dec tsb]|] eqn:Halloc;
    simpl in Hup; [|done].
  unfold recapture_audio in Hup. simpl in Hup.
  destruct (obs_get_source_by_name h (m_audio_source_name s0)) as [asrc|];
    [|destruct (p_equ (m_audio_source_name s0) "none")];
    simpl in Hup;
    (destruct (update_display _) as [[[nb idx] ibufs]|] eqn:Hdisp;
     simpl in Hup; [|done]);
    injection Hup as <- <-; simpl; (split; [|done]);
    unfold update_display in Hdisp; simpl in Hdisp; rewrite Hib in Hdisp;
    destruct (m_display_mode s0); simpl in Hdisp |- *;
    repeat match type of Hdisp with
      | context [count_bars ?a ?b ?c] =>
          destruct (count_bars a b c) as [cb|]; simpl in Hdisp; [|done]
      | context [int_add ?a ?b] =>
          destruct (int_add a b) as [sz|]; simpl in Hdisp; [|done]
      end;
    (destruct (resize_interp_bufs _ _) as [b|] eqn:Hr; simpl in Hdisp; [|done]);
    injection Hdisp as <- <- <-; first [exact Hr | done].
Qed.

Lemma float_to_size_t_range (x : spec_float) (t : Z) :
  float_to_size_t x = Some t → is_size_t t.
Proof.
  unfold float_to_size_t. destruct (SFtrunc x); simpl; [|done].
  case_bool_decide; [|done]. by intros [= <-].
Qed.

Lemma auto_fft_size_aligned (sps : Z) (fps : double) (n : Z) :
  auto_fft_size sps fps = Some n → 128 <= n ∧ n mod 16 = 0.
Proof.
  unfold auto_fft_size.
  destruct (float_to_size_t _) as [t|] eqn:Ht; simpl; [|done].
  apply float_to_size_t_range in Ht. rewrite size_and_m16_spec by done.
  intros [= <-]. destruct (decide (16 * (t / 16) < 128)).
  - by rewrite bool_decide_true.
  - rewrite bool_decide_false by done. split; [lia|].
    rewrite Z.mul_comm. apply Z.mod_mul. lia.
Qed.

Lemma align_fft_size_aligned (n : Z) :
  is_size_t n → 128 <= align_fft_size n ∧ align_fft_size n mod 16 = 0.
Proof.
  intros Hn. destruct (align_fft_size_spec n Hn) as [Hlt Hge].
  destruct (decide (n < 128)).
  - by rewrite Hlt.
  - rewrite Hge by lia. split.
    + assert (8 <= n / 16) by (apply Z.div_le_lower_bound; lia). lia.
    + rewrite Z.mul_comm. apply Z.mod_mul. lia.
Qed.

(** The FFT size that [update] leaves is at least 128, and the filling
    loop could traverse its spectrum arrays. *)
Lemma update_fft_size_min (h : host) (settings : obs_data)
    (s s' : WAVSource) (logs : list log_entry) :
  update h settings s = Some (s', logs) →
  128 <= m_fft_size s' ∧ m_fft_size s' / 2 < UINT_MOD.
Proof.
  intros Hup.
  destruct (update_inv _ _ _ _ _ Hup)
    as (s0 & log2 & Hget & Hfft & Halloc & _ & Hout & _).
  destruct (get_settings_inv _ _ _ Hget) as (_ & _ & Hn & _).
  split.
  - destruct (m_auto_fft_size s0).
    + by eapply auto_fft_size_aligned.
    + injection Hfft as <-. rewrite Hn.
      apply align_fft_size_aligned, to_size_t_range.
  - eapply alloc_loop_inv; [|exact Halloc].
    rewrite Hout. destruct (_ || _); lia.
Qed.

(** X1. After [update] the FFT size is at least 128 and a multiple of
    16, with or without auto-sizing, so that half of it, the number of
    bins, is a multiple of 8; the number of bins is below 2^32. *)
Theorem update_fft_size_aligned (h : host) (settings : obs_data)
    (s s' : WAVSource) (logs : list log_entry) :
  update h settings s = Some (s', logs) →
  128 <= m_fft_size s' ∧
  m_fft_size s' mod 16 = 0 ∧
  (m_fft_size s' / 2) mod 8 = 0 ∧
  m_fft_size s' / 2 < UINT_MOD.
Proof.
  intros Hup.
  destruct (update_fft_size_min _ _ _ _ _ Hup) as [Hmin Hhalf].
  destruct (update_inv _ _ _ _ _ Hup) as (s0 & log2 & Hget & Hfft & _).
  destruct (get_settings_inv _ _ _ Hget) as (_ & _ & Hn & _).
  assert (m_fft_size s' mod 16 = 0) as Hmod.
  { destruct (m_auto_fft_size s0).
    - by eapply auto_fft_size_aligned.
    - injection Hfft as <-. rewrite Hn.
      apply align_fft_size_aligned, to_size_t_range. }
  split; [done|]. split; [done|]. split; [|done].
  apply Z.mod_divide in Hmod as [k Hk]; [|lia]. rewrite Hk.
  replace (k * 16) with (k * 8 * 2) by lia.
  rewrite Z.div_mul by lia. apply Z.mod_mul. lia.
Qed.

(** X2. After [update] the cutoff range and the decibel range are never
    empty: [m_cutoff_high - m_cutoff_low] and [m_ceiling - m_floor], the
    divisor of the renderers, are at least 1 and fit [int]. *)
Theorem update_ranges_not_empty (h : host) (settings : obs_data)
    (s s' : WAVSource) (logs : list log_entry) :
  update h settings s = Some (s', logs) →
  1 <= m_cutoff_high s' - m_cutoff_low s' ∧
  1 <= m_ceiling s' - m_floor s' ∧
  is_int (m_cutoff_high s' - m_cutoff_low s') ∧
  is_int (m_ceiling s' - m_floor s').
Proof.
  intros Hup.
  destruct (update_inv _ _ _ _ _ Hup)
    as (s0 & log2 & Hget & _ & _ & _ & _ & _ & _ & _ & _ & Hsame & _).
  destruct Hsame as (_ & _ & _ & _ & -> & -> & -> & -> & _).
  destruct (get_settings_inv _ _ _ Hget) as (Hcut & Hfl & _).
  apply fix_range_inv in Hcut as [Hci Hcut].
  apply fix_range_inv in Hfl as [Hfi Hfl].
  unfold is_int, INT_MIN, INT_MAX in *.
  repeat case_bool_decide; injection Hcut as -> ->; injection Hfl as -> ->;
    lia.
Qed.

Lemma pad_capturebuf_empty (n : Z) :
  0 <= n → n * 4 < SIZE_MOD →
  pad_capturebuf n [] = replicate (Z.to_nat (n * 4)) x00.
Proof.
  intros Hn Hlt. unfold pad_capturebuf, to_size_t, circlebuf_size.
  rewrite Z.mod_small by lia. simpl.
  destruct (decide (0 < n * 4)).
  - rewrite bool_decide_true by done. unfold circlebuf_push_back_zero.
    simpl. f_equal. lia.
  - rewrite bool_decide_false by done.
    by replace (n * 4) with 0 by lia.
Qed.

(** X3. After [update] each of the two capture buffers holds exactly one
    analysis window of silence: [m_fft_size * 4] zero bytes, whatever
    they held before. *)
Theorem update_primes_capture_buffers (h : host) (settings : obs_data)
    (s s' : WAVSource) (logs : list log_entry) :
  update h settings s = Some (s', logs) →
  let window := replicate (Z.to_nat (m_fft_size s' * 4)) x00 in
  m_capturebufs s' = Array2 window window ∧
  circlebuf_size window = m_fft_size s' * 4.
Proof.
  intros Hup window.
  destruct (update_fft_size_min _ _ _ _ _ Hup) as [Hmin Hhalf].
  destruct (update_inv _ _ _ _ _ Hup)
    as (s0 & log2 & _ & _ & _ & _ & _ & _ & _ & Hbufs & _).
  assert (m_fft_size s' * 4 < SIZE_MOD) as Hlt.
  { unfold UINT_MOD, SIZE_MOD in *.
    pose proof (Z.div_mod (m_fft_size s') 2).
    pose proof (Z.mod_pos_bound (m_fft_size s') 2). lia. }
  rewrite Hbufs, pad_capturebuf_empty by lia. split; [done|].
  unfold window, circlebuf_size. rewrite length_replicate. lia.
Qed.

(** What the allocation loop leaves in the two pairs of arrays that
    [free_fft] has emptied. *)
Lemma alloc_loop_fresh (ts : TSmoothingMode) (count : Z) (k : nat)
    (dec tsb : array2 (option (list float))) :
  index_loop (alloc_channel ts count) k 0 (Array2 None None, Array2 None None)
    = Some (dec, tsb) →
  (k <= 2)%nat ∧
  dec = Array2 (if bool_decide (1 <= k)%nat
                then Some (replicate (Z.to_nat count) DB_MIN) else None)
               (if bool_decide (2 <= k)%nat
                then Some (replicate (Z.to_nat count) DB_MIN) else None) ∧
  tsb = match ts with
        | TS_NONE => Array2 None None
        | EXPONENTIAL =>
            Array2 (if bool_decide (1 <= k)%nat
                    then Some (replicate (Z.to_nat count) F32.zero) else None)
                   (if bool_decide (2 <= k)%nat
                    then Some (replicate (Z.to_nat count) F32.zero) else None)
        end.
Proof.
  destruct k as [|[|[|k]]]; simpl; unfold alloc_channel;
    destruct (bool_decide (count < UINT_MOD)); simpl; try done;
    destruct ts; simpl; intros [= <- <-]; (split; [lia|done]).
Qed.

(** X4. After [update] at most two channels are captured and one or
    two are analysed, never fewer than are captured; the spectrum of every
    channel that the renderers visit, two for a stereo display and one
    otherwise, is allocated with [m_fft_size / 2] bins, and that of an
    unused second channel is null. *)
Theorem update_channel_counts (h : host) (settings : obs_data)
    (s s' : WAVSource) (logs : list log_entry) :
  update h settings s = Some (s', logs) →
  0 <= m_capture_channels s' <= 2 ∧
  (m_output_channels s' = 1 ∨ m_output_channels s' = 2) ∧
  m_capture_channels s' <= m_output_channels s' ∧
  (∀ channel : nat,
     (channel < (if m_stereo s' then 2 else 1))%nat →
     ∃ d, get2 (m_decibels s') channel = Some (Some d) ∧
          Z.of_nat (length d) = m_fft_size s' / 2) ∧
  (m_output_channels s' = 1 → get2 (m_decibels s') 1 = Some None).
Proof.
  intros Hup.
  destruct (update_fft_size_min _ _ _ _ _ Hup) as [Hmin _].
  destruct (update_inv _ _ _ _ _ Hup)
    as (s0 & log2 & _ & _ & Halloc & Hcap & Hout & _ & _ & _ & _ & Hsame & _).
  destruct Hsame as (_ & _ & _ & _ & _ & _ & _ & _ & _ & _ & Hst & _).
  apply alloc_loop_fresh in Halloc as (_ & Hdec & _).
  assert (0 <= m_capture_channels s' <= 2) as Hc.
  { rewrite Hcap. destruct (speakers (update_audio_info h)); simpl; lia. }
  assert (0 <= m_fft_size s' / 2) as Hhalf by (apply Z.div_pos; lia).
  split; [done|]. rewrite <- Hst in Hout.
  destruct (m_stereo s') eqn:Hstereo.
  - rewrite orb_true_r in Hout. rewrite Hout in *.
    split; [by right|]. split; [lia|]. split; [|done].
    intros channel Hch. rewrite Hdec.
    destruct channel as [|[|?]]; [| |lia]; simpl; eexists;
      (split; [reflexivity|]); rewrite length_replicate; lia.
  - rewrite orb_false_r in Hout.
    destruct (decide (m_capture_channels s' > 1)) as [Hgt|Hle].
    + rewrite bool_decide_true in Hout by done. rewrite Hout in *.
      split; [by right|]. split; [lia|]. split; [|done].
      intros channel Hch. rewrite Hdec.
      destruct channel as [|?]; [|lia]; simpl; eexists;
        (split; [reflexivity|]); rewrite length_replicate; lia.
    + rewrite bool_decide_false in Hout by done. rewrite Hout in *.
      split; [by left|]. split; [lia|]. split.
      * intros channel Hch. rewrite Hdec.
        destruct channel as [|?]; [|lia]; simpl; eexists;
          (split; [reflexivity|]); rewrite length_replicate; lia.
      * intros _. by rewrite Hdec.
Qed.

(** X5. After [update] the smoothing state exists exactly when temporal
    smoothing is enabled: with smoothing off both arrays are null, with
    exponential smoothing every analysed channel has [m_fft_size / 2]
    zeros. *)
Theorem update_smoothing_state (h : host) (settings : obs_data)
    (s s' : WAVSource) (logs : list log_entry) :
  update h settings s = Some (s', logs) →
  match m_tsmoothing s' with
  | TS_NONE => m_tsmooth_buf s' = Array2 None None
  | EXPONENTIAL =>
      ∀ channel : nat,
        get2 (m_tsmooth_buf s') channel =
          if bool_decide (Z.of_nat channel < m_output_channels s')
          then Some (Some (replicate (Z.to_nat (m_fft_size s' / 2)) F32.zero))
          else if bool_decide (channel < 2)%nat then Some None else None
  end.
Proof.
  intros Hup.
  destruct (update_inv _ _ _ _ _ Hup)
    as (s0 & log2 & _ & _ & Halloc & _ & Hout & _ & _ & _ & _ & Hsame & _).
  destruct Hsame as (_ & _ & _ & _ & _ & _ & _ & _ & _ & Hts & _).
  apply alloc_loop_fresh in Halloc as (_ & _ & Htsb).
  rewrite Hts. destruct (m_tsmoothing s0); [done|].
  intros channel. rewrite Htsb.
  assert (m_output_channels s' = 1 ∨ m_output_channels s' = 2) as [Ho|Ho]
    by (rewrite Hout; destruct (_ || _); auto).
  - rewrite Ho. destruct channel as [|[|?]]; simpl;
      repeat case_bool_decide; (done || lia).
  - rewrite Ho. destruct channel as [|[|?]]; simpl;
      repeat case_bool_decide; (done || lia).
Qed.

Lemma vector_resize_length (n : Z) (v r : list float) :
  vector_resize n v = Some r → length r = Z.to_nat (to_size_t n).
Proof.
  unfold vector_resize. case_bool_decide; [|done]. intros [= <-].
  rewrite length_app, length_take, length_replicate. lia.
Qed.

Lemma resize_interp_bufs_length (n : Z) (bufs r : array2 (list float)) :
  resize_interp_bufs n bufs = Some r →
  length (elem0 r) = Z.to_nat (to_size_t n) ∧
  length (elem1 r) = Z.to_nat (to_size_t n).
Proof.
  unfold resize_interp_bufs.
  destruct (vector_resize n (elem0 bufs)) as [b0|] eqn:H0; simpl; [|done].
  destruct (vector_resize n (elem1 bufs)) as [b1|] eqn:H1; simpl; [|done].
  intros [= <-]. simpl.
  by rewrite (vector_resize_length _ _ _ H0), (vector_resize_length _ _ _ H1).
Qed.

(** X6. After [update] the index table and the two output buffers have
    the sizes the renderers rely on: in curve mode all three hold
    [m_width] entries; in the bar modes the buffers hold [m_num_bars]
    entries, which is not negative, and the table one more. *)
Theorem update_sizes_render_buffers (h : host) (settings : obs_data)
    (s s' : WAVSource) (logs : list log_entry) :
  update h settings s = Some (s', logs) →
  let columns := match m_display_mode s' with
                 | CURVE => m_width s'
                 | BAR | STEPPED_BAR => m_num_bars s'
                 end in
  0 <= columns ∧
  Z.of_nat (length (elem0 (m_interp_bufs s'))) = columns ∧
  Z.of_nat (length (elem1 (m_interp_bufs s'))) = columns ∧
  Z.of_nat (length (m_interp_indices s')) =
    match m_display_mode s' with
    | CURVE => columns
    | BAR | STEPPED_BAR => columns + 1
    end.
Proof.
  intros Hup columns.
  destruct (update_inv_interp_bufs _ _ _ _ _ Hup) as (Hres & _).
  destruct (update_inv _ _ _ _ _ Hup)
    as (s0 & log2 & Hget & _ & _ & _ & _ & _ & _ & _ & Hdisp & Hsame & _).
  destruct Hsame as (Hw & _ & _ & Hdm & _).
  destruct (get_settings_inv _ _ _ Hget) as (_ & _ & _ & _ & Hw0 & _).
  apply resize_interp_bufs_length in Hres as [H0 H1].
  fold columns in H0, H1. rewrite <- Hdm in Hdisp.
  assert (is_uint (m_width s')) as Huw
    by (rewrite Hw, Hw0; apply to_uint_range).
  assert (0 <= columns < UINT_MOD ∧
          Z.of_nat (length (m_interp_indices s')) =
            match m_display_mode s' with
            | CURVE => columns
            | BAR | STEPPED_BAR => columns + 1
            end) as [Hcol Hidx].
  { subst columns. unfold is_uint in Huw.
    destruct (m_display_mode s').
    - destruct Hdisp as [_ ->]. rewrite init_interp_length, <- Hw. lia.
    - destruct Hdisp as (_ & Hi & Hpos & ->).
      unfold is_int, INT_MIN, INT_MAX, UINT_MOD in *.
      rewrite init_interp_length. unfold to_uint, UINT_MOD.
      rewrite Z.mod_small by lia. lia.
    - destruct Hdisp as (_ & Hi & Hpos & ->).
      unfold is_int, INT_MIN, INT_MAX, UINT_MOD in *.
      rewrite init_interp_length. unfold to_uint, UINT_MOD.
      rewrite Z.mod_small by lia. lia. }
  assert (to_size_t columns = columns) as Hsz.
  { unfold to_size_t, SIZE_MOD, UINT_MOD in *. apply Z.mod_small. lia. }
  rewrite Hsz in H0, H1. split; [lia|]. split; [lia|]. split; [lia|done].
Qed.

End AfterUpdate.

(** ** Capturing *)

Section Capturing.
Context `{Externals}.

Lemma drop_drop_app {A : Type} (j k : nat) (l p : list A) :
  (j <= length l)%nat →
  drop k (drop j l ++ p) = drop (j + k) (l ++ p).
Proof. intros Hj. by rewrite <- drop_app_le, drop_drop by done. Qed.

(** Trimming a window of the [m] latest bytes after an append gives the
    [m] latest bytes of the longer stream. *)
Lemma latest_bytes_app {A : Type} (m : nat) (stream pushed : list A) :
  let cb := drop (length stream - m) stream in
  drop (length (cb ++ pushed) - m) (cb ++ pushed) =
  drop (length (stream ++ pushed) - m) (stream ++ pushed).
Proof.
  intros cb. subst cb. rewrite drop_drop_app by lia. f_equal.
  rewrite !length_app, length_drop. lia.
Qed.

(** The loop over the capture channels leaves the buffers of the other
    channels alone. *)
Lemma capture_loop_frame (n : Z) (audio : audio_data) (muted : bool) (sz : Z)
    (k j : nat) (bufs bufs' : array2 circlebuf) :
  0 <= sz →
  index_loop (capture_channel n audio muted sz) k 0 bufs = Some bufs' →
  (k <= j)%nat →
  get2 bufs' j = get2 bufs j.
Proof.
  intros Hsz Hloop Hj.
  destruct k as [|[|[|k]]]; simpl in Hloop.
  - by injection Hloop as <-.
  - destruct (capture_channel _ _ _ _ 0 bufs) as [b1|] eqn:H0; [|done].
    simpl in Hloop. injection Hloop as <-.
    destruct (capture_channel_spec _ _ _ _ _ _ _ Hsz H0)
      as (_ & _ & _ & _ & _ & _ & Hf). apply Hf. lia.
  - destruct (capture_channel _ _ _ _ 0 bufs) as [b1|] eqn:H0; [|done].
    simpl in Hloop.
    destruct (capture_channel _ _ _ _ 1 b1) as [b2|] eqn:H1; [|done].
    simpl in Hloop. injection Hloop as <-.
    destruct (capture_channel_spec _ _ _ _ _ _ _ Hsz H0)
      as (_ & _ & _ & _ & _ & _ & Hf0).
    destruct (capture_channel_spec _ _ _ _ _ _ _ Hsz H1)
      as (_ & _ & _ & _ & _ & _ & Hf1).
    rewrite Hf1, Hf0 by lia. done.
  - destruct (capture_channel _ _ _ _ 0 bufs) as [b1|]; [|done].
    simpl in Hloop.
    destruct (capture_channel _ _ _ _ 1 b1) as [b2|]; [|done].
    simpl in Hloop. done.
Qed.

Lemma set_capturebufs_same (s : WAVSource) :
  set_capturebufs (m_capturebufs s) s = s.
Proof. by destruct s. Qed.

(** X7. Each capture buffer is a sliding window over the bytes its
    channel has received: if, before a call of [capture_audio] with a
    source bound, the buffer holds the latest [capture_max] bytes of a
    stream, then after the call it holds the latest [capture_max] bytes of
    that stream followed by the frame's bytes (zeros when muted), however
    the stream was cut into frames. *)
Theorem capture_audio_keeps_latest_bytes (audio : audio_data) (muted : bool)
    (s s' : WAVSource) (i : nat) (stream : list byte) :
  let max := Z.to_nat (capture_max (m_fft_size s)) in
  let nbytes := Z.to_nat (to_size_t (frames audio * 4)) in
  is_Some (m_audio_source s) →
  (i < Z.to_nat (m_capture_channels s))%nat →
  get2 (m_capturebufs s) i = Some (drop (length stream - max) stream) →
  capture_audio true audio muted s = Some s' →
  ∃ pushed : list byte,
    (if muted then pushed = replicate nbytes x00
     else ∃ plane, data audio !! i = Some plane ∧ pushed = take nbytes plane) ∧
    length pushed = nbytes ∧
    get2 (m_capturebufs s') i =
      Some (drop (length (stream ++ pushed) - max) (stream ++ pushed)).
Proof.
  intros max nbytes [src Hsrc] Hi Hcb. unfold capture_audio. simpl.
  rewrite Hsrc.
  destruct (index_loop _ _ 0%nat (m_capturebufs s)) as [b|] eqn:Hb; [|done].
  simpl. intros [= <-]. simpl.
  assert (0 <= to_size_t (frames audio * 4)) as Hsz
    by apply to_size_t_range.
  destruct (capture_loop_spec _ _ _ _ _ i _ _ Hsz Hb Hi)
    as (cb & pushed & Hg & Hp & Hlen & Hr).
  rewrite Hcb in Hg. injection Hg as <-.
  exists pushed. split; [|split; [done|]].
  - destruct muted; [done|]. destruct Hp as (plane & ? & _ & ?). eauto.
  - rewrite Hr. f_equal. rewrite <- latest_bytes_app. f_equal.
    unfold circlebuf_size. fold max.
    pose proof (to_size_t_range (to_size_t (m_fft_size s * 4) * 2)) as Hm.
    unfold is_size_t in Hm. unfold max, capture_max. lia.
Qed.

(** X8. [capture_audio] changes nothing but the capture buffers of the
    channels below [m_capture_channels]: every other field and the buffer
    of any other channel are as before, and a call that cannot take the
    lock within its 10 ms changes nothing at all. *)
Theorem capture_audio_changes_captured_buffers_only (lock_acquired : bool)
    (audio : audio_data) (muted : bool) (s s' : WAVSource) :
  capture_audio lock_acquired audio muted s = Some s' →
  s' = set_capturebufs (m_capturebufs s') s ∧
  (∀ j : nat, (Z.to_nat (m_capture_channels s) <= j)%nat →
     get2 (m_capturebufs s') j = get2 (m_capturebufs s) j) ∧
  (lock_acquired = false → s' = s).
Proof.
  unfold capture_audio. destruct lock_acquired; simpl.
  - destruct (m_audio_source s) as [src|] eqn:Hsrc.
    + destruct (index_loop _ _ 0%nat (m_capturebufs s)) as [b|] eqn:Hb;
        [|done].
      simpl. intros [= <-]. simpl. split; [done|]. split; [|done].
      intros j Hj. eapply capture_loop_frame; [|exact Hb|exact Hj].
      apply to_size_t_range.
    + intros [= <-]. by rewrite set_capturebufs_same.
  - intros [= <-]. by rewrite set_capturebufs_same.
Qed.

(** X9. When the host has no audio information, [update] falls back to
    44100 Hz with an unknown speaker layout: no channel is captured, the
    first thing logged is the warning about the channel count, the display
    still has one or two channels, and from then on [capture_audio]
    leaves the instance as it is, whatever it is called with. *)
Theorem update_without_audio_info (h : host) (settings : obs_data)
    (s s' : WAVSource) (logs : list log_entry) :
  obs_get_audio_info h = None →
  update h settings s = Some (s', logs) →
  samples_per_sec (m_audio_info s') = 44100 ∧
  m_capture_channels s' = 0 ∧
  m_output_channels s' = (if m_stereo s' then 2 else 1) ∧
  head logs = Some WarnNoChannelCount ∧
  ∀ lock_acquired audio muted,
    capture_audio lock_acquired audio muted s' = Some s'.
Proof.
  intros Hinfo Hup.
  destruct (update_inv _ _ _ _ _ Hup)
    as (s0 & log2 & _ & _ & _ & Hcap & Hout & Hai & _ & _ & _ & Hsame
        & Hlogs & _).
  destruct Hsame as (_ & _ & _ & _ & _ & _ & _ & _ & _ & _ & Hst & _).
  unfold update_audio_info in *. rewrite Hinfo in *. simpl in *.
  rewrite Hai. split; [done|]. split; [done|].
  rewrite Hcap in Hout, Hlogs. simpl in Hout.
  split; [by rewrite Hst|]. split; [by rewrite Hlogs|].
  intros l audio muted. unfold capture_audio.
  destruct l; simpl; [|done].
  destruct (m_audio_source s'); [|done].
  rewrite Hcap. simpl. by rewrite set_capturebufs_same.
Qed.

End Capturing.

(** ** Applying settings again *)

Section Reconfiguring.
Context `{Externals}.






Lemma to_int_id (z : Z) : is_int z → to_int z = z.
Proof.
  unfold is_int, INT_MIN, INT_MAX, to_int, UINT_MOD. intros Hz.
  rewrite Z.mod_small by lia. lia.
Qed.

Lemma to_uint_id (z : Z) : is_uint z → to_uint z = z.
Proof. unfold is_uint, to_uint. intros Hz. by apply Z.mod_small. Qed.

(** The bar count when nothing overflows. *)
Lemma count_bars_small (w b g : Z) :
  0 <= w < INT_MAX → 1 <= b → 0 <= g → b + g <= INT_MAX →
  count_bars w b g =
    Some (w / (b + g)
          + (if bool_decide (w - w / (b + g) * (b + g) >= b) then 1 else 0)).
Proof.
  unfold INT_MAX. intros Hw Hb Hg Hbg.
  set (q := w / (b + g)).
  assert (0 <= q <= w) as Hq.
  { subst q. split; [apply Z.div_pos; lia|].
    apply Z.div_le_upper_bound; nia. }
  pose proof (Z.div_mod w (b + g) ltac:(lia)) as Hdm.
  pose proof (Z.mod_pos_bound w (b + g) ltac:(lia)) as Hm.
  fold q in Hdm.
  unfold count_bars, int_add, int_mul, int_sub, uint_div.
  rewrite (int_result_Some (b + g))
    by (unfold is_int, INT_MIN, INT_MAX; lia).
  simpl. rewrite (to_uint_id (b + g)) by (unfold is_uint, UINT_MOD; lia).
  rewrite bool_decide_false by lia. simpl. fold q.
  rewrite (to_int_small q), (to_int_small w) by (unfold INT_MAX; lia).
  rewrite (int_result_Some (q * (b + g)))
    by (unfold is_int, INT_MIN, INT_MAX; nia).
  simpl.
  rewrite (int_result_Some (w - q * (b + g)))
    by (unfold is_int, INT_MIN, INT_MAX; nia).
  simpl. destruct (decide (w - q * (b + g) >= b)) as [Hge|Hlt].
  - rewrite !bool_decide_true by done.
    apply int_result_Some. unfold is_int, INT_MIN, INT_MAX. lia.
  - rewrite !bool_decide_false by done. f_equal. lia.
Qed.

(** X11. In the bar modes, with a bar width of at least 1 and a gap of
    at least 0, the bars that [update] counts fit the width and fill it:
    bar [i] spans the pixels from [i * (B + G)] to [i * (B + G) + B], which
    for every bar lies within [m_width], and one more bar would not
    fit. *)
Theorem update_bars_fit_width (h : host) (settings : obs_data)
    (s s' : WAVSource) (logs : list log_entry) :
  update h settings s = Some (s', logs) →
  m_display_mode s' ≠ CURVE →
  1 <= m_bar_width s' →
  0 <= m_bar_gap s' →
  let bar_stride := m_bar_width s' + m_bar_gap s' in
  (∀ i, 0 <= i < m_num_bars s' →
        i * bar_stride + m_bar_width s' <= m_width s') ∧
  m_width s' < m_num_bars s' * bar_stride + m_bar_width s'.
Proof.
  intros Hup Hdm Hb Hg bar_stride.
  destruct (update_inv _ _ _ _ _ Hup)
    as (s0 & log2 & Hget & _ & _ & _ & _ & _ & _ & _ & Hdisp & Hsame & _).
  destruct Hsame as (Hw & Hbw & Hbg & Hd & _).
  destruct (get_settings_inv _ _ _ Hget) as (_ & _ & _ & _ & Hw0 & _).
  assert (is_uint (m_width s')) as Huw
    by (rewrite Hw, Hw0; apply to_uint_range).
  rewrite <- Hd, <- Hw, <- Hbw, <- Hbg in Hdisp.
  assert (count_bars (m_width s') (m_bar_width s') (m_bar_gap s')
            = Some (m_num_bars s') ∧ 0 <= m_num_bars s') as [Hc Hpos].
  { destruct (m_display_mode s'); [done| |]; by destruct Hdisp as (? & _ & ? & _). }
  pose proof (count_bars_spec _ _ _ _ Huw Hb Hg Hc Hpos) as Hnb.
  fold bar_stride in Hnb.
  unfold is_uint in Huw.
  pose proof (Z.div_mod (m_width s') bar_stride ltac:(lia)) as Hdivmod.
  pose proof (Z.mod_pos_bound (m_width s') bar_stride ltac:(lia)) as Hm.
  set (q := m_width s' / bar_stride) in *.
  assert (0 <= q) as Hq by (subst q; apply Z.div_pos; lia).
  case_bool_decide; split; try intros i Hi; nia.
Qed.

(** X12. For settings whose integers lie within the bounds that
    [get_properties] gives the properties, with a manual FFT size, the
    steps of [update] that this model covers (lines 505-547 and 586-615:
    reading the settings, the channel counts, the loop that fills the
    spectrum arrays, the padding of the capture buffers, the bar count and
    the resizing of the index table and of the output buffers) have a
    defined result, whatever the host reports and whatever the instance was
    before: none of them overflows an [int], divides by zero, loops without
    end or resizes to a length that [std::vector] refuses. The width and
    the height are stored as they are and the FFT size is the setting
    rounded down to a multiple of 16. The FFT plan and the window, kernel
    and slope tables (lines 548-584 and 618-626) are not part of [update]
    as modelled, and nothing is said about them. *)
Theorem update_defined_within_property_ranges (h : host)
    (settings : obs_data) (s : WAVSource) :
  in_property_ranges settings = true →
  P_AUTO_FFT_SIZE settings = false →
  ∃ s' logs,
    update h settings s = Some (s', logs) ∧
    m_width s' = P_WIDTH settings ∧
    m_height s' = P_HEIGHT settings ∧
    m_fft_size s' = 16 * (P_FFT_SIZE settings / 16) ∧
    128 <= m_fft_size s' <= 4096.
Proof.
  intros Hr Hauto. unfold in_property_ranges, int_properties in Hr.
  simpl in Hr. repeat (apply andb_prop in Hr as [?%bool_decide_eq_true Hr]).
  clear Hr.
  assert (∀ z, -120 <= z <= 24000 → to_int z = z) as Hti.
  { intros z Hz. apply to_int_id. unfold is_int, INT_MIN, INT_MAX. lia. }
  assert (to_size_t (P_FFT_SIZE settings) = P_FFT_SIZE settings) as Hn
    by (unfold to_size_t, SIZE_MOD; apply Z.mod_small; lia).
  destruct (align_fft_size_spec (P_FFT_SIZE settings)) as [_ Hal];
    [unfold is_size_t, SIZE_MOD; lia|].
  specialize (Hal ltac:(lia)).
  pose proof (Z.mul_div_le (P_FFT_SIZE settings) 16 ltac:(lia)) as Hle.
  assert (128 <= 16 * (P_FFT_SIZE settings / 16)) as Hge.
  { pose proof (Z.div_le_mono 128 (P_FFT_SIZE settings) 16 ltac:(lia)
                  ltac:(lia)) as Hd.
    change (128 / 16) with 8 in Hd. lia. }
  assert (update_ok h settings) as Hok.
  { unfold update_ok. rewrite !Hti by lia.
    split; [unfold is_int, INT_MIN, INT_MAX; lia|].
    split; [unfold is_int, INT_MIN, INT_MAX; lia|].
    split.
    - rewrite Hauto, Hn, Hal. eexists; split; [reflexivity|].
      unfold UINT_MOD. apply Z.div_lt_upper_bound; lia.
    - intros _.
      rewrite (to_uint_id (P_WIDTH settings))
        by (unfold is_uint, UINT_MOD; lia).
      rewrite count_bars_small by (unfold INT_MAX; lia).
      eexists; split; [reflexivity|].
      assert (0 <= P_WIDTH settings
                     / (P_BAR_WIDTH settings + P_BAR_GAP settings)
                <= P_WIDTH settings) as Hq.
      { split; [apply Z.div_pos; lia|].
        apply Z.div_le_upper_bound; nia. }
      unfold is_int, INT_MIN, INT_MAX. case_bool_decide; lia. }
  destruct (update_defined h settings s Hok) as [[s' logs] Hup].
  exists s', logs. split; [done|].
  destruct (update_inv _ _ _ _ _ Hup)
    as (s0 & log2 & Hget & Hfft & _ & _ & _ & _ & _ & _ & _ & Hsame & _).
  destruct Hsame as (Hw & _).
  destruct (get_settings_inv _ _ _ Hget)
    as (_ & _ & Hn0 & Ha0 & Hw0 & _).
  destruct (update_inv_interp_bufs _ _ _ _ _ Hup) as (_ & _ & _ & Hh & _).
  rewrite Ha0, Hauto, Hn0, Hn, Hal in Hfft. injection Hfft as <-.
  rewrite Hw, Hw0, Hh, !to_uint_id by (unfold is_uint, UINT_MOD; lia).
  split; [done|]. split; [done|]. lia.
Qed.

End Reconfiguring.

(** ** Colours *)

Section Colours.

(** Every byte gives a finite component between 0 and 1 that equals
    itself. *)
Lemma color_component_table :
  forallb (λ k, let v := color_component k 0 in
                is_finite v && negb (F32.ltb v F32.zero)
                && negb (F32.ltb F32.one v) && SFeqb v v)
          (seqZ 0 256) = true.
Proof. vm_compute. reflexivity. Qed.

(** Two different bytes give two different components. *)
Lemma color_component_distinct :
  (let tbl := (λ k, (k, color_component k 0)) <$> seqZ 0 256 in
   forallb (λ a, forallb (λ b, implb (SFeqb a.2 b.2) (a.1 =? b.1)) tbl) tbl)
  = true.
Proof. vm_compute. reflexivity. Qed.

Lemma to_uint8_range (z : Z) : 0 <= to_uint8 z < 256.
Proof. unfold to_uint8. apply Z.mod_pos_bound. lia. Qed.

Lemma color_component_byte (color shift : Z) :
  color_component color shift =
  color_component (to_uint8 (Z.shiftr color shift)) 0.
Proof.
  unfold color_component. do 2 f_equal.
  rewrite Z.shiftr_0_r. unfold to_uint8. by rewrite Z.mod_mod.
Qed.

Lemma color_component_inj (a b : Z) :
  0 <= a < 256 → 0 <= b < 256 →
  color_component a 0 = color_component b 0 → a = b.
Proof.
  intros Ha Hb Heq.
  pose proof color_component_table as Ht.
  rewrite forallb_forall in Ht.
  specialize (Ht a ltac:(apply list_elem_of_In, elem_of_seqZ; lia)).
  simpl in Ht. apply andb_prop in Ht as [_ Hrefl].
  pose proof color_component_distinct as Hd. cbv zeta in Hd.
  rewrite forallb_forall in Hd.
  assert (∀ k, 0 <= k < 256 →
            In (k, color_component k 0)
               ((λ k, (k, color_component k 0)) <$> seqZ 0 256)) as Hin.
  { intros k Hk. apply list_elem_of_In, list_elem_of_fmap. exists k.
    split; [done|]. apply elem_of_seqZ. lia. }
  specialize (Hd _ (Hin a Ha)). rewrite forallb_forall in Hd.
  specialize (Hd _ (Hin b Hb)). simpl in Hd.
  rewrite <- Heq, Hrefl in Hd. simpl in Hd. by apply Z.eqb_eq.
Qed.

Lemma bytes_mod (c : Z) :
  c mod 2 ^ 32 =
  to_uint8 (Z.shiftr c 0) + 2 ^ 8 * to_uint8 (Z.shiftr c 8)
  + 2 ^ 16 * to_uint8 (Z.shiftr c 16) + 2 ^ 24 * to_uint8 (Z.shiftr c 24).
Proof.
  rewrite !Z.shiftr_div_pow2 by lia. unfold to_uint8.
  change (2 ^ 0) with 1. change (2 ^ 8) with 256. change (2 ^ 16) with 65536.
  change (2 ^ 24) with 16777216. change (2 ^ 32) with 4294967296.
  Z.div_mod_to_equations; lia.
Qed.

Lemma mod_bytes (c shift : Z) :
  shift = 0 ∨ shift = 8 ∨ shift = 16 ∨ shift = 24 →
  to_uint8 (Z.shiftr c shift) = to_uint8 (Z.shiftr (c mod 2 ^ 32) shift).
Proof.
  intros Hs. unfold to_uint8.
  change (2 ^ 8) with 256. change (2 ^ 32) with 4294967296.
  destruct Hs as [->|[->|[->| ->]]]; rewrite !Z.shiftr_div_pow2 by lia.
  - change (2 ^ 0) with 1. Z.div_mod_to_equations; lia.
  - change (2 ^ 8) with 256. Z.div_mod_to_equations; lia.
  - change (2 ^ 16) with 65536. Z.div_mod_to_equations; lia.
  - change (2 ^ 24) with 16777216. Z.div_mod_to_equations; lia.
Qed.

(** X13. The colour that [get_settings] decodes: each of the four
    components is a finite number between 0 and 1, whatever the setting
    holds, and two settings decode to the same colour exactly when their
    low 32 bits agree, so that no two 32-bit colours are confused and the
    bits above are ignored. *)
Theorem decode_color_faithful :
  (∀ color shift : Z,
     let v := color_component color shift in
     is_finite v = true ∧
     F32.ltb v F32.zero = false ∧
     F32.ltb F32.one v = false) ∧
  (∀ c1 c2 : Z,
     decode_color c1 = decode_color c2 ↔ c1 mod 2 ^ 32 = c2 mod 2 ^ 32).
Proof.
  split.
  - intros color shift v. subst v. rewrite color_component_byte.
    pose proof (to_uint8_range (Z.shiftr color shift)) as Hb.
    pose proof color_component_table as Ht.
    rewrite forallb_forall in Ht.
    specialize (Ht (to_uint8 (Z.shiftr color shift))
                  ltac:(apply list_elem_of_In, elem_of_seqZ; lia)).
    simpl in Ht.
    apply andb_prop in Ht as [Ht _]. apply andb_prop in Ht as [Ht H1].
    apply andb_prop in Ht as [Hf H0].
    apply negb_true_iff in H0, H1. done.
  - intros c1 c2. split.
    + intros Heq. unfold decode_color in Heq.
      injection Heq as Hx Hy Hz Hw.
      rewrite (color_component_byte c1), (color_component_byte c2)
        in Hx, Hy, Hz, Hw.
      apply color_component_inj in Hx, Hy, Hz, Hw;
        try apply to_uint8_range.
      rewrite (bytes_mod c1), (bytes_mod c2). by rewrite Hx, Hy, Hz, Hw.
    + intros Heq. unfold decode_color.
      rewrite !(color_component_byte c1), !(color_component_byte c2).
      rewrite !(mod_bytes c1), !(mod_bytes c2), Heq by lia.
      done.
Qed.

End Colours.

(** ** The index buffer of [render_bars] *)

Section IndexBuffer.

Lemma array_store_at {A : Type} (p1 p2 r : list A) (x v : A) (i : Z) :
  i = Z.of_nat (length p1 + length p2) →
  array_store i v (p1 ++ p2 ++ x :: r) = Some (p1 ++ p2 ++ v :: r).
Proof.
  intros ->. unfold array_store.
  rewrite bool_decide_true by (rewrite !length_app; simpl; lia).
  f_equal. rewrite Nat2Z.id.
  rewrite insert_app_r_alt by lia.
  rewrite insert_app_r_alt by lia.
  replace (_ - _ - _)%nat with 0%nat by lia. done.
Qed.

Lemma to_uint16_add (a b : Z) : to_uint16 (to_uint16 a + b) = to_uint16 (a + b).
Proof. unfold to_uint16. by rewrite Zplus_mod_idemp_l. Qed.

Lemma index_quad_next (q : Z) (done rest : list (option Z)) :
  0 <= q → 6 * q + 6 <= INT_MAX →
  length done = Z.to_nat (6 * q) →
  index_quad (6 * q, to_uint16 (4 * q), done ++ replicate 6 None ++ rest) =
    Some (6 * (q + 1), to_uint16 (4 * (q + 1)),
          (done ++ (Some ∘ to_uint16 <$> [4 * q; 4 * q + 1; 4 * q + 2; 4 * q + 2; 4 * q + 1; 4 * q + 3])) ++ rest).
Proof.
  intros Hq Hmax Hlen. unfold index_quad.
  cbn [replicate fmap list_fmap app compose].
  set (v0 := Some (to_uint16 (4 * q))).
  pose proof (λ x v r i, array_store_at done [] r x v i) as E0.
  pose proof (λ a0 x v r i, array_store_at done [a0] r x v i) as E1.
  pose proof (λ a0 a1 x v r i, array_store_at done [a0; a1] r x v i) as E2.
  pose proof (λ a0 a1 a2 x v r i,
                array_store_at done [a0; a1; a2] r x v i) as E3.
  pose proof (λ a0 a1 a2 a3 x v r i,
                array_store_at done [a0; a1; a2; a3] r x v i) as E4.
  pose proof (λ a0 a1 a2 a3 a4 x v r i,
                array_store_at done [a0; a1; a2; a3; a4] r x v i) as E5.
  cbn [app length] in E0, E1, E2, E3, E4, E5.
  rewrite E0 by lia. cbn [mbind option_bind].
  rewrite E1 by lia. cbn [mbind option_bind].
  rewrite E2 by lia. cbn [mbind option_bind].
  rewrite E3 by lia. cbn [mbind option_bind].
  rewrite E4 by lia. cbn [mbind option_bind].
  rewrite E5 by lia. cbn [mbind option_bind].
  unfold int_add. rewrite int_result_Some
    by (unfold is_int, INT_MIN, INT_MAX in *; lia).
  cbn [mbind option_bind]. subst v0. rewrite !to_uint16_add.
  rewrite <- app_assoc. cbn [app].
  repeat f_equal; lia.
Qed.

Lemma index_loop_run (n : Z) (k : nat) :
  ∀ (q : Z) (fuel : nat) (done : list (option Z)),
    0 <= q → n = 6 * (q + Z.of_nat k) → n <= INT_MAX →
    length done = Z.to_nat (6 * q) → (k <= fuel)%nat →
    for_loop (λ '(i, _, _), bool_decide (i < n)) index_quad fuel
      (6 * q, to_uint16 (4 * q), done ++ replicate (6 * k) None)
    = Finished (n, to_uint16 (4 * (q + Z.of_nat k)),
                done ++ (seqZ q (Z.of_nat k) ≫=
                  λ q, Some ∘ to_uint16 <$> [4 * q; 4 * q + 1; 4 * q + 2; 4 * q + 2; 4 * q + 1; 4 * q + 3])).
Proof.
  induction k as [|k IH]; intros q fuel done Hq Hn Hmax Hlen Hfuel.
  - destruct fuel; simpl; rewrite bool_decide_false by lia;
      subst n; simpl; repeat f_equal; lia.
  - destruct fuel as [|fuel]; [lia|].
    cbn [for_loop]. rewrite bool_decide_true by lia.
    replace (6 * S k)%nat with (6 + 6 * k)%nat by lia.
    rewrite replicate_add.
    rewrite index_quad_next by lia.
    rewrite IH; [|lia|lia|lia| |lia].
    + replace (q + 1 + Z.of_nat k) with (q + Z.of_nat (S k)) by lia.
      f_equal. f_equal. rewrite <- app_assoc. f_equal.
      replace (Z.of_nat (S k)) with (Z.succ (Z.of_nat k)) by lia.
      rewrite (seqZ_cons q) by lia. cbn [mbind list_bind].
      replace (Z.succ q) with (q + 1) by lia.
      replace (Z.pred (Z.succ (Z.of_nat k))) with (Z.of_nat k) by lia.
      reflexivity.
    + rewrite length_app. simpl. lia.
Qed.

(** X14. The loop that fills the index buffer of [render_bars] ends,
    with no store outside the [num_idx] elements of the array and no
    element left unwritten: [num_idx], when it is not negative, is a
    multiple of 6, and the six indices of quad [q] name the vertices
    [4 q], [4 q + 1], [4 q + 2], [4 q + 2], [4 q + 1] and [4 q + 3], each
    reduced modulo 2^16 by the [uint16_t] counter and elements. *)
Theorem render_bars_index_buffer (s : WAVSource) (max_steps n : Z)
    (fuel : nat) :
  num_idx s max_steps = Some n →
  0 <= n →
  (Z.to_nat (n / 6) <= fuel)%nat →
  n mod 6 = 0 ∧
  index_buffer fuel n =
    Finished (seqZ 0 (n / 6) ≫= λ q,
                Some ∘ to_uint16 <$>
                  [4 * q; 4 * q + 1; 4 * q + 2;
                   4 * q + 2; 4 * q + 1; 4 * q + 3]).
Proof.
  intros Hn Hn0 Hfuel.
  assert (n mod 6 = 0 ∧ n <= INT_MAX) as [Hmod Hmax].
  { unfold num_idx, int_mul in Hn.
    destruct (int_result (m_num_bars s * 6)) as [n0|] eqn:H0;
      simpl in Hn; [|done].
    apply int_result_inv in H0 as [-> H0].
    destruct (m_display_mode s).
    - injection Hn as <-. split; [apply Z.mod_mul; lia|].
      unfold is_int in H0. lia.
    - injection Hn as <-. split; [apply Z.mod_mul; lia|].
      unfold is_int in H0. lia.
    - apply int_result_inv in Hn as [-> Hn]. split; [|unfold is_int in Hn; lia].
      rewrite <- Z.mul_assoc, (Z.mul_comm 6), Z.mul_assoc.
      apply Z.mod_mul. lia. }
  split; [done|].
  pose proof (Z.div_mod n 6 ltac:(lia)) as Hdm. rewrite Hmod in Hdm.
  unfold index_buffer.
  destruct (decide (n <= 0)) as [Hneg|Hpos].
  - replace (Z.to_nat n) with 0%nat by lia.
    assert (n / 6 <= 0) as Hq by lia.
    replace (seqZ 0 (n / 6)) with (@nil Z)
      by (unfold seqZ; by replace (Z.to_nat (n / 6)) with 0%nat by lia).
    destruct fuel; simpl; by rewrite bool_decide_false by lia.
  - pose proof (index_loop_run n (Z.to_nat (n / 6)) 0 fuel []
                  ltac:(lia) ltac:(lia) Hmax ltac:(simpl; lia) Hfuel) as Hrun.
    replace (6 * Z.to_nat (n / 6))%nat with (Z.to_nat n) in Hrun by lia.
    replace (Z.of_nat (Z.to_nat (n / 6))) with (n / 6) in Hrun by lia.
    change (6 * 0) with 0 in Hrun. change (to_uint16 (4 * 0)) with 0 in Hrun.
    simpl in Hrun. by rewrite Hrun.
Qed.

End IndexBuffer.

(** ** The vertex buffers *)

Section VertexBuffers.

Lemma put_vertex_filled (total n : nat) (x y : float)
    (st : list (option vec3) * Z) :
  vertices_filled total n st →
  (n < total)%nat → Z.of_nat n + 1 < UINT_MOD →
  ∃ st', put_vertex x y st = Some st' ∧ vertices_filled total (S n) st'.
Proof.
  destruct st as [points vertpos]. unfold vertices_filled. simpl.
  intros (-> & Hlen & Hw) Hn Hmax.
  unfold put_vertex, array_store.
  rewrite bool_decide_true by lia. simpl. eexists. split; [reflexivity|].
  simpl. rewrite Nat2Z.id, length_insert.
  split; [unfold to_uint; rewrite Z.mod_small by lia; lia|].
  split; [done|]. intros j Hj.
  destruct (decide (j = n)) as [->|Hne].
  - rewrite list_lookup_insert_eq by lia. eauto.
  - rewrite list_lookup_insert_ne by done. apply Hw. lia.
Qed.

Lemma put_quad_filled (total n : nat) (xa ya xb yb xc yc xd yd : float)
    (st : list (option vec3) * Z) :
  vertices_filled total n st →
  (n + 4 <= total)%nat → Z.of_nat n + 4 < UINT_MOD →
  ∃ st', (st ← put_vertex xa ya st; st ← put_vertex xb yb st;
          st ← put_vertex xc yc st; put_vertex xd yd st) = Some st' ∧
         vertices_filled total (n + 4) st'.
Proof.
  intros Hf Hn Hmax.
  destruct (put_vertex_filled total n xa ya st Hf) as (st1 & -> & H1);
    [lia|lia|].
  destruct (put_vertex_filled total _ xb yb st1 H1) as (st2 & H2e & H2);
    [lia|lia|].
  destruct (put_vertex_filled total _ xc yc st2 H2) as (st3 & H3e & H3);
    [lia|lia|].
  destruct (put_vertex_filled total _ xd yd st3 H3) as (st4 & H4e & H4);
    [lia|lia|].
  exists st4. simpl. rewrite H2e. simpl. rewrite H3e. simpl.
  split; [done|]. by replace (n + 4)%nat with (S (S (S (S n)))) by lia.
Qed.

Lemma curve_loop_filled (render_mode : RenderMode) (s : WAVSource)
    (channel : nat) (vals : list float) (total : nat) (k : nat) :
  get2 (m_interp_bufs s) channel = Some vals →
  ∀ (i n : nat) (st : list (option vec3) * Z),
    vertices_filled total n st →
    (n + k <= total)%nat → Z.of_nat (n + k) < UINT_MOD →
    (i + k <= length vals)%nat →
    ∃ st', index_loop (curve_vertex render_mode s channel) k i st = Some st' ∧
           vertices_filled total (n + k) st'.
Proof.
  intros Hvals. induction k as [|k IH]; intros i n st Hf Hn Hmax Hlen.
  - exists st. rewrite Nat.add_0_r. done.
  - simpl.
    assert (∃ st1, curve_vertex render_mode s channel i st = Some st1 ∧
                   vertices_filled total (S n) st1) as (st1 & -> & H1).
    { unfold curve_vertex. rewrite Hvals. simpl.
      destruct (lookup_lt_is_Some_2 vals i ltac:(lia)) as [val ->]. simpl.
      destruct (_ && _); apply put_vertex_filled; (done || lia). }
    simpl. destruct (IH (S i) (S n) st1 H1) as (st' & -> & H'); [lia..|].
    exists st'. split; [done|].
    by replace (n + S k)%nat with (S n + k)%nat by lia.
Qed.

(** X15. The vertex loop of [render_curve] stays inside the vertex
    array and fills it: for a width that [m_width + 2] does not wrap
    around and an interpolation buffer of at least [m_width] values, a
    channel's pass over an array of [num_verts] elements has a defined
    result, ends with [vertpos] equal to [num_verts], the count that is
    drawn, and has written every element, in line mode as in the filled
    modes. *)
Theorem render_curve_fills_vertex_buffer (render_mode : RenderMode)
    (s : WAVSource) (channel : nat) (vals : list float)
    (points : list (option vec3)) :
  is_uint (m_width s) →
  (render_mode ≠ LINE → m_width s + 2 < UINT_MOD) →
  get2 (m_interp_bufs s) channel = Some vals →
  m_width s <= Z.of_nat (length vals) →
  Z.of_nat (length points) = curve_num_verts render_mode s →
  ∃ points',
    render_curve_vertices render_mode s channel points
      = Some (points', curve_num_verts render_mode s) ∧
    length points' = length points ∧
    vertices_written (length points') points'.
Proof.
  intros Hw Hw2 Hvals Hlen Hpts. unfold is_uint, UINT_MOD in *.
  assert (vertices_filled (length points) 0 (points, 0)) as H0.
  { split; [done|]. split; [done|]. intros j Hj. lia. }
  unfold render_curve_vertices.
  destruct render_mode.
  - assert (curve_num_verts LINE s = m_width s) as Hnv.
    { unfold curve_num_verts, to_size_t, SIZE_MOD. apply Z.mod_small. lia. }
    rewrite Hnv in *. simpl.
    destruct (curve_loop_filled LINE s channel vals (length points)
                (Z.to_nat (m_width s)) Hvals 0 0 _ H0)
      as ([points' vertpos] & -> & Hv & Hl & Hwr);
      [unfold UINT_MOD; lia..|].
    simpl in *. exists points'.
    split; [do 2 f_equal; lia|]. split; [done|].
    by replace (length points') with (Z.to_nat (m_width s)) by lia.
  - assert (curve_num_verts SOLID s = m_width s + 2) as Hnv.
    { unfold curve_num_verts, to_size_t, to_uint, SIZE_MOD, UINT_MOD.
      specialize (Hw2 ltac:(done)).
      rewrite (Z.mod_small (m_width s + 2)) by lia.
      apply Z.mod_small. lia. }
    specialize (Hw2 ltac:(done)). rewrite Hnv in *.
    destruct (put_vertex_filled _ _ (SFopp f32_half) (cpos s) _ H0)
      as (st1 & -> & H1); [unfold UINT_MOD; lia..|].
    simpl.
    destruct (curve_loop_filled SOLID s channel vals (length points)
                (Z.to_nat (m_width s)) Hvals 0 1 _ H1)
      as (st2 & -> & H2); [unfold UINT_MOD; lia..|].
    simpl.
    destruct (put_vertex_filled _ _ (right s) (cpos s) _ H2)
      as ([points' vertpos] & -> & Hv & Hl & Hwr); [unfold UINT_MOD; lia..|].
    simpl in *. exists points'.
    split; [do 2 f_equal; lia|]. split; [done|].
    by replace (length points') with (S (1 + Z.to_nat (m_width s))) by lia.
  - assert (curve_num_verts GRADIENT s = m_width s + 2) as Hnv.
    { unfold curve_num_verts, to_size_t, to_uint, SIZE_MOD, UINT_MOD.
      specialize (Hw2 ltac:(done)).
      rewrite (Z.mod_small (m_width s + 2)) by lia.
      apply Z.mod_small. lia. }
    specialize (Hw2 ltac:(done)). rewrite Hnv in *.
    destruct (put_vertex_filled _ _ (SFopp f32_half) (cpos s) _ H0)
      as (st1 & -> & H1); [unfold UINT_MOD; lia..|].
    simpl.
    destruct (curve_loop_filled GRADIENT s channel vals (length points)
                (Z.to_nat (m_width s)) Hvals 0 1 _ H1)
      as (st2 & -> & H2); [unfold UINT_MOD; lia..|].
    simpl.
    destruct (put_vertex_filled _ _ (right s) (cpos s) _ H2)
      as ([points' vertpos] & -> & Hv & Hl & Hwr); [unfold UINT_MOD; lia..|].
    simpl in *. exists points'.
    split; [do 2 f_equal; lia|]. split; [done|].
    by replace (length points') with (S (1 + Z.to_nat (m_width s))) by lia.
Qed.



Lemma put_quad_bind {B : Type} (K : list (option vec3) * Z → option B)
    (total n : nat) (xa ya xb yb xc yc xd yd : float)
    (st : list (option vec3) * Z) :
  vertices_filled total n st →
  (n + 4 <= total)%nat → Z.of_nat n + 4 < UINT_MOD →
  ∃ st', vertices_filled total (n + 4) st' ∧
         (st ← put_vertex xa ya st; st ← put_vertex xb yb st;
          st ← put_vertex xc yc st; st ← put_vertex xd yd st; K st) = K st'.
Proof.
  intros Hf Hn Hmax.
  destruct (put_vertex_filled total n xa ya st Hf) as (st1 & -> & H1);
    [lia|lia|].
  destruct (put_vertex_filled total _ xb yb st1 H1) as (st2 & H2e & H2);
    [lia|lia|].
  destruct (put_vertex_filled total _ xc yc st2 H2) as (st3 & H3e & H3);
    [lia|lia|].
  destruct (put_vertex_filled total _ xd yd st3 H3) as (st4 & H4e & H4);
    [lia|lia|].
  exists st4. simpl. rewrite H2e. simpl. rewrite H3e. simpl. rewrite H4e.
  split; [|done]. by replace (n + 4)%nat with (S (S (S (S n)))) by lia.
Qed.

Section BarVertices.
Variables (s : WAVSource) (ms bs ss : Z) (channel : nat) (vals : list float)
  (total : nat).
Hypothesis Hvals : get2 (m_interp_bufs s) channel = Some vals.
Hypothesis Hbs : 0 <= bs.

Lemma steps_loop_filled (x1 x2 val : float) (k : nat) :
  0 <= ss →
  ∀ (j : Z) (n : nat) (st : list (option vec3) * Z),
    vertices_filled total n st →
    (n + 4 * k <= total)%nat → Z.of_nat (n + 4 * k) < UINT_MOD →
    0 <= j → (j + Z.of_nat k) * ss <= INT_MAX → j + Z.of_nat k <= INT_MAX →
    ∃ st' m, steps_loop s ss channel x1 x2 val k j st = Some st' ∧
             vertices_filled total (n + 4 * m) st' ∧ (m <= k)%nat.
Proof.
  intros Hss. induction k as [|k IH]; intros j n st Hf Hn Hmax Hj Hjs Hjk.
  - exists st, 0%nat. simpl. rewrite Nat.add_0_r. done.
  - cbn [steps_loop]. unfold int_mul, int_add.
    rewrite (int_result_Some (j * ss))
      by (unfold is_int, INT_MIN, INT_MAX in *; nia).
    cbn [mbind option_bind].
    destruct (F32.ltb _ _).
    { exists st, 0%nat. rewrite Nat.add_0_r. split; [done|]. split; [done|lia]. }
    edestruct (put_quad_bind
                 (λ st, j' ← int_result (j + 1);
                        steps_loop s ss channel x1 x2 val k j' st)
                 total n) as (st4 & H4 & ->); [exact Hf|lia|lia|].
    rewrite (int_result_Some (j + 1))
      by (unfold is_int, INT_MIN, INT_MAX in *; lia).
    cbn [mbind option_bind].
    destruct (IH (j + 1) (n + 4)%nat st4 H4) as (st' & m & -> & Hf' & Hm);
      [lia|lia|lia|nia|lia|].
    exists st', (S m). split; [done|]. split; [|lia].
    by replace (n + 4 * S m)%nat with (n + 4 + 4 * m)%nat by lia.
Qed.


Hypothesis Hstep :
  m_display_mode s = STEPPED_BAR →
  0 <= ss ∧ 0 <= ms <= INT_MAX ∧ ms * ss <= INT_MAX.

Lemma bars_loop_filled (k : nat) :
  ∀ (i m : nat) (st : list (option vec3) * Z),
    vertices_filled total (4 * m) st →
    (m <= quads_per_bar s ms * i)%nat →
    (m_display_mode s ≠ STEPPED_BAR → m = i) →
    (4 * (quads_per_bar s ms * (i + k)) <= total)%nat →
    Z.of_nat (4 * (quads_per_bar s ms * (i + k))) < UINT_MOD →
    (i + k <= length vals)%nat →
    Z.of_nat (i + k) * bs <= INT_MAX →
    ∃ st' m',
      index_loop (bar_vertices s ms bs ss channel) k i st = Some st' ∧
      vertices_filled total (4 * m') st' ∧
      (m' <= quads_per_bar s ms * (i + k))%nat ∧
      (m_display_mode s ≠ STEPPED_BAR → m' = (i + k)%nat).
Proof.
  induction k as [|k IH]; intros i m st Hf Hm Hplain Htot Hmax Hlen Hx.
  - exists st, m. rewrite Nat.add_0_r. done.
  - cbn [index_loop].
    assert (∃ st1 m1, bar_vertices s ms bs ss channel i st = Some st1 ∧
              vertices_filled total (4 * m1) st1 ∧
              (m1 <= quads_per_bar s ms * S i)%nat ∧
              (m_display_mode s ≠ STEPPED_BAR → m1 = S i))
      as (st1 & m1 & -> & H1 & Hm1 & Hp1).
    { unfold bar_vertices, int_mul.
      rewrite (int_result_Some (Z.of_nat i * bs))
        by (unfold is_int, INT_MIN, INT_MAX in *; nia).
      cbn [mbind option_bind]. rewrite Hvals. cbn [mbind option_bind].
      destruct (lookup_lt_is_Some_2 vals i ltac:(lia)) as [val ->].
      cbn [mbind option_bind].
      unfold quads_per_bar in *. destruct (m_display_mode s) eqn:Hdm.
      - specialize (Hplain ltac:(done)). subst m.
        edestruct put_quad_filled as (st1 & -> & H1); [exact Hf|lia|lia|].
        exists st1, (S i). split; [done|].
        split; [by replace (4 * S i)%nat with (4 * i + 4)%nat by lia|].
        split; [lia|done].
      - specialize (Hplain ltac:(done)). subst m.
        edestruct put_quad_filled as (st1 & -> & H1); [exact Hf|lia|lia|].
        exists st1, (S i). split; [done|].
        split; [by replace (4 * S i)%nat with (4 * i + 4)%nat by lia|].
        split; [lia|done].
      - destruct (Hstep eq_refl) as (Hss & Hms & Hmss).
        match goal with
        | |- context [steps_loop s ss channel ?x1 ?x2 val _ 0 st] =>
            destruct (steps_loop_filled x1 x2 val (Z.to_nat ms) Hss 0
                        (4 * m) st Hf)
              as (st1 & q & -> & H1 & Hq); [nia|nia|lia|nia|lia|]
        end.
        exists st1, (m + q)%nat. split; [done|].
        split; [by replace (4 * (m + q))%nat with (4 * m + 4 * q)%nat by lia|].
        split; [nia|done]. }
    cbn [mbind option_bind].
    destruct (IH (S i) m1 st1 H1 Hm1 Hp1) as (st' & m' & -> & Hf' & Hm' & Hp');
      [by replace (S i + k)%nat with (i + S k)%nat by lia..|].
    exists st', m'. replace (i + S k)%nat with (S i + k)%nat by lia. done.
Qed.

End BarVertices.

Lemma max_steps_range (s : WAVSource) (ms : Z) :
  max_steps s = Some ms →
  0 <= ms ∧ ∃ ss, step_stride s = Some ss ∧ ss = m_step_width s + m_step_gap s.
Proof.
  unfold max_steps, step_stride, int_add.
  destruct (int_result _) as [ss|] eqn:Hss; simpl; [|done].
  apply int_result_inv in Hss as [-> _].
  destruct (float_to_size_t _) as [n|] eqn:Hn; simpl; [|done].
  destruct (float_to_int _) as [c|]; simpl; [|done].
  intros [= <-]. split; [|eauto].
  unfold float_to_size_t in Hn. destruct (SFtrunc _); simpl in Hn; [|done].
  case_bool_decide; [|done]. injection Hn as <-.
  case_bool_decide; [apply to_size_t_range|lia].
Qed.

(** X16. The vertex loop of [render_bars] stays inside the vertex
    array: when the bar and step coordinates fit [int] and, in stepped
    mode, the vertex count fits [unsigned int], a channel's pass over an
    array of [num_verts] elements has a defined result whatever the bar
    values are, writes a whole number of quads into the first [vertpos]
    elements with [vertpos] at most [num_verts], and draws at most the
    [num_idx] indices of the index buffer; in bar mode it writes all of
    the array and draws all of the indices. *)
Theorem render_bars_vertices_in_bounds (s : WAVSource) (channel : nat)
    (vals : list float) (points : list (option vec3)) (bs ms nv ni : Z) :
  0 <= m_num_bars s →
  bar_stride s = Some bs → 0 <= bs → m_num_bars s * bs <= INT_MAX →
  max_steps s = Some ms →
  (m_display_mode s = STEPPED_BAR →
   0 <= m_step_width s + m_step_gap s ∧
   ms <= INT_MAX ∧
   ms * (m_step_width s + m_step_gap s) <= INT_MAX ∧
   m_num_bars s * 4 * ms < UINT_MOD) →
  get2 (m_interp_bufs s) channel = Some vals →
  m_num_bars s <= Z.of_nat (length vals) →
  bars_num_verts s ms = Some nv →
  num_idx s ms = Some ni →
  Z.of_nat (length points) = nv →
  ∃ points' vertpos,
    render_bars_vertices s channel points = Some (points', vertpos) ∧
    length points' = length points ∧
    0 <= vertpos <= nv ∧
    vertpos mod 4 = 0 ∧
    vertices_written (Z.to_nat vertpos) points' ∧
    total_verts vertpos <= ni ∧
    (m_display_mode s ≠ STEPPED_BAR →
     vertpos = nv ∧ total_verts vertpos = ni).
Proof.
  intros Hnb Hbs Hbs0 Hx Hms Hstep Hvals Hlen Hnv Hni Hpts.
  destruct (max_steps_range _ _ Hms) as (Hms0 & ss & Hss & ->).
  set (nb := Z.to_nat (m_num_bars s)).
  set (per := quads_per_bar s ms).
  assert (Z.of_nat (4 * (per * nb)) = nv ∧ Z.of_nat (6 * (per * nb)) = ni
          ∧ nv < UINT_MOD ∧ ni <= INT_MAX) as (Hnv' & Hni' & Hnvmax & Hnimax).
  { unfold bars_num_verts, num_idx, int_mul in Hnv, Hni.
    destruct (int_result (m_num_bars s * 4)) as [n4|] eqn:H4;
      simpl in Hnv; [|done].
    destruct (int_result (m_num_bars s * 6)) as [n6|] eqn:H6;
      simpl in Hni; [|done].
    apply int_result_inv in H4 as [-> H4]. apply int_result_inv in H6 as [-> H6].
    unfold is_int, INT_MIN, INT_MAX in H4, H6.
    subst per nb. unfold quads_per_bar.
    assert (to_size_t (m_num_bars s * 4) = m_num_bars s * 4) as E4
      by (unfold to_size_t, SIZE_MOD; apply Z.mod_small; lia).
    destruct (m_display_mode s) eqn:Hdm.
    - injection Hnv as <-. injection Hni as <-. rewrite E4.
      unfold UINT_MOD, INT_MAX. lia.
    - injection Hnv as <-. injection Hni as <-. rewrite E4.
      unfold UINT_MOD, INT_MAX. lia.
    - destruct (Hstep eq_refl) as (_ & Hmsmax & _ & Hwrap).
      unfold INT_MAX, UINT_MOD in *.
      rewrite to_int_small in Hni by (unfold INT_MAX; lia).
      apply int_result_inv in Hni as [-> Hni]. injection Hnv as <-.
      rewrite E4. unfold to_size_t, SIZE_MOD.
      rewrite Z.mod_small by nia.
      unfold is_int, INT_MIN, INT_MAX in Hni. nia. }
  assert (vertices_filled (length points) (4 * 0) (points, 0)) as H0.
  { split; [done|]. split; [done|]. intros j Hj. simpl in Hj. lia. }
  destruct (bars_loop_filled s ms bs (m_step_width s + m_step_gap s) channel
              vals (length points) Hvals Hbs0
              ltac:(intros Hdm; destruct (Hstep Hdm) as (? & ? & ? & _); lia)
              nb 0 0 (points, 0) H0)
    as ([points' vertpos] & m' & Hloop & (Hv & Hl & Hw) & Hm' & Hplain);
    [lia|lia|unfold per in *; lia|unfold per in *; lia|lia|lia|].
  simpl in Hv, Hl, Hw. rewrite Nat.add_0_l in Hm', Hplain.
  assert (Z.of_nat (6 * m') <= ni) as Hm6 by nia.
  assert (vertpos = 4 * Z.of_nat m') as Hvp by lia.
  replace (m' + (m' + (m' + (m' + 0))))%nat with (Z.to_nat vertpos) in Hw
    by lia.
  clear Hv. exists points', vertpos.
  unfold render_bars_vertices. rewrite Hbs, Hss, Hms. simpl.
  fold nb. split; [exact Hloop|]. split; [done|].
  assert (total_verts vertpos = Z.of_nat (6 * m')) as Htv.
  { unfold total_verts, to_uint. rewrite Hvp.
    rewrite (Z.mul_comm 4), Z.div_mul by lia.
    unfold UINT_MOD, INT_MAX in *.
    rewrite (Z.mod_small (Z.of_nat m')) by lia.
    rewrite Z.mod_small by lia. lia. }
  split; [lia|]. split.
  { rewrite Hvp, Z.mul_comm. apply Z.mod_mul. lia. }
  split; [done|]. split; [lia|].
  intros Hdm. specialize (Hplain Hdm). subst m'.
  assert (per = 1%nat) as Hper
    by (subst per; unfold quads_per_bar; by destruct (m_display_mode s)).
  rewrite Hper in *. lia.
Qed.

End VertexBuffers.

(** ** Capturing after [update] *)

Section CaptureInvariant.
Context `{Externals}.

(** X17. One call of [capture_audio] keeps the size of a capture
    buffer between one and two analysis windows: a buffer that holds at
    least [m_fft_size * 4] bytes before the call holds at least as many
    after it, one that holds at most [m_fft_size * 8] bytes still does, and
    [m_fft_size] is unchanged. This is a statement about a single call; the
    premise keeps [m_fft_size * 8] within [size_t]. *)
Theorem capture_audio_keeps_a_window (lock_acquired : bool)
    (audio : audio_data) (muted : bool) (s s' : WAVSource) (i : nat)
    (cb : circlebuf) :
  0 <= m_fft_size s →
  m_fft_size s * 8 < SIZE_MOD →
  capture_audio lock_acquired audio muted s = Some s' →
  get2 (m_capturebufs s) i = Some cb →
  m_fft_size s * 4 <= circlebuf_size cb →
  ∃ cb', get2 (m_capturebufs s') i = Some cb' ∧
         m_fft_size s * 4 <= circlebuf_size cb' ∧
         (circlebuf_size cb <= m_fft_size s * 8 →
          circlebuf_size cb' <= m_fft_size s * 8) ∧
         m_fft_size s' = m_fft_size s.
Proof.
  intros Hn0 Hn8 Hcap Hcb Hsize.
  assert (capture_max (m_fft_size s) = m_fft_size s * 8) as Hmax.
  { unfold capture_max, to_size_t, SIZE_MOD in *.
    rewrite (Z.mod_small (m_fft_size s * 4)) by lia.
    rewrite Z.mod_small by lia. lia. }
  unfold capture_audio in Hcap. destruct lock_acquired; simpl in Hcap;
    [|injection Hcap as <-; eauto].
  destruct (m_audio_source s) as [src|]; [|injection Hcap as <-; eauto].
  destruct (index_loop _ _ 0%nat (m_capturebufs s)) as [b|] eqn:Hb;
    [|done].
  simpl in Hcap. injection Hcap as <-. simpl.
  assert (0 <= to_size_t (frames audio * 4)) as Hsz by apply to_size_t_range.
  destruct (decide (i < Z.to_nat (m_capture_channels s))%nat) as [Hi|Hi].
  - destruct (capture_loop_spec _ _ _ _ _ i _ _ Hsz Hb Hi)
      as (cb0 & pushed & Hg & _ & Hlen & Hr).
    rewrite Hcb in Hg. injection Hg as <-.
    eexists. split; [exact Hr|]. rewrite Hmax.
    unfold circlebuf_size in *. rewrite length_drop, length_app.
    split; [lia|]. split; [lia|done].
  - exists cb. rewrite (capture_loop_frame _ _ _ _ _ i _ _ Hsz Hb) by lia.
    done.
Qed.

(** X18. After [update], [capture_audio] has a defined result for every
    frame whose planes hold the bytes it announces, and for every muted
    frame: no more than the two capture buffers are ever indexed. *)
Theorem update_then_capture_defined (h : host) (settings : obs_data)
    (s s' : WAVSource) (logs : list log_entry) (lock_acquired : bool)
    (audio : audio_data) (muted : bool) :
  update h settings s = Some (s', logs) →
  (muted = false →
   ∀ i : nat, (i < Z.to_nat (m_capture_channels s'))%nat →
     ∃ plane, data audio !! i = Some plane ∧
              to_size_t (frames audio * 4) <= Z.of_nat (length plane)) →
  ∃ s'', capture_audio lock_acquired audio muted s' = Some s'' ∧
         m_capture_channels s'' = m_capture_channels s' ∧
         m_fft_size s'' = m_fft_size s' ∧
         m_audio_source s'' = m_audio_source s'.
Proof.
  intros Hup Hpl.
  destruct (update_inv _ _ _ _ _ Hup)
    as (s0 & log2 & _ & _ & _ & Hcap & _).
  assert (Z.to_nat (m_capture_channels s') <= 2)%nat as Hk
    by (rewrite Hcap; lia).
  unfold capture_audio. destruct lock_acquired; simpl; [|eauto].
  destruct (m_audio_source s') as [src|] eqn:Hsrc; [|eauto].
  destruct (capture_loop_defined (m_fft_size s') audio muted
              (to_size_t (frames audio * 4)) _ (m_capturebufs s') Hk Hpl)
    as [b ->].
  simpl. eauto.
Qed.

End CaptureInvariant.

(** * The interpolation index table *)

(** The endpoints of the table are computed in binary32, by a product, a
    quotient and a clamp. That the lower endpoint is not above the upper
    one, and that the interpolation parameter [i / (sz - 1)] grows with
    [i] and stays within [[0, 1]], rests on rounding being monotone;
    [SpecFloat] gives the operations but no theory of them, so it is
    developed here from their definitions. *)

(** ** Division with a sticky bit *)









(** ** The digits of a mantissa *)









(** ** Shifting a record *)









(** ** What [binary_round_aux] computes *)






(** ** The order of [SFcompare] *)













(** ** Rounding is monotone *)





Section RoundFrac.
Variables A B e : Z.
Hypothesis HA : 0 <= A.
Hypothesis HB : 0 < B.
Hypothesis He : e <= fexp 24 128 (Zdigits2 (A / B) + e).



End RoundFrac.


(** ** Rounded fractions *)





(** ** Conversion from an integer *)









(** ** Positive operands *)

Lemma pos_canonical_nonneg (x : spec_float) :
  pos_canonical x → nonneg_canonical x.
Proof. by destruct x as [[]|[]| |[] m e]. Qed.




(** ** Multiplication *)




(** ** Division *)








(** ** Negative operands *)





(** ** [std::clamp] *)




(** ** The endpoints *)

Section CutoffBin.
Variables N sr : Z.
Hypothesis HN : 0 < N < 2 ^ 64.
Hypothesis Hsr : 0 < sr < 2 ^ 64.




End CutoffBin.

(** ** The interpolation parameter *)



(** ** The table of [init_interp] *)


Section InterpTable.
Context `{Externals}.




End InterpTable.

(** * The properties on concrete inputs *)

Lemma demo_update_result :
  @update demo_externals demo_host (demo_settings "mic") new_instance
    = Some (demo_instance, []).
Proof. vm_compute. reflexivity. Qed.

Lemma update_fft_size_aligned_witness :
  @update demo_externals demo_host (demo_settings "mic") new_instance
    = Some (demo_instance, []) ∧
  128 <= m_fft_size demo_instance ∧
  m_fft_size demo_instance mod 16 = 0 ∧
  (m_fft_size demo_instance / 2) mod 8 = 0 ∧
  m_fft_size demo_instance / 2 < UINT_MOD.
Proof.
  split; [exact demo_update_result|].
  exact (@update_fft_size_aligned demo_externals demo_host
           (demo_settings "mic") new_instance demo_instance []
           demo_update_result).
Defined.

Lemma update_ranges_not_empty_witness :
  ∃ s' logs,
    @update demo_externals demo_host degenerate_settings new_instance
      = Some (s', logs) ∧
    1 <= m_cutoff_high s' - m_cutoff_low s' ∧
    1 <= m_ceiling s' - m_floor s' ∧
    is_int (m_cutoff_high s' - m_cutoff_low s') ∧
    is_int (m_ceiling s' - m_floor s').
Proof.
  destruct (@update demo_externals demo_host degenerate_settings new_instance)
    as [[s' logs]|] eqn:Hup; [|vm_compute in Hup; discriminate].
  exists s', logs. split; [reflexivity|].
  exact (@update_ranges_not_empty demo_externals demo_host
           degenerate_settings new_instance s' logs Hup).
Defined.

Lemma update_primes_capture_buffers_witness :
  @update demo_externals demo_host (demo_settings "mic") new_instance
    = Some (demo_instance, []) ∧
  m_capturebufs demo_instance
    = Array2 (replicate 512 x00) (replicate 512 x00).
Proof.
  split; [exact demo_update_result|].
  destruct (@update_primes_capture_buffers demo_externals demo_host
              (demo_settings "mic") new_instance demo_instance []
              demo_update_result) as [Hbufs _].
  exact Hbufs.
Defined.

Lemma update_channel_counts_witness :
  @update demo_externals demo_host (demo_settings "mic") new_instance
    = Some (demo_instance, []) ∧
  0 <= m_capture_channels demo_instance <= 2 ∧
  (m_output_channels demo_instance = 1 ∨ m_output_channels demo_instance = 2) ∧
  m_capture_channels demo_instance <= m_output_channels demo_instance.
Proof.
  split; [exact demo_update_result|].
  destruct (@update_channel_counts demo_externals demo_host
              (demo_settings "mic") new_instance demo_instance []
              demo_update_result) as (H1 & H2 & H3 & _).
  exact (conj H1 (conj H2 H3)).
Defined.

Lemma update_smoothing_state_witness :
  @update demo_externals demo_host (demo_settings "mic") new_instance
    = Some (demo_instance, []) ∧
  get2 (m_tsmooth_buf demo_instance) 1
    = Some (Some (replicate 64 F32.zero)).
Proof.
  split; [exact demo_update_result|].
  pose proof (@update_smoothing_state demo_externals demo_host
                (demo_settings "mic") new_instance demo_instance []
                demo_update_result) as Hts.
  change (m_tsmoothing demo_instance) with EXPONENTIAL in Hts.
  exact (Hts 1%nat).
Defined.

Lemma update_sizes_render_buffers_witness :
  @update demo_externals demo_host (demo_settings "mic") new_instance
    = Some (demo_instance, []) ∧
  Z.of_nat (length (elem0 (m_interp_bufs demo_instance))) = 2 ∧
  Z.of_nat (length (elem1 (m_interp_bufs demo_instance))) = 2 ∧
  Z.of_nat (length (m_interp_indices demo_instance)) = 3.
Proof.
  split; [exact demo_update_result|].
  destruct (@update_sizes_render_buffers demo_externals demo_host
              (demo_settings "mic") new_instance demo_instance []
              demo_update_result) as (_ & H0 & H1 & Hi).
  exact (conj H0 (conj H1 Hi)).
Defined.

Lemma capture_audio_keeps_latest_bytes_witness :
  is_Some (m_audio_source demo_instance) ∧
  get2 (m_capturebufs demo_instance) 0
    = Some (drop (512 - 1024) (replicate 512 x00)) ∧
  ∃ s',
    capture_audio true demo_audio false demo_instance = Some s' ∧
    get2 (m_capturebufs s') 0
      = Some (drop 288 (replicate 512 x00 ++ replicate 800 x01)).
Proof.
  assert (is_Some (m_audio_source demo_instance)) as H1
    by (vm_compute; eauto).
  assert (get2 (m_capturebufs demo_instance) 0
            = Some (drop (512 - 1024) (replicate 512 x00))) as H2
    by (vm_compute; reflexivity).
  split; [exact H1|]. split; [exact H2|].
  destruct (capture_audio true demo_audio false demo_instance)
    as [s'|] eqn:Hcap; [|vm_compute in Hcap; discriminate].
  exists s'. split; [reflexivity|].
  destruct (capture_audio_keeps_latest_bytes demo_audio false demo_instance
              s' 0 (replicate 512 x00) H1 ltac:(vm_compute; lia) H2 Hcap)
    as (pushed & (plane & Hplane & ->) & _ & Hbuf).
  injection Hplane as <-. exact Hbuf.
Defined.

Lemma capture_audio_changes_captured_buffers_only_witness :
  ∃ s',
    capture_audio true demo_audio false demo_instance = Some s' ∧
    s' = set_capturebufs (m_capturebufs s') demo_instance ∧
    get2 (m_capturebufs s') 2 = get2 (m_capturebufs demo_instance) 2.
Proof.
  destruct (capture_audio true demo_audio false demo_instance)
    as [s'|] eqn:Hcap; [|vm_compute in Hcap; discriminate].
  exists s'. split; [reflexivity|].
  destruct (capture_audio_changes_captured_buffers_only true demo_audio false
              demo_instance s' Hcap) as (Heq & Hrest & _).
  split; [exact Heq|]. apply Hrest. vm_compute. lia.
Defined.

Lemma update_without_audio_info_witness :
  obs_get_audio_info silent_host = None ∧
  ∃ s' logs,
    @update demo_externals silent_host (demo_settings "mic") new_instance
      = Some (s', logs) ∧
    m_capture_channels s' = 0 ∧
    head logs = Some WarnNoChannelCount ∧
    capture_audio true demo_audio false s' = Some s'.
Proof.
  split; [reflexivity|].
  destruct (@update demo_externals silent_host (demo_settings "mic")
              new_instance)
    as [[s' logs]|] eqn:Hup; [|vm_compute in Hup; discriminate].
  exists s', logs. split; [reflexivity|].
  destruct (@update_without_audio_info demo_externals silent_host
              (demo_settings "mic") new_instance s' logs eq_refl Hup)
    as (_ & Hc & _ & Hl & Hcap).
  split; [exact Hc|]. split; [exact Hl|]. apply Hcap.
Defined.


Lemma update_bars_fit_width_witness :
  @update demo_externals demo_host (demo_settings "mic") new_instance
    = Some (demo_instance, []) ∧
  m_display_mode demo_instance ≠ CURVE ∧
  1 <= m_bar_width demo_instance ∧
  0 <= m_bar_gap demo_instance ∧
  1 * 30 + 24 <= m_width demo_instance ∧
  m_width demo_instance < 2 * 30 + 24.
Proof.
  assert (m_display_mode demo_instance ≠ CURVE) as Hd
    by (vm_compute; discriminate).
  assert (1 <= m_bar_width demo_instance) as Hb
    by (vm_compute; discriminate).
  assert (0 <= m_bar_gap demo_instance) as Hg
    by (vm_compute; discriminate).
  split; [exact demo_update_result|].
  split; [exact Hd|]. split; [exact Hb|]. split; [exact Hg|].
  destruct (@update_bars_fit_width demo_externals demo_host
              (demo_settings "mic") new_instance demo_instance []
              demo_update_result Hd Hb Hg) as [Hfit Hmax].
  split; [apply (Hfit 1); vm_compute; split; [discriminate|reflexivity]|].
  exact Hmax.
Defined.

Lemma update_defined_within_property_ranges_witness :
  in_property_ranges (demo_settings "mic") = true ∧
  P_AUTO_FFT_SIZE (demo_settings "mic") = false ∧
  ∃ s' logs,
    @update demo_externals silent_host (demo_settings "mic") new_instance
      = Some (s', logs) ∧
    m_width s' = 60 ∧ m_height s' = 225 ∧ m_fft_size s' = 128.
Proof.
  split; [reflexivity|]. split; [reflexivity|].
  destruct (@update_defined_within_property_ranges demo_externals silent_host
              (demo_settings "mic") new_instance eq_refl eq_refl)
    as (s' & logs & Hup & Hw & Hh & Hn & _).
  exists s', logs. split; [exact Hup|]. split; [exact Hw|].
  split; [exact Hh|]. exact Hn.
Defined.

Lemma render_bars_index_buffer_witness :
  num_idx demo_instance 19 = Some 12 ∧
  0 <= 12 ∧
  (Z.to_nat (12 / 6) <= 2)%nat ∧
  index_buffer 2 12 =
    Finished (Some <$> [0; 1; 2; 2; 1; 3; 4; 5; 6; 6; 5; 7]).
Proof.
  assert (num_idx demo_instance 19 = Some 12) as Hn
    by (vm_compute; reflexivity).
  assert (Z.to_nat (12 / 6) <= 2)%nat as Hf by (vm_compute; lia).
  assert (0 <= 12) as H0 by (vm_compute; discriminate).
  split; [exact Hn|]. split; [exact H0|]. split; [exact Hf|].
  destruct (render_bars_index_buffer demo_instance 19 12 2 Hn H0 Hf)
    as [_ Hbuf].
  exact Hbuf.
Defined.

Lemma render_curve_fills_vertex_buffer_witness :
  is_uint (m_width demo_curve_instance) ∧
  m_width demo_curve_instance + 2 < UINT_MOD ∧
  get2 (m_interp_bufs demo_curve_instance) 1
    = Some (replicate 60 F32.zero) ∧
  curve_num_verts SOLID demo_curve_instance = 62 ∧
  ∃ points',
    render_curve_vertices SOLID demo_curve_instance 1 (replicate 62 None)
      = Some (points', 62) ∧
    vertices_written 62 points'.
Proof.
  assert (is_uint (m_width demo_curve_instance)) as Hu
    by (vm_compute; split; [discriminate|reflexivity]).
  assert (m_width demo_curve_instance + 2 < UINT_MOD) as Hw
    by (vm_compute; reflexivity).
  assert (get2 (m_interp_bufs demo_curve_instance) 1
            = Some (replicate 60 F32.zero)) as Hv
    by (vm_compute; reflexivity).
  assert (curve_num_verts SOLID demo_curve_instance = 62) as Hn
    by (vm_compute; reflexivity).
  split; [exact Hu|]. split; [exact Hw|]. split; [exact Hv|].
  split; [exact Hn|].
  destruct (render_curve_fills_vertex_buffer SOLID demo_curve_instance 1
              (replicate 60 F32.zero) (replicate 62 None) Hu (λ _, Hw) Hv
              ltac:(vm_compute; discriminate)
              ltac:(vm_compute; reflexivity))
    as (points' & Hr & Hl & Hwr).
  exists points'. rewrite Hn in Hr. split; [exact Hr|].
  rewrite Hl in Hwr. exact Hwr.
Defined.

Lemma render_bars_vertices_in_bounds_witness :
  bar_stride demo_instance = Some 30 ∧
  max_steps demo_instance = Some 19 ∧
  bars_num_verts demo_instance 19 = Some 8 ∧
  num_idx demo_instance 19 = Some 12 ∧
  ∃ points',
    render_bars_vertices demo_instance 0 (replicate 8 None)
      = Some (points', 8) ∧
    vertices_written 8 points' ∧
    total_verts 8 = 12.
Proof.
  assert (bar_stride demo_instance = Some 30) as Hbs
    by (vm_compute; reflexivity).
  assert (max_steps demo_instance = Some 19) as Hms
    by (vm_compute; reflexivity).
  assert (bars_num_verts demo_instance 19 = Some 8) as Hnv
    by (vm_compute; reflexivity).
  assert (num_idx demo_instance 19 = Some 12) as Hni
    by (vm_compute; reflexivity).
  split; [exact Hbs|]. split; [exact Hms|]. split; [exact Hnv|].
  split; [exact Hni|].
  destruct (render_bars_vertices_in_bounds demo_instance 0
              [F32.zero; F32.zero] (replicate 8 None) 30 19 8 12
              ltac:(vm_compute; discriminate) Hbs
              ltac:(vm_compute; discriminate)
              ltac:(vm_compute; discriminate) Hms
              ltac:(vm_compute; discriminate)
              ltac:(vm_compute; reflexivity)
              ltac:(vm_compute; discriminate) Hnv Hni
              ltac:(vm_compute; reflexivity))
    as (points' & vertpos & Hr & _ & _ & _ & Hwr & _ & Hplain).
  destruct (Hplain ltac:(vm_compute; discriminate)) as [-> Htv].
  exists points'. split; [exact Hr|]. split; [exact Hwr|]. exact Htv.
Defined.

Lemma capture_audio_keeps_a_window_witness :
  0 <= m_fft_size demo_instance ∧
  m_fft_size demo_instance * 8 < SIZE_MOD ∧
  get2 (m_capturebufs demo_instance) 0 = Some (replicate 512 x00) ∧
  m_fft_size demo_instance * 4 <= circlebuf_size (replicate 512 x00) ∧
  ∃ s' cb',
    capture_audio true demo_audio false demo_instance = Some s' ∧
    get2 (m_capturebufs s') 0 = Some cb' ∧
    512 <= circlebuf_size cb' <= 1024.
Proof.
  assert (0 <= m_fft_size demo_instance) as H0
    by (vm_compute; discriminate).
  assert (m_fft_size demo_instance * 8 < SIZE_MOD) as H8
    by (vm_compute; reflexivity).
  assert (get2 (m_capturebufs demo_instance) 0 = Some (replicate 512 x00))
    as Hcb by (vm_compute; reflexivity).
  assert (m_fft_size demo_instance * 4 <= circlebuf_size (replicate 512 x00))
    as Hsz by (vm_compute; discriminate).
  split; [exact H0|]. split; [exact H8|]. split; [exact Hcb|].
  split; [exact Hsz|].
  destruct (capture_audio true demo_audio false demo_instance)
    as [s'|] eqn:Hcap; [|vm_compute in Hcap; discriminate].
  destruct (capture_audio_keeps_a_window true demo_audio false demo_instance
              s' 0 (replicate 512 x00) H0 H8 Hcap Hcb Hsz)
    as (cb' & Hcb' & Hlo & Hhi & _).
  exists s', cb'. split; [reflexivity|]. split; [exact Hcb'|].
  split; [exact Hlo|]. apply Hhi. vm_compute. discriminate.
Defined.

Lemma update_then_capture_defined_witness :
  @update demo_externals demo_host (demo_settings "mic") new_instance
    = Some (demo_instance, []) ∧
  ∃ s'',
    capture_audio true demo_audio false demo_instance = Some s'' ∧
    m_capture_channels s'' = 2.
Proof.
  split; [exact demo_update_result|].
  destruct (@update_then_capture_defined demo_externals demo_host
              (demo_settings "mic") new_instance demo_instance [] true
              demo_audio false demo_update_result)
    as (s'' & Hcap & Hch & _).
  { intros _ i Hi.
    assert (i = 0 ∨ i = 1)%nat as [-> | ->] by (vm_compute in Hi; lia);
      eexists; (split; [reflexivity | vm_compute; discriminate]). }
  exists s''. split; [exact Hcap|]. rewrite Hch. reflexivity.
Defined.

(** ** The interpolation index table *)



